(** * trading-rl: the market simulator, the trading-minute calendar,
      the timestamp repair script and the feed normaliser

    Shallow embedding of
    - [src/market_env.py]                        (module [market_env]),
    - [scripts/fix_integer_datetime_to_ts.py]    (module [fix_integer_datetime_to_ts]),
    - [scripts/download_akshare_minute.py]       (module [download_akshare_minute]),
    followed by the properties of the specification that concern them. *)

From Stdlib Require Import ZArith List Bool String Ascii Lia Floats.
From Stdlib Require Import Sorting.Sorted Sorting.Permutation.
Import ListNotations.
Local Open Scope Z_scope.

(** * Python and numpy values *)

Module py.

(** The exceptions the sources raise, or let escape. *)
Inductive exn : Type :=
| RuntimeError (msg : string)
| KeyError (key : Z)
| IndexError
| ValueError
| SystemExit (msg : string)
| TypeError.

Inductive result (A : Type) : Type :=
| Ok (a : A)
| Raise (e : exn).
Arguments Ok {A} a.
Arguments Raise {A} e.

Definition len {A : Type} (l : list A) : Z := Z.of_nat (List.length l).

(** [l[i]] on a list or a one-dimensional array: a negative index counts
    from the end, anything outside [-len, len) raises IndexError. *)
Definition getitem {A : Type} (l : list A) (i : Z) : result A :=
  let j := if i <? 0 then i + len l else i in
  if (j <? 0) || (len l <=? j) then Raise IndexError
  else match nth_error l (Z.to_nat j) with
       | Some x => Ok x
       | None => Raise IndexError
       end.

(** Bound adjustment of a slice with step 1. *)
Definition adjust_index (n i : Z) : Z :=
  if i <? 0 then Z.max 0 (i + n) else Z.min i n.

(** [l[i:j]]: never raises, out-of-range bounds are clipped. *)
Definition slice {A : Type} (l : list A) (i j : Z) : list A :=
  let lo := adjust_index (len l) i in
  let hi := adjust_index (len l) j in
  firstn (Z.to_nat (hi - lo)) (skipn (Z.to_nat lo) l).

(** Lookup in a dict literal with integer keys; a missing key is a KeyError. *)
Fixpoint dict_get {V : Type} (d : list (Z * V)) (k : Z) : result V :=
  match d with
  | [] => Raise (KeyError k)
  | (k', v) :: d' => if k =? k' then Ok v else dict_get d' k
  end.

(** Conversion of a Python int to a binary64 float, round to nearest even
    (exact for every integer of magnitude below 2^53; the simulator only
    converts positions and their differences, of magnitude at most 2). *)
Definition float_of_int (z : Z) : float :=
  SF2Prim (binary_normalize prec emax z 0 false).

(** [x.astype(np.float32)] on one binary64 value: rounding to binary32,
    the result held as the binary64 number of the same value. *)
Definition astype_float32 (x : float) : float :=
  match Prim2SF x with
  | S754_finite s m e =>
      SF2Prim (binary_normalize 24 128 (cond_Zopp s (Zpos m)) e s)
  | _ => x
  end.

(** ** Strings

    Python's [str] methods, on the ASCII range; the bytes of any other
    character are left as they are (the labels the scripts compare are ASCII
    words or caseless CJK words). *)

Definition is_space (c : ascii) : bool :=
  let n := nat_of_ascii c in
  ((9 <=? n) && (n <=? 13) || (28 <=? n) && (n <=? 32))%nat.

Definition lower_char (c : ascii) : ascii :=
  let n := nat_of_ascii c in
  if ((65 <=? n) && (n <=? 90))%nat then ascii_of_nat (n + 32) else c.

Definition upper_char (c : ascii) : ascii :=
  let n := nat_of_ascii c in
  if ((97 <=? n) && (n <=? 122))%nat then ascii_of_nat (n - 32) else c.

(** [s.lower()] *)
Fixpoint lower (s : string) : string :=
  match s with
  | EmptyString => EmptyString
  | String c s' => String (lower_char c) (lower s')
  end.

(** [s.capitalize()] *)
Definition capitalize (s : string) : string :=
  match s with
  | EmptyString => EmptyString
  | String c s' => String (upper_char c) (lower s')
  end.

Fixpoint lstrip (s : string) : string :=
  match s with
  | EmptyString => EmptyString
  | String c s' => if is_space c then lstrip s' else s
  end.

Fixpoint rev_string (acc s : string) : string :=
  match s with
  | EmptyString => acc
  | String c s' => rev_string (String c acc) s'
  end.

(** [s.strip()] *)
Definition strip (s : string) : string :=
  rev_string EmptyString (lstrip (rev_string EmptyString (lstrip s))).

(** [s.split()]: the maximal runs of characters that are not white space.
    [word] is the run being read, reversed. *)
Fixpoint split_aux (word : string) (s : string) : list string :=
  let flush := match word with
               | EmptyString => []
               | _ => [rev_string EmptyString word]
               end in
  match s with
  | EmptyString => flush
  | String c s' =>
      if is_space c then flush ++ split_aux EmptyString s'
      else split_aux (String c word) s'
  end.
Definition split (s : string) : list string := split_aux EmptyString s.

(** [ch in s] for a one-character string. *)
Fixpoint contains_char (ch : ascii) (s : string) : bool :=
  match s with
  | EmptyString => false
  | String c s' => Ascii.eqb c ch || contains_char ch s'
  end.

(** [name in names] *)
Definition mem (name : string) (names : list string) : bool :=
  existsb (String.eqb name) names.

(** Dicts with string keys, in insertion order. *)
Fixpoint sdict_get {V : Type} (d : list (string * V)) (k : string) : option V :=
  match d with
  | [] => None
  | (k', v) :: d' => if String.eqb k k' then Some v else sdict_get d' k
  end.

Fixpoint sdict_set {V : Type} (d : list (string * V)) (k : string) (v : V)
  : list (string * V) :=
  match d with
  | [] => [(k, v)]
  | (k', v') :: d' =>
      if String.eqb k k' then (k, v) :: d' else (k', v') :: sdict_set d' k v
  end.

End py.

(** * src/market_env.py *)

Module market_env.
Import py.

(** The attributes of a [MarketEnv] object ([observation_space] and
    [action_space] are never read by [reset] or [step]). *)
Record MarketEnv : Type := mkEnv {
  features : list (list float);
  prices : list float;
  window : Z;
  transaction_cost : float;
  T : Z;
  t : Z;
  position : Z;
  last_price : float;
  done : bool
}.

Definition set_t (v : Z) (self : MarketEnv) : MarketEnv :=
  mkEnv (features self) (prices self) (window self) (transaction_cost self)
        (T self) v (position self) (last_price self) (done self).
Definition set_position (v : Z) (self : MarketEnv) : MarketEnv :=
  mkEnv (features self) (prices self) (window self) (transaction_cost self)
        (T self) (t self) v (last_price self) (done self).
Definition set_last_price (v : float) (self : MarketEnv) : MarketEnv :=
  mkEnv (features self) (prices self) (window self) (transaction_cost self)
        (T self) (t self) (position self) v (done self).
Definition set_done (v : bool) (self : MarketEnv) : MarketEnv :=
  mkEnv (features self) (prices self) (window self) (transaction_cost self)
        (T self) (t self) (position self) (last_price self) v.

(** A method body: it reads and writes [self] and either returns or raises;
    the object is handed back in both cases, as it is when Python unwinds. *)
Definition M (A : Type) : Type := MarketEnv -> result A * MarketEnv.

Definition ret {A : Type} (a : A) : M A := fun self => (Ok a, self).
Definition bind {A B : Type} (m : M A) (k : A -> M B) : M B :=
  fun self =>
    match m self with
    | (Ok a, self') => k a self'
    | (Raise e, self') => (Raise e, self')
    end.
Definition raise {A : Type} (e : exn) : M A := fun self => (Raise e, self).
Definition lift {A : Type} (r : result A) : M A := fun self => (r, self).
Definition get {A : Type} (field : MarketEnv -> A) : M A :=
  fun self => (Ok (field self), self).
Definition assign (upd : MarketEnv -> MarketEnv) : M unit :=
  fun self => (Ok tt, upd self).
Definition when (b : bool) (m : M unit) : M unit := if b then m else ret tt.

Notation "x <- m ;; k" := (bind m (fun x => k))
  (at level 61, m at next level, right associativity).
Notation "m ;;; k" := (bind m (fun _ => k))
  (at level 61, right associativity).

Definition Observation : Type := list (list float).

Record Info : Type := mkInfo { pnl : float; tc : float }.

Record StepOutcome : Type := mkOutcome {
  obs : Observation;
  reward : float;
  done_flag : bool;
  info : Info
}.

(** [self.features[self.t - self.window:self.t].astype(np.float32)] *)
Definition _get_obs : M Observation :=
  self <- get (fun s => s) ;;
  ret (map (map astype_float32)
           (slice (features self) (t self - window self) (t self))).

Definition zeros_like (o : Observation) : Observation :=
  map (map (fun _ => 0%float)) o.

Definition reset : M Observation :=
  w <- get window ;;
  assign (set_t w) ;;;
  assign (set_position 0) ;;;
  self <- get (fun s => s) ;;
  p <- lift (getitem (prices self) (t self - 1)) ;;
  assign (set_last_price p) ;;;
  assign (set_done false) ;;;
  _get_obs.

(** [__init__]: the attributes are bound, the observation space is built,
    then [reset] runs; when a step raises no object is constructed.
    [spaces.Box(shape=(window, features.shape[1]))] refuses a negative
    [window] with a ValueError (numpy allocates its bounds with that shape);
    [Discrete(3)] cannot fail. *)
Definition __init__ (features : list (list float)) (prices : list float)
    (window : Z) (transaction_cost : float) : result MarketEnv :=
  let self := mkEnv features prices window transaction_cost (len prices)
                    0 0 0%float false in
  if window <? 0 then Raise ValueError
  else
    match reset self with
    | (Ok _, self') => Ok self'
    | (Raise e, _) => Raise e
    end.

Definition pos_map : list (Z * Z) := [(0, 0); (1, 1); (2, -1)].

(** [step]; [action] is the value of [int(action)]. *)
Definition step (action : Z) : M StepOutcome :=
  self <- get (fun s => s) ;;
  if done self then raise (RuntimeError "Environment done. Call reset().") else
  new_pos <- lift (dict_get pos_map action) ;;
  price <- lift (getitem (prices self) (t self)) ;;
  let ret_ := ((price - last_price self) / last_price self)%float in
  let pnl := (float_of_int (position self) * ret_)%float in
  let tc :=
    if negb (new_pos =? position self)
    then (float_of_int (Z.abs (new_pos - position self))
          * transaction_cost self)%float
    else 0%float in
  let reward := (pnl - tc)%float in
  assign (set_position new_pos) ;;;
  assign (set_last_price price) ;;;
  assign (set_t (t self + 1)) ;;;
  t' <- get t ;; T' <- get T ;;
  when (T' <=? t') (assign (set_done true)) ;;;
  d <- get done ;;
  o <- _get_obs ;;
  let obs := if negb d then o else zeros_like o in
  ret (mkOutcome obs reward d (mkInfo pnl tc)).

(** The simulator objects a program can hold: built by the constructor and
    then driven through [reset] and [step], whatever these calls return. *)
Inductive reachable : MarketEnv -> Prop :=
| reach_init f p w c self :
    __init__ f p w c = Ok self -> reachable self
| reach_reset self r self' :
    reachable self -> reset self = (r, self') -> reachable self'
| reach_step self a r self' :
    reachable self -> step a self = (r, self') -> reachable self'.

End market_env.

(** * pandas values: calendar days, minute timestamps, data frames *)

Module pd.
Import py.

(** A calendar day is its day number, counted from 1970-01-01 (day 0); the
    text form YYYY-MM-DD that the scripts pass between pandas calls denotes
    it one to one.  [date y m d] is the day number of a civil date. *)
Definition date (y m d : Z) : Z :=
  let y' := if m <=? 2 then y - 1 else y in
  let era := y' / 400 in
  let yoe := y' - era * 400 in
  let mp := (m + 9) mod 12 in
  let doy := (153 * mp + 2) / 5 + d - 1 in
  let doe := yoe * 365 + yoe / 4 - yoe / 100 + doy in
  era * 146097 + doe - 719468.

(** [Timestamp.weekday()]: Monday is 0, Sunday is 6; day 0 was a Thursday. *)
Definition weekday (day : Z) : Z := (day + 3) mod 7.

(** A minute timestamp is the number of minutes since 1970-01-01 00:00. *)
Definition at_time (day hh mm : Z) : Z := day * 1440 + hh * 60 + mm.
Definition day_of (ts : Z) : Z := ts / 1440.
Definition minute_of_day (ts : Z) : Z := ts mod 1440.

(** The integers [first, first + 1, ...] up to [last] inclusive. *)
Definition range_incl (first last : Z) : list Z :=
  map (fun k => first + Z.of_nat k) (seq 0 (Z.to_nat (last - first + 1))).

(** [pd.date_range(start, end, freq="1min")] on minute timestamps. *)
Definition date_range (start end_ : Z) : list Z := range_incl start end_.

(** [pd.bdate_range(start=..., end=..., freq='C')]: the days from [start] to
    [end_] inclusive that fall on Monday to Friday (default week mask, no
    holidays), ascending. *)
Definition bdate_range (start end_ : Z) : list Z :=
  filter (fun d => weekday d <? 5) (range_incl start end_).

(** The values a cell of a data frame holds. A missing value is the float
    NaN, as it is after [read_csv], or the missing timestamp NaT. *)
Inductive cell : Type :=
| CInt (z : Z)
| CFloat (f : float)
| CBool (b : bool)
| CStr (s : string)
| CTimestamp (minutes : Z)
| NaT.

Definition NaN : cell := CFloat nan.

Definition isna (c : cell) : bool :=
  match c with
  | CFloat f => PrimFloat.is_nan f
  | NaT => true
  | _ => false
  end.

(** [Series.dropna()] *)
Definition dropna_values (col : list cell) : list cell :=
  filter (fun c => negb (isna c)) col.

(** Truncation of a float to an integer; not defined on NaN and infinities. *)
Definition int_of_float (f : float) : result Z :=
  match Prim2SF f with
  | S754_zero _ => Ok 0
  | S754_finite s m e =>
      Ok (cond_Zopp s (if 0 <=? e then Zpos m * 2 ^ e else Zpos m / 2 ^ (- e)))
  | _ => Raise ValueError
  end.

Section Astype.
(** What [astype(int)] makes of a text: [None] when it raises (a text that
    is no integer, or an integer outside 64 bits). *)
Variable int_of_str : string -> option Z.

(** The conversion [astype(int)] applies to one value (a timestamp gives its
    nanoseconds). Only the success of the conversion is observed by the
    scripts. *)
Definition cell_to_int (c : cell) : result Z :=
  match c with
  | CInt z => Ok z
  | CFloat f => int_of_float f
  | CBool b => Ok (if b then 1 else 0)
  | CStr s => match int_of_str s with
              | Some z => Ok z
              | None => Raise ValueError
              end
  | CTimestamp m => Ok (m * 60000000000)
  | NaT => Raise ValueError
  end.

(** [Series.astype(int)]: every value is converted, the first failure raises. *)
Fixpoint astype_int (col : list cell) : result (list Z) :=
  match col with
  | [] => Ok []
  | c :: col' =>
      match cell_to_int c with
      | Raise e => Raise e
      | Ok z => match astype_int col' with
                | Raise e => Raise e
                | Ok zs => Ok (z :: zs)
                end
      end
  end.
End Astype.

(** A data frame: an index (with its optional name) and named columns; each
    row is its index value and one cell per column. Column labels are taken
    pairwise distinct, as [read_csv] and the provider deliver them. *)
Record DataFrame : Type := mkDataFrame {
  index_name : option string;
  columns : list string;
  rows : list (cell * list cell)
}.

(** The default index [0, 1, ...] over given rows. *)
Definition range_index (rs : list (list cell)) : list (cell * list cell) :=
  combine (map (fun k => CInt (Z.of_nat k)) (seq 0 (List.length rs))) rs.

(** [df.empty] *)
Definition empty (df : DataFrame) : bool :=
  match columns df, rows df with
  | [], _ => true
  | _, [] => true
  | _, _ => false
  end.

Fixpoint index_of (name : string) (names : list string) : option nat :=
  match names with
  | [] => None
  | x :: names' =>
      if String.eqb name x then Some O
      else option_map S (index_of name names')
  end.

(** The cell of a row in column [k]; a short row reads as missing. *)
Definition cell_at (k : nat) (row : list cell) : cell := nth k row NaN.

(** [df[name]]; a missing label is a KeyError. *)
Definition getcol (df : DataFrame) (name : string) : result (list cell) :=
  match index_of name (columns df) with
  | None => Raise (KeyError 0)
  | Some k => Ok (map (fun r => cell_at k (snd r)) (rows df))
  end.

Fixpoint set_nth (k : nat) (v : cell) (row : list cell) : list cell :=
  match k, row with
  | O, [] => [v]
  | O, _ :: row' => v :: row'
  | S k', [] => NaN :: set_nth k' v []
  | S k', c :: row' => c :: set_nth k' v row'
  end.

Fixpoint remove_nth {A : Type} (k : nat) (l : list A) : list A :=
  match k, l with
  | _, [] => []
  | O, _ :: l' => l'
  | S k', c :: l' => c :: remove_nth k' l'
  end.

(** [df[name] = values] for an array of values: the column is overwritten
    position by position (appended when the label is new); a length other
    than the number of rows is a ValueError. *)
Definition setitem (df : DataFrame) (name : string) (values : list cell)
  : result DataFrame :=
  if negb (len values =? len (rows df)) then Raise ValueError
  else
    let k := match index_of name (columns df) with
             | Some k => k
             | None => List.length (columns df)
             end in
    let names := match index_of name (columns df) with
                 | Some _ => columns df
                 | None => columns df ++ [name]
                 end in
    Ok (mkDataFrame (index_name df) names
          (map (fun rv => (fst (fst rv), set_nth k (snd rv) (snd (fst rv))))
               (combine (rows df) values))).

(** [df.set_index(name)]: the column becomes the index and leaves the
    columns; the previous index is dropped. *)
Definition set_index (df : DataFrame) (name : string) : result DataFrame :=
  match index_of name (columns df) with
  | None => Raise (KeyError 0)
  | Some k =>
      Ok (mkDataFrame (Some name) (remove_nth k (columns df))
            (map (fun r => (cell_at k (snd r), remove_nth k (snd r)))
                 (rows df)))
  end.

(** Order of index values: timestamps and numbers by value. *)
Definition cell_leb (a b : cell) : bool :=
  match a, b with
  | CTimestamp x, CTimestamp y => x <=? y
  | CInt x, CInt y => x <=? y
  | CFloat x, CFloat y => PrimFloat.leb x y
  | _, _ => true
  end.

Fixpoint insert_row (r : cell * list cell) (l : list (cell * list cell))
  : list (cell * list cell) :=
  match l with
  | [] => [r]
  | r' :: l' =>
      if cell_leb (fst r) (fst r') then r :: l else r' :: insert_row r l'
  end.

(** [df.sort_index()]: the rows in ascending order of their index value.
    pandas does not fix the order of rows with equal index values; here
    they keep the order they had. *)
Definition sort_index (df : DataFrame) : DataFrame :=
  mkDataFrame (index_name df) (columns df)
    (fold_right insert_row [] (rows df)).

(** [df.reset_index()]: the index becomes the first column, under its name
    or the label "index" ("level_0" when that is taken); a label already in
    use is a ValueError. *)
Definition reset_index (df : DataFrame) : result DataFrame :=
  let label := match index_name df with
               | Some name => name
               | None => if mem "index" (columns df) then "level_0"%string
                         else "index"%string
               end in
  if mem label (columns df) then Raise ValueError
  else Ok (mkDataFrame None (label :: columns df)
             (range_index (map (fun r => fst r :: snd r) (rows df)))).

(** [df.rename(columns=mapping)] *)
Definition rename (df : DataFrame) (mapping : list (string * string))
  : DataFrame :=
  mkDataFrame (index_name df)
    (map (fun c => match sdict_get mapping c with
                   | Some c' => c'
                   | None => c
                   end) (columns df))
    (rows df).

Fixpoint positions (names keep : list string) : result (list nat) :=
  match keep with
  | [] => Ok []
  | c :: keep' =>
      match index_of c names, positions names keep' with
      | Some k, Ok ks => Ok (k :: ks)
      | _, _ => Raise (KeyError 0)
      end
  end.

(** The places of a label among the columns, counted from [k]. *)
Fixpoint positions_of (name : string) (names : list string) (k : nat)
  : list nat :=
  match names with
  | [] => []
  | x :: names' =>
      if String.eqb name x then k :: positions_of name names' (S k)
      else positions_of name names' (S k)
  end.

(** [df[labels]] where a label may stand over several columns (as after a
    renaming): every column under each label, label by label; a label that
    is no column is a KeyError. *)
Definition getitem_labels (df : DataFrame) (labels : list string)
  : result DataFrame :=
  if forallb (fun c => mem c (columns df)) labels then
    let places c := positions_of c (columns df) 0 in
    Ok (mkDataFrame (index_name df)
          (flat_map (fun c => map (fun _ => c) (places c)) labels)
          (map (fun r => (fst r,
                          map (fun k => cell_at k (snd r))
                              (flat_map places labels)))
               (rows df)))
  else Raise (KeyError 0).

(** [df.dropna(subset=labels)]: the rows with no missing value in these
    columns. *)
Definition dropna (df : DataFrame) (subset : list string) : result DataFrame :=
  match positions (columns df) subset with
  | Raise e => Raise e
  | Ok ks =>
      Ok (mkDataFrame (index_name df) (columns df)
            (filter (fun r => forallb (fun k => negb (isna (cell_at k (snd r)))) ks)
                    (rows df)))
  end.

End pd.

(** * scripts/fix_integer_datetime_to_ts.py *)

Module fix_integer_datetime_to_ts.
Import py pd.

Definition trading_minutes_for_days (days : list Z) : list Z :=
  let parts :=
    map (fun d =>
           let morning := date_range (at_time d 9 30) (at_time d 11 30) in
           let afternoon := date_range (at_time d 13 0) (at_time d 15 0) in
           morning ++ afternoon) days in
  match parts with
  | [] => []
  | _ => List.concat parts
  end.

(** The inner loop of [extend_days_until_length],
    [while nxt.weekday() >= 5: nxt += pd.Timedelta(days=1)],
    one test of the condition per unit of fuel. *)
Fixpoint skip_weekend (fuel : nat) (nxt : Z) : option Z :=
  match fuel with
  | O => None
  | S fuel' =>
      if 5 <=? weekday nxt then skip_weekend fuel' (nxt + 1) else Some nxt
  end.

(** The [while True] loop, one iteration per unit of fuel; [None] is an
    exhausted fuel, never a result of the script. *)
Fixpoint extend_days_until_length (fuel : nat) (cur_days : list Z)
    (required_len : Z) : option (result (list Z)) :=
  match fuel with
  | O => None
  | S fuel' =>
      let ts := trading_minutes_for_days cur_days in
      if required_len <=? len ts then Some (Ok ts)
      else
        match getitem cur_days (-1) with
        | Raise e => Some (Raise e)
        | Ok last =>
            match skip_weekend fuel' (last + 1) with
            | None => None
            | Some nxt =>
                extend_days_until_length fuel' (cur_days ++ [nxt]) required_len
            end
        end
  end.

Definition build_minutes_sequence (fuel : nat) (start_date end_date : Z)
    (required_len : Z) : option (result (list Z)) :=
  let days := bdate_range start_date end_date in
  let ts := trading_minutes_for_days days in
  if required_len <=? len ts then Some (Ok (slice ts 0 required_len))
  else
    match extend_days_until_length fuel days required_len with
    | None => None
    | Some (Raise e) => Some (Raise e)
    | Some (Ok ts_ext) => Some (Ok (slice ts_ext 0 required_len))
    end.

(** [isinstance(x, (int, np.integer))] on an element of
    [astype(int).tolist()]. *)
Definition isinstance_int (x : Z) : bool := true.

Section Main.
Variable int_of_str : string -> option Z.

(** The test of lines 69-74 on the frame's time column. *)
Definition is_int_seq (col : list cell) : bool :=
  match astype_int int_of_str (dropna_values col) with
  | Ok vals =>
      let sample_vals := firstn 10 vals in
      forallb isinstance_int sample_vals
  | Raise _ => false
  end.

(** [main]: [infile] is the frame [read_csv] returns, [None] when the path
    does not exist; the result is the frame handed to [to_csv]. *)
Definition main (fuel : nat) (infile : option DataFrame) (start end_ : Z)
  : option (result DataFrame) :=
  match infile with
  | None => Some (Raise (SystemExit "输入文件不存在"))
  | Some df =>
      if negb (mem "datetime" (columns df))
      then Some (Raise (SystemExit "输入文件没有 'datetime' 列，无法处理。"))
      else
        match getcol df "datetime" with
        | Raise e => Some (Raise e)
        | Ok col =>
            if negb (is_int_seq col)
            then Some (Raise (SystemExit
                   "检测到 'datetime' 列似乎不是整数序列；请确认输入文件格式。"))
            else
              let n := len (rows df) in
              match build_minutes_sequence fuel start end_ n with
              | None => None
              | Some (Raise e) => Some (Raise e)
              | Some (Ok ts) =>
                  if len ts <? n
                  then Some (Raise (SystemExit
                         "无法构建足够的分钟时间戳，请检查 start/end 或数据是否超出合理范围。"))
                  else
                    match setitem df "datetime"
                            (map CTimestamp (slice ts 0 n)) with
                    | Raise e => Some (Raise e)
                    | Ok df1 =>
                        match set_index df1 "datetime" with
                        | Raise e => Some (Raise e)
                        | Ok df2 => Some (Ok (sort_index df2))
                        end
                    end
              end
        end
  end.
End Main.

End fix_integer_datetime_to_ts.

(** * scripts/download_akshare_minute.py *)

Module download_akshare_minute.
Import py pd.
Local Open Scope string_scope.

Section Normalize.
(** What pandas does to values, as the script calls it:
    - [repr_cell]: [str(x)] of a value that is not already a string;
    - [to_datetime]: [pd.to_datetime(column, errors='coerce')], NaT where a
      value does not parse;
    - [to_numeric]: [pd.to_numeric(column, errors='coerce')], NaN where a
      value does not parse;
    - [day_plus_seconds]: [pd.to_datetime(day_str) + pd.to_timedelta(nums,
      unit='s')], which may raise. *)
Variable repr_cell : cell -> string.
Variable to_datetime : list cell -> list cell.
Variable to_numeric : list cell -> list cell.
Variable day_plus_seconds : string -> list cell -> result (list cell).

Definition astype_str (c : cell) : string :=
  match c with
  | CStr s => s
  | _ => repr_cell c
  end.

Definition candidates : list string := ["datetime"; "time"; "时间"; "date"]%string.

(** [lower_map = {c.lower(): c for c in df.columns}] *)
Definition lower_map (names : list string) : list (string * string) :=
  fold_left (fun d c => sdict_set d (lower c) c) names [].

(** Lines 51-55: the first candidate that is a key of [lower_map]. *)
Fixpoint detect_in_map (d : list (string * string)) (cands : list string)
  : option string :=
  match cands with
  | [] => None
  | cand :: cands' =>
      match sdict_get d cand with
      | Some c => Some c
      | None => detect_in_map d cands'
      end
  end.

(** Lines 62-65: the first candidate equal to some lowered label, and for
    it the first such label. *)
Fixpoint detect_in_columns (names : list string) (cands : list string)
  : option string :=
  match cands with
  | [] => None
  | cand :: cands' =>
      if mem cand (map lower names)
      then hd_error (filter (fun c => String.eqb (lower c) cand) names)
      else detect_in_columns names cands'
  end.

(** Lines 39-71: the frame to work on and the label of its time column,
    [None] when the normaliser gives up. *)
Definition detect_datetime_col (df_raw : DataFrame)
  : option (DataFrame * string) :=
  let df := df_raw in
  match detect_in_map (lower_map (columns df)) candidates with
  | Some datetime_col => Some (df, datetime_col)
  | None =>
      match reset_index df with
      | Raise _ => None
      | Ok df' =>
          match detect_in_columns (columns df') candidates with
          | Some datetime_col => Some (df', datetime_col)
          | None => None
          end
      end
  end.

Definition count_na (col : list cell) : Z := len (filter isna col).

Definition str_add (prefix : string) (c : cell) : cell :=
  match c with
  | CStr s => CStr (prefix ++ s)
  | _ => NaN
  end.

Local Notation "x <-- m ;; k" :=
  (match m with Ok x => k | Raise e => Raise e end)
  (at level 61, m at next level, right associativity).

(** Lines 105-108: the rows without a parsed time are dropped; [None] when
    no row is left. *)
Definition drop_unparsed (df : DataFrame) : result (option DataFrame) :=
  df <-- dropna df ["datetime"%string] ;;
  if empty df then Ok None else Ok (Some df).

(** Lines 73-108: the column ['datetime'] of parsed times is added and the
    rows without one are dropped. *)
Definition parse_times (df : DataFrame) (datetime_col day_str : string)
  : result (option DataFrame) :=
  col <-- getcol df datetime_col ;;
  df <-- setitem df datetime_col
           (map (fun c => CStr (strip (astype_str c))) col) ;;
  col <-- getcol df datetime_col ;;
  let sample := firstn 5 (map astype_str (dropna_values col)) in
  let contains_date :=
    existsb (fun s => (1 <? len (split s))%Z || contains_char "-" s) sample in
  df <-- (if contains_date
          then setitem df "datetime" (to_datetime col)
          else setitem df "datetime"
                 (to_datetime (map (str_add (day_str ++ " ")) col))) ;;
  parsed <-- getcol df "datetime" ;;
  let df :=
    if (len parsed <? 2 * count_na parsed)%Z then
      match getcol df datetime_col with
      | Raise _ => df
      | Ok col =>
          let nums := to_numeric col in
          if existsb (fun c => negb (isna c)) nums then
            match day_plus_seconds day_str nums with
            | Raise _ => df
            | Ok v => match setitem df "datetime" v with
                      | Raise _ => df
                      | Ok df' => df'
                      end
            end
          else df
      end
    else df in
  drop_unparsed df.

Definition ohlcv : list string := ["open"; "high"; "low"; "close"; "volume"]%string.
Definition price_names : list string := ["open"; "high"; "low"; "close"]%string.

(** Lines 110-128 *)
Definition rename_chinese_and_capitalized (df : DataFrame) : DataFrame :=
  let add (zh en : string) (d : list (string * string)) :=
    if mem zh (columns df) then sdict_set d zh en else d in
  let rename_map := add "开盘" "open" [] in
  let rename_map := add "最高" "high" rename_map in
  let rename_map := add "最低" "low" rename_map in
  let rename_map := add "收盘" "close" rename_map in
  let rename_map := add "成交量" "volume" rename_map in
  let rename_map :=
    fold_left (fun d en =>
                 if negb (mem en (columns df)) && mem (capitalize en) (columns df)
                 then sdict_set d (capitalize en) en else d)
              ohlcv rename_map in
  match rename_map with
  | [] => df
  | _ => rename df rename_map
  end.

(** Lines 130-135 *)
Definition rename_lowercase_matches (df : DataFrame) : DataFrame :=
  let lowermap := lower_map (columns df) in
  fold_left (fun df want =>
               if negb (mem want (columns df))
               then match sdict_get lowermap want with
                    | Some c => rename df [(c, want)]
                    | None => df
                    end
               else df)
            ohlcv df.

(** The column-name mapping, lines 110-135. *)
Definition map_columns (df : DataFrame) : DataFrame :=
  rename_lowercase_matches (rename_chinese_and_capitalized df).

(** [pd.to_numeric(df[c], errors='coerce')]: a label that stands over
    several columns (two labels renamed to one canonical name) selects a
    frame, which [to_numeric] refuses with a TypeError. *)
Definition to_numeric_of (df : DataFrame) (c : string) : result (list cell) :=
  if (1 <? List.length (positions_of c (columns df) 0))%nat
  then Raise TypeError
  else col <-- getcol df c ;; Ok (to_numeric col).

(** Lines 137-152 *)
Definition keep_and_coerce (df : DataFrame) : result DataFrame :=
  let keep := "datetime"%string :: filter (fun c => mem c (columns df)) ohlcv in
  df <-- getitem_labels df keep ;;
  df <-- set_index df "datetime" ;;
  let df := sort_index df in
  df <-- fold_left
           (fun acc c =>
              df <-- acc ;;
              if mem c (columns df)
              then col <-- to_numeric_of df c ;; setitem df c col
              else Ok df)
           ohlcv (Ok df) ;;
  let price_cols := filter (fun c => mem c (columns df)) price_names in
  dropna df price_cols.

(** [parse_and_normalize_minute_df]; [None] is Python's [None]. *)
Definition parse_and_normalize_minute_df (df_raw : option DataFrame)
    (day_str : string) : result (option DataFrame) :=
  match df_raw with
  | None => Ok None
  | Some df_raw =>
      if empty df_raw then Ok None
      else
        match detect_datetime_col df_raw with
        | None => Ok None
        | Some (df, datetime_col) =>
            parsed <-- parse_times df datetime_col day_str ;;
            match parsed with
            | None => Ok None
            | Some df =>
                df <-- keep_and_coerce (map_columns df) ;;
                Ok (Some df)
            end
        end
  end.

End Normalize.

End download_akshare_minute.

(** * notebooks/01_minute_eda_and_baseline.py, lines 90-99 *)

Module notebook_01.
Import py market_env.

(** [for a in actions: env.step(a)]: the calls in sequence, their results
    collected; as in Python, the first exception ends the loop. *)
Fixpoint steps (actions : list Z) : M (list StepOutcome) :=
  match actions with
  | [] => ret []
  | a :: rest =>
      o <- step a ;;
      os <- steps rest ;;
      ret (o :: os)
  end.

Definition TRANSACTION_COST : float := 0.0005%float.

(** Lines 93-98: the simulator over the first [min(2000, len(prices))] bars
    with a 30-bar window, a [reset], and three steps; [a1], [a2], [a3] are
    the actions [env.action_space.sample()] draws. *)
Definition env_smoke_test (features : list (list float)) (prices : list float)
    (a1 a2 a3 : Z) : result (list StepOutcome) :=
  let T := Z.min 2000 (len prices) in
  match __init__ (slice features 0 T) (slice prices 0 T) 30 TRANSACTION_COST with
  | Raise e => Raise e
  | Ok env => fst ((reset ;;; steps [a1; a2; a3]) env)
  end.

End notebook_01.

(** * More of pandas, as the cleaning script and the loader call it *)

Module pd_frame.
Import py pd.

(** The values of the column at place [k]. *)
Definition column (k : nat) (df : DataFrame) : list cell :=
  map (fun r => cell_at k (snd r)) (rows df).

(** The frame with a given index and given columns of values. *)
Definition of_columns (name : option string) (labels : list string)
    (index : list cell) (cols : list (list cell)) : DataFrame :=
  mkDataFrame name labels
    (combine index
       (map (fun i => map (fun col => nth i col NaN) cols)
            (seq 0 (List.length index)))).

(** A column-wise operation on a frame. *)
Definition apply_columns (f : list cell -> list cell) (df : DataFrame)
  : DataFrame :=
  of_columns (index_name df) (columns df) (map fst (rows df))
    (map (fun k => f (column k df)) (seq 0 (List.length (columns df)))).

(** [Series.ffill()]: a missing value takes the last value seen before it,
    if any; [last] is that value. *)
Fixpoint ffill_values (last : option cell) (col : list cell) : list cell :=
  match col with
  | [] => []
  | c :: col' =>
      if isna c
      then match last with
           | Some v => v
           | None => c
           end :: ffill_values last col'
      else c :: ffill_values (Some c) col'
  end.

(** [Series.bfill()]: the same from the end. *)
Definition bfill_values (col : list cell) : list cell :=
  rev (ffill_values None (rev col)).

(** [df.ffill()] and [df.bfill()] *)
Definition ffill (df : DataFrame) : DataFrame :=
  apply_columns (ffill_values None) df.
Definition bfill (df : DataFrame) : DataFrame :=
  apply_columns bfill_values df.

(** [df.dropna()]: the rows without a missing value in any column. *)
Definition dropna_any (df : DataFrame) : DataFrame :=
  mkDataFrame (index_name df) (columns df)
    (filter (fun r => forallb (fun k => negb (isna (cell_at k (snd r))))
                        (seq 0 (List.length (columns df))))
            (rows df)).

End pd_frame.

(** * scripts/prepare_minute_csv.py *)

Module prepare_minute_csv.
Import py pd pd_frame.
Local Open Scope string_scope.

Section NormalizeCsv.
(** [pd.to_datetime(column)] with the default [errors='raise']: it raises
    on a value it cannot parse. *)
Variable to_datetime : list cell -> result (list cell).

Local Notation "x <-- m ;; k" :=
  (match m with Ok x => k | Raise e => Raise e end)
  (at level 61, m at next level, right associativity).

(** Line 12, the tuple of names. *)
Definition dt_names : list string :=
  ["datetime"; "time"; "日期"; "时间"; "date"; "time"].

Definition dt_candidates (df : DataFrame) : list string :=
  filter (fun c => mem (lower c) dt_names) (columns df).

(** Line 20: [{c.lower(): c for c in df.columns}] *)
Definition cols_lower (names : list string) : list (string * string) :=
  fold_left (fun d c => sdict_set d (lower c) c) names [].

Definition ohlcv : list string := ["open"; "high"; "low"; "close"; "volume"].

(** Lines 22-23, the pairs of the loop. *)
Definition chinese_pairs : list (string * string) :=
  [("开盘", "open"); ("开盘价", "open"); ("收盘", "close"); ("收盘价", "close");
   ("最高", "high"); ("最低", "low"); ("成交量", "volume")].

(** Lines 19-31 *)
Definition rename_map (names : list string) : list (string * string) :=
  let cols_lower := cols_lower names in
  let rename_map : list (string * string) := [] in
  let rename_map :=
    if mem "开盘" names
       || match sdict_get cols_lower "开盘价" with
          | Some _ => true
          | None => false
          end
    then
      fold_left
        (fun d kv =>
           let '(k, v) := kv in
           if mem k names then sdict_set d k v
           else match sdict_get cols_lower k with
                | Some c => sdict_set d c v
                | None => d
                end)
        chinese_pairs rename_map
    else rename_map in
  fold_left
    (fun d k =>
       if negb (mem k names) && mem (capitalize k) names
       then sdict_set d (capitalize k) k
       else d)
    ohlcv rename_map.

(** [normalize_csv] on the frame [pd.read_csv(p)] delivers; the result is
    the frame written to [out_path].  The text of the ValueError of line 14
    is not recorded. *)
Definition normalize_csv (df : DataFrame) : result DataFrame :=
  match dt_candidates df with
  | [] => Raise ValueError
  | dt_col :: _ =>
      col <-- getcol df dt_col ;;
      parsed <-- to_datetime col ;;
      df <-- setitem df dt_col parsed ;;
      df <-- set_index df dt_col ;;
      let df := sort_index df in
      let rename_map := rename_map (columns df) in
      let df := match rename_map with
                | [] => df
                | _ => rename df rename_map
                end in
      let keep := filter (fun c => mem c (columns df)) ohlcv in
      df <-- getitem_labels df keep ;;
      Ok (dropna_any (bfill (ffill df)))
  end.

End NormalizeCsv.

End prepare_minute_csv.

(** * src/data_loader.py *)

Module data_loader.
Import py pd pd_frame.
Local Open Scope string_scope.

Section LoadMinuteCsv.
(** [pd.to_datetime(column)] with the default [errors='raise'], and
    [Series.astype(float)]; both raise on a value they cannot convert. *)
Variable to_datetime : list cell -> result (list cell).
Variable astype_float : list cell -> result (list cell).

Local Notation "x <-- m ;; k" :=
  (match m with Ok x => k | Raise e => Raise e end)
  (at level 61, m at next level, right associativity).

Definition ohlcv : list string := ["open"; "high"; "low"; "close"; "volume"].

(** [pd.to_datetime(df[label])]: a label that stands over several columns
    selects a frame, which [to_datetime] refuses (duplicate keys). *)
Definition to_datetime_of (df : DataFrame) (label : string)
  : result (list cell) :=
  if (1 <? List.length (positions_of label (columns df) 0))%nat
  then Raise ValueError
  else col <-- getcol df label ;; to_datetime col.

(** The columns converted one after the other; the first failure raises. *)
Fixpoint convert_columns (cols : list (list cell))
  : result (list (list cell)) :=
  match cols with
  | [] => Ok []
  | col :: cols' =>
      col <-- astype_float col ;;
      cols' <-- convert_columns cols' ;;
      Ok (col :: cols')
  end.

(** [df.astype(float)] *)
Definition astype_float_frame (df : DataFrame) : result DataFrame :=
  cols <-- convert_columns
             (map (fun k => column k df) (seq 0 (List.length (columns df)))) ;;
  Ok (of_columns (index_name df) (columns df) (map fst (rows df)) cols).

(** [load_minute_csv] on a frame, or on the frame [pd.read_csv] delivers
    for a path. *)
Definition load_minute_csv (path_or_df : DataFrame) : result DataFrame :=
  let df := mkDataFrame (index_name path_or_df)
              (map lower (columns path_or_df)) (rows path_or_df) in
  dt_col <-- (if mem "datetime" (columns df) then Ok "datetime"
              else if mem "date" (columns df) then Ok "date"
              else getitem (columns df) 0) ;;
  parsed <-- to_datetime_of df dt_col ;;
  df <-- setitem df dt_col parsed ;;
  df <-- set_index df dt_col ;;
  let df := sort_index df in
  let keep := filter (fun c => mem c (columns df)) ohlcv in
  df <-- getitem_labels df keep ;;
  astype_float_frame df.

End LoadMinuteCsv.

End data_loader.

(** * scripts/download_akshare_minute.py, lines 26-30 and 155-210 *)

Module download_akshare_minute_range.
Import py pd download_akshare_minute.
Local Open Scope string_scope.
Local Open Scope list_scope.

(** [trading_days_between]: the days stand for their text YYYY-MM-DD. *)
Definition trading_days_between (start_date end_date : Z) : list Z :=
  bdate_range start_date end_date.

(** [s.startswith("6")] *)
Definition startswith_6 (s : string) : bool :=
  match s with
  | String c _ => Ascii.eqb c "6"%char
  | EmptyString => false
  end.

(** [except Exception] does not catch [SystemExit]. *)
Definition is_exception (e : exn) : bool :=
  match e with
  | SystemExit _ => false
  | _ => true
  end.

(** [index.date == day] on one index value: [None] when the value is no
    time (the attribute [date] is missing then). *)
Definition on_day (day : Z) (c : cell) : option bool :=
  match c with
  | CTimestamp m => Some (day_of m =? day)%Z
  | NaT => Some false
  | _ => None
  end.

(** [df[df.index.date == day]]; [None] is the AttributeError of an index
    that does not hold times. *)
Definition rows_of_day (df : DataFrame) (day : Z) : option DataFrame :=
  if forallb (fun r => match on_day day (fst r) with
                       | Some _ => true
                       | None => false
                       end) (rows df)
  then Some (mkDataFrame (index_name df) (columns df)
               (filter (fun r => match on_day day (fst r) with
                                 | Some b => b
                                 | None => false
                                 end) (rows df)))
  else None.

(** The columns of [pd.concat(frames)]: the labels in order of appearance. *)
Definition concat_columns (frames : list DataFrame) : list string :=
  fold_left
    (fun acc f => acc ++ filter (fun c => negb (mem c acc)) (columns f))
    frames [].

(** A row laid out under other columns; a column it has not is missing. *)
Definition reindex_row (names all : list string) (row : list cell)
  : list cell :=
  map (fun c => match index_of c names with
                | Some k => cell_at k row
                | None => NaN
                end) all.

Definition same_name (a b : option string) : bool :=
  match a, b with
  | Some x, Some y => String.eqb x y
  | None, None => true
  | _, _ => false
  end.

(** [pd.concat(frames)]: the rows of the frames one after the other; no
    frame at all is a ValueError. *)
Definition concat (frames : list DataFrame) : result DataFrame :=
  match frames with
  | [] => Raise ValueError
  | f :: fs =>
      let all := concat_columns frames in
      Ok (mkDataFrame
            (if forallb (fun g => same_name (index_name g) (index_name f)) fs
             then index_name f else None)
            all
            (flat_map
               (fun g => map (fun r => (fst r,
                                        reindex_row (columns g) all (snd r)))
                             (rows g))
               frames))
  end.

(** Equality of index values. *)
Definition same_label (a b : cell) : bool :=
  match a, b with
  | CTimestamp x, CTimestamp y => (x =? y)%Z
  | CInt x, CInt y => (x =? y)%Z
  | CBool x, CBool y => Bool.eqb x y
  | CStr x, CStr y => String.eqb x y
  | CFloat x, CFloat y =>
      PrimFloat.eqb x y || (PrimFloat.is_nan x && PrimFloat.is_nan y)
  | NaT, NaT => true
  | _, _ => false
  end.

(** [rows[~index.duplicated(keep='first')]]; [seen] holds the index values
    met so far. *)
Fixpoint drop_duplicated (seen : list cell) (rs : list (cell * list cell))
  : list (cell * list cell) :=
  match rs with
  | [] => []
  | r :: rs' =>
      if existsb (same_label (fst r)) seen then drop_duplicated seen rs'
      else r :: drop_duplicated (fst r :: seen) rs'
  end.

Section Range.
(** The normaliser's view of pandas, and around the driver:
    - [stock_zh_a_minute n symbol period]: what the provider answers to
      the call number [n] of the run (a frame, [None], or an exception);
    - [strftime]: the text YYYY-MM-DD of a day;
    - [str]: [str(freq)], also inside the f-strings;
    - [path_join]: [str(out_dir / name)];
    - [repr_set]: the text of a set of prefixes inside an f-string. *)
Variable repr_cell : cell -> string.
Variable to_datetime : list cell -> list cell.
Variable to_numeric : list cell -> list cell.
Variable day_plus_seconds : string -> list cell -> result (list cell).
Variable stock_zh_a_minute : nat -> string -> string -> result (option DataFrame).
Variable strftime : Z -> string.
Variable str : Z -> string.
Variable path_join : string -> string -> string.
Variable repr_set : list string -> string.

(** What one pass of the body of the loop over the days comes to. *)
Inductive day_outcome : Type :=
| Appended (df_day : DataFrame)
| Failed
| Escaped (e : exn).

(** Lines 171-196, for the call number [calls] of the run. *)
Definition try_day (calls : nat) (ak_symbol period : string) (d : Z)
  : day_outcome :=
  match stock_zh_a_minute calls ak_symbol period with
  | Raise e => if is_exception e then Failed else Escaped e
  | Ok df_raw =>
      match parse_and_normalize_minute_df repr_cell to_datetime to_numeric
              day_plus_seconds df_raw (strftime d) with
      | Raise e => if is_exception e then Failed else Escaped e
      | Ok None => Failed
      | Ok (Some df_day) =>
          if empty df_day then Failed
          else match rows_of_day df_day d with
               | None => Failed
               | Some df_day => if empty df_day then Failed
                                else Appended df_day
               end
      end
  end.

(** Lines 170-196: the frames of the days that gave one, and the number of
    calls made to the provider so far. *)
Fixpoint download_days (calls : nat) (ak_symbol period : string)
    (days : list Z) : result (list DataFrame) * nat :=
  match days with
  | [] => (Ok [], calls)
  | d :: days' =>
      match try_day calls ak_symbol period d with
      | Escaped e => (Raise e, S calls)
      | Failed => download_days (S calls) ak_symbol period days'
      | Appended df_day =>
          match download_days (S calls) ak_symbol period days' with
          | (Ok frames, n) => (Ok (df_day :: frames), n)
          | (Raise e, n) => (Raise e, n)
          end
      end
  end.

Definition no_data (tried_prefixes : list string) : string :=
  ("所有前缀 " ++ repr_set tried_prefixes
   ++ " 都未获取到有效分钟数据。请检查 symbol 或改用 tushare/券商数据源。")%string.

(** Lines 164-210, the loop over the prefixes; the result is the path
    returned and the frame written there. *)
Fixpoint try_prefixes (calls : nat) (symbol_code : string) (freq : Z)
    (out_dir : string) (days : list Z) (tried_prefixes prefixes : list string)
  : result (string * DataFrame) * nat :=
  match prefixes with
  | [] => (Raise (RuntimeError (no_data tried_prefixes)), calls)
  | prefix :: prefixes' =>
      let tried_prefixes :=
        if mem prefix tried_prefixes then tried_prefixes
        else tried_prefixes ++ [prefix] in
      let ak_symbol := (prefix ++ symbol_code)%string in
      match download_days calls ak_symbol (str freq) days with
      | (Raise e, n) => (Raise e, n)
      | (Ok [], n) =>
          try_prefixes n symbol_code freq out_dir days tried_prefixes prefixes'
      | (Ok frames, n) =>
          match concat frames with
          | Raise e => (Raise e, n)
          | Ok result =>
              let result := sort_index result in
              let result :=
                mkDataFrame (index_name result) (columns result)
                  (drop_duplicated [] (rows result)) in
              let out_path :=
                path_join out_dir
                  (symbol_code ++ "_" ++ str freq ++ "m_" ++ prefix
                   ++ "_ts.csv")%string in
              (Ok (out_path, result), n)
          end
      end
  end.

(** [download_minute_range_and_save]; waiting and printing are left out,
    the output directory is taken to exist and the file to be writable. *)
Definition download_minute_range_and_save (symbol_code : string)
    (start_date end_date : Z) (freq : Z) (out_dir : string)
  : result (string * DataFrame) * nat :=
  let prefixes := if startswith_6 symbol_code then ["sh"; "sz"]
                  else ["sz"; "sh"] in
  let days := trading_days_between start_date end_date in
  try_prefixes 0 symbol_code freq out_dir days [] prefixes.

End Range.

End download_akshare_minute_range.

(** * scripts/generate_sample_data.py *)

Module generate_sample_data.
Import py pd download_akshare_minute_range.
Local Open Scope list_scope.

(** [np.cumsum] on floats: the running sums, added left to right. *)
Fixpoint cumsum_from (acc : float) (l : list float) : list float :=
  match l with
  | [] => []
  | x :: l' => let s := (acc + x)%float in s :: cumsum_from s l'
  end.
Definition cumsum (l : list float) : list float :=
  match l with
  | [] => []
  | x :: l' => x :: cumsum_from x l'
  end.

(** [np.maximum] and [np.minimum] on two floats. *)
Definition maximum (a b : float) : float :=
  if PrimFloat.leb b a || PrimFloat.is_nan a then a else b.
Definition minimum (a b : float) : float :=
  if PrimFloat.leb a b || PrimFloat.is_nan a then a else b.

(** Element by element, as numpy does on arrays of one length. *)
Fixpoint zip_with (f : float -> float -> float) (a b : list float)
  : list float :=
  match a, b with
  | x :: a', y :: b' => f x y :: zip_with f a' b'
  | _, _ => []
  end.

Section Generate.
(** numpy's global generator: the value at place [k] of the array that the
    draw number [n] of the run delivers, for [np.random.normal(scale=...)]
    and for [np.random.randint(low, high)]. *)
Variable normal : nat -> float -> nat -> float.
Variable randint : nat -> Z -> Z -> nat -> Z.

Definition draw_normal (n : nat) (scale : float) (size : nat) : list float :=
  map (normal n scale) (seq 0 size).
Definition draw_randint (n : nat) (low high : Z) (size : nat) : list Z :=
  map (randint n low high) (seq 0 size).

(** [generate_single_day]; [draws] is the number of draws made before, and
    the day stands for its text YYYY-MM-DD. *)
Definition generate_single_day (draws : nat) (date : Z) : DataFrame :=
  let morning := date_range (at_time date 9 30) (at_time date 11 30) in
  let afternoon := date_range (at_time date 13 0) (at_time date 15 0) in
  let idx := morning ++ afternoon in
  let n := List.length idx in
  let price :=
    map (fun c => (100 + c)%float) (cumsum (draw_normal draws 0.02 n)) in
  let open_p := zip_with PrimFloat.add price (draw_normal (draws + 1) 0.005 n) in
  let close_p := zip_with PrimFloat.add price (draw_normal (draws + 2) 0.005 n) in
  let high_p :=
    zip_with PrimFloat.add (zip_with maximum open_p close_p)
      (map PrimFloat.abs (draw_normal (draws + 3) 0.01 n)) in
  let low_p :=
    zip_with PrimFloat.sub (zip_with minimum open_p close_p)
      (map PrimFloat.abs (draw_normal (draws + 4) 0.01 n)) in
  let volume := draw_randint (draws + 5) 100 1000 n in
  mkDataFrame None
    ["datetime"; "open"; "high"; "low"; "close"; "volume"]%string
    (range_index
       (map (fun i => [CTimestamp (nth i idx 0);
                       CFloat (nth i open_p 0%float);
                       CFloat (nth i high_p 0%float);
                       CFloat (nth i low_p 0%float);
                       CFloat (nth i close_p 0%float);
                       CInt (nth i volume 0)])
            (seq 0 n))).

(** Lines 35-38: one frame per day, six draws each. *)
Fixpoint generate_frames (draws : nat) (start : Z) (offsets : list nat)
  : list DataFrame :=
  match offsets with
  | [] => []
  | i :: offsets' =>
      generate_single_day draws (start + Z.of_nat i)
      :: generate_frames (draws + 6) start offsets'
  end.

(** [generate_multiple_days]: [reset_index(drop=True)] numbers the rows of
    the frames put together. *)
Definition generate_multiple_days (n_days : Z) (start_date : Z)
  : result DataFrame :=
  let frames := generate_frames 0 start_date (seq 0 (Z.to_nat n_days)) in
  match concat frames with
  | Raise e => Raise e
  | Ok df =>
      Ok (mkDataFrame None (columns df) (range_index (map snd (rows df))))
  end.

End Generate.

End generate_sample_data.

(** * Auxiliary definitions of the statements *)

Module market_env_aux.
Import py market_env.

(** The transaction cost of a move from the held position to [target]. *)
Definition cost (self : MarketEnv) (target : Z) : float :=
  if target =? position self then 0%float
  else (float_of_int (Z.abs (target - position self))
        * transaction_cost self)%float.

(** The object a successful step leaves behind. *)
Definition stepped (self : MarketEnv) (target : Z) (price : float)
  : MarketEnv :=
  mkEnv (features self) (prices self) (window self) (transaction_cost self)
        (T self) (t self + 1) target price
        (if T self <=? t self + 1 then true else done self).

(** The object a successful [reset] leaves behind. *)
Definition rewound (self : MarketEnv) (p : float) : MarketEnv :=
  mkEnv (features self) (prices self) (window self) (transaction_cost self)
        (T self) (window self) 0 p false.

(** What holds of every simulator object in use. *)
Definition consistent (self : MarketEnv) : Prop :=
  T self = len (prices self)
  /\ - T self < window self <= T self
  /\ window self <= t self
  /\ In (position self) [-1; 0; 1]
  /\ (done self = true -> T self <= t self).

(** A simulator over four prices with a one-bar window, as constructed,
    and the same simulator when its episode is over. *)
Definition sample_features : list (list float) :=
  [[1; 2]; [3; 4]; [5; 6]; [7; 8]]%float.
Definition sample_prices : list float := [100; 101; 99; 99]%float.
Definition sample_env : MarketEnv :=
  mkEnv sample_features sample_prices 1 0.5 4 1 0 100 false.
Definition finished_env : MarketEnv :=
  mkEnv sample_features sample_prices 1 0.5 4 4 1 99 true.


(** The simulator over the same four prices with window = T = 4, as
    constructed. *)
Definition full_window_env : MarketEnv :=
  mkEnv sample_features sample_prices 4 0.5 4 4 0 99 false.

End market_env_aux.

Module calendar_aux.
Import py pd fix_integer_datetime_to_ts.

(** The minutes of one trading day: both sessions, in time order. *)
Definition day_minutes (d : Z) : list Z :=
  date_range (at_time d 9 30) (at_time d 11 30)
  ++ date_range (at_time d 13 0) (at_time d 15 0).

(** A minute of the day inside 09:30-11:30 or 13:00-15:00, bounds included. *)
Definition in_session (m : Z) : Prop :=
  9 * 60 + 30 <= m <= 11 * 60 + 30 \/ 13 * 60 <= m <= 15 * 60.

(** The number of minutes a trading day contributes. *)
Definition minutes_per_day : Z := 242.

Definition ascending (l : list Z) : Prop := StronglySorted Z.lt l.

(** A minute of a trading session on a day from Monday to Friday. *)
Definition trading_minute (x : Z) : Prop :=
  weekday (day_of x) < 5 /\ in_session (minute_of_day x).


End calendar_aux.

Module repair_aux.
Import py pd fix_integer_datetime_to_ts.

(** Every row of a frame has one cell per column. *)
Definition rectangular (df : DataFrame) : Prop :=
  forall r, In r (rows df) -> List.length (snd r) = List.length (columns df).

(** The message of the validation exit of [main]. *)
Definition not_an_integer_sequence : string :=
  "检测到 'datetime' 列似乎不是整数序列；请确认输入文件格式。".

(** [astype(int)] on ASCII text, Python's [int(s)] within 64 bits: optional
    sign, then decimal digits that single underscores may separate, white
    space around; a value outside 64 bits overflows. *)
Definition digit_of (c : ascii) : option Z :=
  let n := nat_of_ascii c in
  if ((48 <=? n) && (n <=? 57))%nat then Some (Z.of_nat (n - 48)) else None.

Fixpoint digits_value (acc : Z) (after_digit : bool) (s : string) : option Z :=
  match s with
  | EmptyString => if after_digit then Some acc else None
  | String c s' =>
      match digit_of c with
      | Some d => digits_value (10 * acc + d) true s'
      | None =>
          if Ascii.eqb c "_" && after_digit then digits_value acc false s'
          else None
      end
  end.

Definition int_of_ascii (s : string) : option Z :=
  let value :=
    match strip s with
    | String "-" s' => option_map Z.opp (digits_value 0 false s')
    | String "+" s' => digits_value 0 false s'
    | s' => digits_value 0 false s'
    end in
  match value with
  | Some z => if (- 2 ^ 63 <=? z) && (z <? 2 ^ 63) then Some z else None
  | None => None
  end.

(** Three bars whose time column is the counter 0, 1, 2; the same bars with
    the counter out of order; and bars that carry real timestamps. *)
Definition counter_frame : DataFrame :=
  mkDataFrame None ["datetime"; "close"; "volume"]%string
    (range_index [[CInt 0; CFloat 10.5; CInt 100];
                  [CInt 1; CFloat 10.75; CInt 250];
                  [CInt 2; CFloat 10.25; CInt 175]]).

Definition shuffled_frame : DataFrame :=
  mkDataFrame None ["datetime"; "close"; "volume"]%string
    (range_index [[CInt 2; CFloat 10.5; CInt 100];
                  [CInt 0; CFloat 10.75; CInt 250];
                  [CInt 1; CFloat 10.25; CInt 175]]).

Definition dated_frame : DataFrame :=
  mkDataFrame None ["datetime"; "close"]%string
    (range_index [[CStr "2025-10-03 09:30:00"; CFloat 10.5];
                  [CStr "2025-10-03 09:31:00"; CFloat 10.75]]).

End repair_aux.

Module feed_aux.
Import py pd download_akshare_minute repair_aux.
Local Open Scope string_scope.

(** pandas on the values of the sample payloads below: [str] of a value,
    [to_datetime] on texts of the form YYYY-MM-DD HH:MM, [to_numeric] on
    numbers, and the sum of a day and second offsets (not reached by the
    samples). *)
Definition sample_repr (c : cell) : string :=
  match c with
  | CStr s => s
  | CBool true => "True"
  | CBool false => "False"
  | NaT => "NaT"
  | _ => "nan"
  end.

Definition parse_minute (c : cell) : cell :=
  match c with
  | CStr s =>
      let part (i n : nat) := digits_value 0 false (substring i n s) in
      let sep (i : nat) (ch : ascii) :=
        match get i s with
        | Some c => Ascii.eqb c ch
        | None => false
        end in
      if (String.length s =? 16)%nat
         && sep 4%nat "-"%char && sep 7%nat "-"%char
         && sep 10%nat " "%char && sep 13%nat ":"%char
      then match part 0%nat 4%nat, part 5%nat 2%nat, part 8%nat 2%nat,
                 part 11%nat 2%nat, part 14%nat 2%nat with
           | Some y, Some m, Some d, Some hh, Some mm =>
               CTimestamp (at_time (date y m d) hh mm)
           | _, _, _, _, _ => NaT
           end
      else NaT
  | CTimestamp m => CTimestamp m
  | _ => NaT
  end.

Definition sample_to_datetime (col : list cell) : list cell :=
  map parse_minute col.

Definition sample_to_numeric (col : list cell) : list cell :=
  map (fun c => match c with
                | CInt z => CInt z
                | CFloat f => CFloat f
                | _ => NaN
                end) col.

Definition sample_day_plus_seconds (day_str : string) (nums : list cell)
  : result (list cell) := Raise ValueError.

(** One day's payload with a time-of-day column and a volume column, and no
    price column under any label. *)
Definition volume_only_payload : DataFrame :=
  mkDataFrame None ["时间"; "成交量"]
    (range_index [[CStr "09:31"; CInt 250]; [CStr "09:30"; CInt 100]]).

(** The sample payload after the time stage of the normaliser for the day
    2025-01-02. *)
Definition volume_only_parsed : DataFrame :=
  Eval vm_compute in
    match parse_times sample_repr sample_to_datetime sample_to_numeric
            sample_day_plus_seconds volume_only_payload "时间" "2025-01-02" with
    | Ok (Some df) => df
    | _ => volume_only_payload
    end.

End feed_aux.


Module market_env_more_aux.
Import py market_env.

(** [evolves s s']: [s'] is what the object [s] has become after some calls
    of [reset] and [step], whatever they returned. *)
Inductive evolves : MarketEnv -> MarketEnv -> Prop :=
| evolves_refl s : evolves s s
| evolves_reset s s1 r s2 :
    evolves s s1 -> reset s1 = (r, s2) -> evolves s s2
| evolves_step s s1 a r s2 :
    evolves s s1 -> step a s1 = (r, s2) -> evolves s s2.

(** An action of the action space. *)
Definition valid_action (a : Z) : Prop := In a [0; 1; 2].

(** The message of the misuse error. *)
Definition misuse : exn := RuntimeError "Environment done. Call reset().".

End market_env_more_aux.

Module calendar_more_aux.
Import py pd fix_integer_datetime_to_ts calendar_aux.

(** The first day after [d] that is not a Saturday or a Sunday. *)
Definition next_business_day (d : Z) : Z :=
  if weekday (d + 1) <? 5 then d + 1
  else if weekday (d + 2) <? 5 then d + 2
  else d + 3.

(** The [k] business days that follow [last], each the next one after its
    predecessor. *)
Fixpoint following_days (k : nat) (last : Z) : list Z :=
  match k with
  | O => []
  | S k' =>
      let nxt := next_business_day last in
      nxt :: following_days k' nxt
  end.

(** The number of days the loop appends for a required length [L] after
    [n] days. *)
Definition days_short (n L : Z) : nat :=
  Z.to_nat ((L - minutes_per_day * n + (minutes_per_day - 1)) / minutes_per_day).

(** The message of the exit of [main] after the calendar is built. *)
Definition not_enough_timestamps : string :=
  "无法构建足够的分钟时间戳，请检查 start/end 或数据是否超出合理范围。".

(** A value [astype(int)] converts: an integer, a boolean, a timestamp, or a
    float that is not an infinity (a NaN counts as missing and is dropped
    before the conversion). *)
Definition converts_to_int (c : cell) : Prop :=
  match c with
  | CInt _ | CBool _ | CTimestamp _ => True
  | CFloat f => forall s, Prim2SF f <> S754_infinity s
  | CStr _ | NaT => False
  end.

End calendar_more_aux.

Module feed_more_aux.
Import py pd download_akshare_minute feed_aux.
Local Open Scope string_scope.

(** The local-market label the normaliser maps onto a canonical name. *)
Definition chinese_label (want : string) : string :=
  if String.eqb want "open" then "开盘"
  else if String.eqb want "high" then "最高"
  else if String.eqb want "low" then "最低"
  else if String.eqb want "close" then "收盘"
  else "成交量".

(** How a label after the loop of lines 132-135 of the normaliser relates
    to the label at the same place before it: it is kept or lowered. *)
Definition relabelled (a b : string) : Prop :=
  a = b \/ (a = lower b /\ lower a = a).

(** What a column of parsed times holds: a timestamp or the missing time. *)
Definition time_like (c : cell) : Prop :=
  c = NaT \/ exists m, c = CTimestamp m.

(** One day's payload under local-market labels, with an extra column and
    a row whose opening price is not a number. *)
Definition priced_payload : DataFrame :=
  mkDataFrame None ["时间"; "开盘"; "收盘"; "成交量"; "note"]
    (range_index
       [[CStr "2025-01-02 09:32"; CInt 12; CInt 13; CInt 250; CStr "b"];
        [CStr "2025-01-02 09:31"; CStr "n/a"; CInt 12; CInt 100; CStr "a"];
        [CStr "2025-01-02 09:30"; CInt 10; CInt 11; CStr "-"; CStr "c"]]).

(** What the normaliser returns for it. *)
Definition priced_normalized : DataFrame :=
  Eval vm_compute in
    match parse_and_normalize_minute_df sample_repr sample_to_datetime
            sample_to_numeric sample_day_plus_seconds
            (Some priced_payload) "2025-01-02" with
    | Ok (Some df) => df
    | _ => priced_payload
    end.

End feed_more_aux.

Module prepare_aux.
Import py pd pd_frame prepare_minute_csv repair_aux feed_aux.
Local Open Scope string_scope.

(** [pd.to_datetime] with [errors='raise'] on the sample files below: texts
    of the form YYYY-MM-DD HH:MM parse, a missing value stays missing,
    anything else raises. *)
Definition strict_to_datetime (col : list cell) : result (list cell) :=
  if forallb (fun c => isna c || negb (isna (parse_minute c))) col
  then Ok (map (fun c => if isna c then NaT else parse_minute c) col)
  else Raise ValueError.

(** A file with a gap in the close prices and an empty volume column. *)
Definition gappy_csv : DataFrame :=
  mkDataFrame None ["Time"; "Open"; "close"; "volume"]
    (range_index
       [[CStr "2025-01-02 09:31"; CInt 12; NaN; NaN];
        [CStr "2025-01-02 09:30"; CInt 10; CInt 11; NaN];
        [CStr "2025-01-02 09:32"; CInt 13; CInt 14; NaN]]).

(** A file under local-market labels with no opening price. *)
Definition closes_csv : DataFrame :=
  mkDataFrame None ["日期"; "收盘"; "成交量"; "Volume"]
    (range_index
       [[CStr "2025-01-02 09:30"; CInt 11; CInt 100; CInt 100];
        [CStr "2025-01-02 09:31"; CInt 12; CInt 250; CInt 250]]).

Definition gappy_clean : DataFrame :=
  Eval vm_compute in
    match normalize_csv strict_to_datetime gappy_csv with
    | Ok df => df
    | Raise _ => gappy_csv
    end.

Definition closes_clean : DataFrame :=
  Eval vm_compute in
    match normalize_csv strict_to_datetime closes_csv with
    | Ok df => df
    | Raise _ => closes_csv
    end.

End prepare_aux.

Module loader_aux.
Import py pd pd_frame data_loader prepare_aux.
Local Open Scope string_scope.

(** [Series.astype(float)] on the sample file below, which holds integers. *)
Definition sample_astype_float (col : list cell) : result (list cell) :=
  if forallb (fun c => match c with CInt _ | CFloat _ => true | _ => false end)
       col
  then Ok (map (fun c => match c with
                         | CInt z => CFloat (float_of_int z)
                         | _ => c
                         end) col)
  else Raise ValueError.

(** [pd.to_datetime] on integers: nanoseconds since the epoch. *)
Definition epoch_to_datetime (col : list cell) : result (list cell) :=
  if forallb (fun c => match c with CInt _ => true | _ => false end) col
  then Ok (map (fun c => match c with
                         | CInt z => CTimestamp (z / 60000000000)
                         | _ => c
                         end) col)
  else Raise ValueError.

(** A file of prices with no time column. *)
Definition prices_csv : DataFrame :=
  mkDataFrame None ["Open"; "Close"]
    (range_index [[CInt 10; CInt 11]; [CInt 12; CInt 13]]).

Definition prices_loaded : DataFrame :=
  Eval vm_compute in
    match load_minute_csv epoch_to_datetime sample_astype_float prices_csv with
    | Ok df => df
    | Raise _ => prices_csv
    end.

End loader_aux.

Module driver_aux.
Import py pd download_akshare_minute download_akshare_minute_range
       feed_aux feed_more_aux.
Local Open Scope string_scope.

(** Decimal text of a natural number, at least [width] digits. *)
Fixpoint decimal (fuel width : nat) (n : Z) (acc : string) : string :=
  match fuel with
  | O => acc
  | S fuel' =>
      let acc' := String (ascii_of_nat (48 + Z.to_nat (n mod 10))) acc in
      if (n <? 10)%Z && (width <=? 1)%nat then acc'
      else decimal fuel' (width - 1) (n / 10) acc'
  end.

Definition sample_str (z : Z) : string := decimal 20 1 z "".

(** The civil date of a day number, as text YYYY-MM-DD. *)
Definition sample_strftime (day : Z) : string :=
  let z := (day + 719468)%Z in
  let era := (z / 146097)%Z in
  let doe := (z - era * 146097)%Z in
  let yoe := ((doe - doe / 1460 + doe / 36524 - doe / 146096) / 365)%Z in
  let doy := (doe - (365 * yoe + yoe / 4 - yoe / 100))%Z in
  let mp := ((5 * doy + 2) / 153)%Z in
  let d := (doy - (153 * mp + 2) / 5 + 1)%Z in
  let m := (if mp <? 10 then mp + 3 else mp - 9)%Z in
  let y := (yoe + era * 400 + (if m <=? 2 then 1 else 0))%Z in
  decimal 20 4 y "" ++ "-" ++ decimal 20 2 m "" ++ "-" ++ decimal 20 2 d "".

Definition sample_path_join (dir name : string) : string :=
  dir ++ "/" ++ name.

Definition sample_repr_set (l : list string) : string :=
  "{" ++ String.concat ", " (map (fun s => "'" ++ s ++ "'") l) ++ "}".

(** A provider that knows the symbol on one exchange only, and answers
    every call with the same bars of 2025-01-02. *)
Definition sample_provider (n : nat) (symbol period : string)
  : result (option DataFrame) :=
  match symbol with
  | String "s" (String "z" _) => Ok (Some priced_payload)
  | _ => Ok None
  end.

Definition sample_try_day : nat -> string -> string -> Z -> day_outcome :=
  try_day sample_repr sample_to_datetime sample_to_numeric
    sample_day_plus_seconds sample_provider sample_strftime.

Definition sample_download : result (string * DataFrame) * nat :=
  download_minute_range_and_save sample_repr sample_to_datetime
    sample_to_numeric sample_day_plus_seconds sample_provider
    sample_strftime sample_str sample_path_join sample_repr_set
    "605069" (date 2025 1 2) (date 2025 1 6) 1 "data".

Definition sample_saved : string * DataFrame :=
  Eval vm_compute in
    match fst sample_download with
    | Ok r => r
    | Raise _ => ("", priced_payload)
    end.

End driver_aux.

Module generate_aux.
Import py pd generate_sample_data.

(** A generator that draws the same value every time. *)
Definition still_normal (n : nat) (scale : float) (k : nat) : float :=
  0%float.
Definition still_randint (n : nat) (low high : Z) (k : nat) : Z := low.

(** The columns of a generated frame. *)
Definition sample_columns : list string :=
  ["datetime"; "open"; "high"; "low"; "close"; "volume"]%string.

(** The days [start, start + 1, ...], [n] of them. *)
Definition consecutive_days (start : Z) (n : nat) : list Z :=
  map (fun i => start + Z.of_nat i) (seq 0 n).

End generate_aux.

(** * Properties of the market simulator *)

Section MarketEnvFacts.
Import py market_env market_env_aux.

Lemma getitem_ok_range {A : Type} (l : list A) (i : Z) (x : A) :
  getitem l i = Ok x -> - len l <= i < len l.
Proof.
  unfold getitem.
  destruct (i <? 0) eqn:Hneg;
    [apply Z.ltb_lt in Hneg | apply Z.ltb_ge in Hneg];
    (destruct (_ <? 0) eqn:Hlo; [discriminate|]);
    (destruct (len l <=? _) eqn:Hhi; [discriminate|]);
    apply Z.ltb_ge in Hlo; apply Z.leb_gt in Hhi; intros _; lia.
Qed.

Lemma getitem_in_range {A : Type} (l : list A) (i : Z) :
  - len l <= i < len l -> exists x, getitem l i = Ok x.
Proof.
  intros Hi. unfold getitem.
  set (j := if i <? 0 then i + len l else i).
  assert (Hj : 0 <= j < len l).
  { subst j. destruct (i <? 0) eqn:Hneg;
      [apply Z.ltb_lt in Hneg | apply Z.ltb_ge in Hneg]; lia. }
  replace (j <? 0) with false by (symmetry; apply Z.ltb_ge; lia).
  replace (len l <=? j) with false by (symmetry; apply Z.leb_gt; lia).
  simpl. destruct (nth_error l (Z.to_nat j)) eqn:Hn; eauto.
  apply nth_error_None in Hn. unfold len in Hj. lia.
Qed.

Lemma getitem_raise {A : Type} (l : list A) (i : Z) (e : exn) :
  getitem l i = Raise e -> e = IndexError.
Proof.
  unfold getitem.
  destruct (_ || _); [now intros [= <-]|].
  destruct (nth_error _ _); [discriminate | now intros [= <-]].
Qed.

Lemma getitem_out_of_range {A : Type} (l : list A) (i : Z) :
  len l <= i -> getitem l i = Raise IndexError.
Proof.
  intros Hi. unfold getitem.
  assert (Hl : 0 <= len l) by (unfold len; lia).
  replace (i <? 0) with false by (symmetry; apply Z.ltb_ge; lia).
  replace (i <? 0) with false by (symmetry; apply Z.ltb_ge; lia).
  replace (len l <=? i) with true by (symmetry; apply Z.leb_le; lia).
  reflexivity.
Qed.

Lemma pos_map_ok (a v : Z) :
  dict_get pos_map a = Ok v -> In a [0; 1; 2] /\ In v [-1; 0; 1].
Proof.
  unfold pos_map; simpl.
  destruct (a =? 0) eqn:H0;
    [apply Z.eqb_eq in H0; subst a; intros [= <-]; simpl; auto 6|].
  destruct (a =? 1) eqn:H1;
    [apply Z.eqb_eq in H1; subst a; intros [= <-]; simpl; auto 6|].
  destruct (a =? 2) eqn:H2;
    [apply Z.eqb_eq in H2; subst a; intros [= <-]; simpl; auto 6|].
  discriminate.
Qed.

Lemma pos_map_valid (a : Z) :
  In a [0; 1; 2] -> exists v, dict_get pos_map a = Ok v.
Proof.
  simpl; intros [<-|[<-|[<-|[]]]]; simpl; eauto.
Qed.

Lemma pos_map_invalid (a : Z) :
  ~ In a [0; 1; 2] -> dict_get pos_map a = Raise (KeyError a).
Proof.
  intros Ha. unfold pos_map; simpl.
  destruct (a =? 0) eqn:H0;
    [apply Z.eqb_eq in H0; subst a; exfalso; apply Ha; simpl; auto 6|].
  destruct (a =? 1) eqn:H1;
    [apply Z.eqb_eq in H1; subst a; exfalso; apply Ha; simpl; auto 6|].
  destruct (a =? 2) eqn:H2;
    [apply Z.eqb_eq in H2; subst a; exfalso; apply Ha; simpl; auto 6|].
  reflexivity.
Qed.

Local Arguments dict_get : simpl never.
Local Arguments getitem : simpl never.
Local Arguments slice : simpl never.

(** [step] on a live simulator with a known action and an index in range. *)
Lemma step_ok (self : MarketEnv) (a target : Z) (price : float) :
  done self = false ->
  dict_get pos_map a = Ok target ->
  getitem (prices self) (t self) = Ok price ->
  exists o,
    step a self =
      (Ok (mkOutcome o
             (float_of_int (position self)
              * ((price - last_price self) / last_price self)
              - cost self target)%float
             (done (stepped self target price))
             (mkInfo (float_of_int (position self)
                      * ((price - last_price self) / last_price self))%float
                     (cost self target))),
       stepped self target price).
Proof.
  intros Hd Ha Hp.
  unfold step, bind, get, lift, raise, assign, when, ret, _get_obs; simpl.
  rewrite Hd, Ha, Hp; simpl.
  unfold cost, stepped.
  destruct (target =? position self); simpl;
    destruct (T self <=? t self + 1); simpl;
    unfold set_done, set_t, set_last_price, set_position; simpl;
    rewrite ?Hd; eexists; reflexivity.
Qed.

Lemma step_done (self : MarketEnv) (a : Z) :
  done self = true ->
  step a self = (Raise (RuntimeError "Environment done. Call reset()."), self).
Proof.
  intros Hd. unfold step, bind, get, raise; simpl. now rewrite Hd.
Qed.

Lemma step_key_error (self : MarketEnv) (a : Z) :
  done self = false -> ~ In a [0; 1; 2] ->
  step a self = (Raise (KeyError a), self).
Proof.
  intros Hd Ha. unfold step, bind, get, lift; simpl.
  now rewrite Hd, (pos_map_invalid a Ha).
Qed.

Lemma step_index_error (self : MarketEnv) (a : Z) :
  done self = false -> In a [0; 1; 2] -> len (prices self) <= t self ->
  step a self = (Raise IndexError, self).
Proof.
  intros Hd Ha Ht. unfold step, bind, get, lift; simpl.
  destruct (pos_map_valid a Ha) as [v Hv].
  now rewrite Hd, Hv, (getitem_out_of_range _ _ Ht).
Qed.

(** Whatever [step] raises, it raises before it writes to [self]. *)
Lemma step_raise_unchanged (self self' : MarketEnv) (a : Z) (e : exn) :
  step a self = (Raise e, self') -> self' = self.
Proof.
  unfold step, bind, get, lift, raise, assign, when, ret, _get_obs; simpl.
  destruct (done self); [intros [= _ <-]; reflexivity|].
  destruct (dict_get pos_map a); simpl; [|intros [= _ <-]; reflexivity].
  destruct (getitem (prices self) (t self)); simpl;
    [|intros [= _ <-]; reflexivity].
  destruct (T self <=? t self + 1); simpl; discriminate.
Qed.

Lemma reset_ok (self : MarketEnv) (p : float) :
  getitem (prices self) (window self - 1) = Ok p ->
  reset self =
    (Ok (map (map astype_float32)
           (slice (features self) (window self - window self) (window self))),
     rewound self p).
Proof.
  intros Hp. unfold reset, bind, get, lift, assign, ret, _get_obs; simpl.
  now rewrite Hp.
Qed.

Lemma reset_inv (self self' : MarketEnv) (r : result Observation) :
  reset self = (r, self') ->
  (exists p o, getitem (prices self) (window self - 1) = Ok p
               /\ r = Ok o /\ self' = rewound self p)
  \/ (exists e, r = Raise e
                /\ getitem (prices self) (window self - 1) = Raise e
                /\ self' = set_position 0 (set_t (window self) self)).
Proof.
  unfold reset, bind, get, lift, assign, ret, _get_obs; simpl.
  destruct (getitem (prices self) (window self - 1)) as [p|e]; simpl.
  - intros [= <- <-]. left. eauto.
  - intros [= <- <-]. right. eauto.
Qed.

Lemma rewound_consistent (self : MarketEnv) (p : float) :
  T self = len (prices self) ->
  getitem (prices self) (window self - 1) = Ok p ->
  consistent (rewound self p).
Proof.
  intros HT Hp. apply getitem_ok_range in Hp.
  unfold consistent, rewound; simpl.
  repeat split; try lia; discriminate.
Qed.

Lemma reachable_consistent (self : MarketEnv) :
  reachable self -> consistent self.
Proof.
  induction 1 as [f p w c self Hinit | self r self' _ IH Hreset
                 | self a r self' _ IH Hstep].
  - unfold __init__ in Hinit.
    destruct (w <? 0); [discriminate|].
    destruct (reset _) as [[o|e] s] eqn:Hr; [|discriminate].
    injection Hinit as <-.
    apply reset_inv in Hr as [(q & o' & Hq & _ & ->)|(e & He & _)];
      [|discriminate].
    now apply rewound_consistent.
  - destruct IH as (HT & Hw & Ht & Hpos & Hd).
    apply reset_inv in Hreset as [(q & o' & Hq & _ & ->)|(e & _ & He & _)].
    + now apply rewound_consistent.
    + destruct (getitem_in_range (prices self) (window self - 1)) as [x Hx];
        [rewrite <- HT; lia | congruence].
  - destruct r as [o|e].
    + destruct (done self) eqn:Hdone;
        [rewrite (step_done self a Hdone) in Hstep; discriminate|].
      destruct (dict_get pos_map a) as [v|e] eqn:Hv.
      2:{ unfold step, bind, get, lift in Hstep; simpl in Hstep.
          rewrite Hdone, Hv in Hstep. discriminate. }
      destruct (getitem (prices self) (t self)) as [q|e] eqn:Hq.
      2:{ unfold step, bind, get, lift in Hstep; simpl in Hstep.
          rewrite Hdone, Hv, Hq in Hstep. discriminate. }
      destruct (step_ok self a v q Hdone Hv Hq) as [o' Ho'].
      rewrite Ho' in Hstep. injection Hstep as _ <-.
      destruct IH as (HT & Hw & Ht & Hpos & Hd).
      unfold consistent, stepped; simpl.
      repeat split; try lia.
      * apply (pos_map_ok a v Hv).
      * destruct (T self <=? t self + 1) eqn:Hle.
        -- intros _. now apply Z.leb_le in Hle.
        -- rewrite Hdone. discriminate.
    + now rewrite (step_raise_unchanged _ _ _ _ Hstep).
Qed.

End MarketEnvFacts.

(** * The simulator's claims *)

Section MarketEnvClaims.
Import py market_env market_env_aux.

(** C1. In the Stepping state (window <= t < T) of a simulator in use,
    [step] returns reward = p * r - c, where p is the position held on
    entry, r = (price[t] - last_price) / last_price, and c is
    |target - p| * transaction_cost when the target position differs from p
    and 0 otherwise; the info of the step carries this pnl p * r and this
    cost c. *)
Theorem step_reward_is_pnl_minus_cost (self : MarketEnv) (action target : Z) :
  reachable self ->
  window self <= t self < T self ->
  dict_get pos_map action = Ok target ->
  exists price out self',
    getitem (prices self) (t self) = Ok price
    /\ step action self = (Ok out, self')
    /\ let p := float_of_int (position self) in
       let r := ((price - last_price self) / last_price self)%float in
       let c := if target =? position self then 0%float
                else (float_of_int (Z.abs (target - position self))
                      * transaction_cost self)%float in
       reward out = (p * r - c)%float
       /\ pnl (info out) = (p * r)%float
       /\ tc (info out) = c.
Proof.
  intros Hreach Ht Ha.
  destruct (reachable_consistent self Hreach) as (HT & Hw & _ & _ & Hd).
  assert (Hdone : done self = false).
  { destruct (done self); [specialize (Hd eq_refl); lia | reflexivity]. }
  destruct (getitem_in_range (prices self) (t self)) as [price Hp];
    [rewrite <- HT; lia|].
  destruct (step_ok self action target price Hdone Ha Hp) as [o Ho].
  exists price; eexists; eexists.
  split; [exact Hp|]. split; [exact Ho|].
  simpl. unfold cost. repeat split.
Qed.

Lemma step_reward_is_pnl_minus_cost_witness :
  exists price out self',
    getitem (prices sample_env) (t sample_env) = Ok price
    /\ step 1 sample_env = (Ok out, self')
    /\ reward out
       = (float_of_int 0 * ((price - 100) / 100) - float_of_int 1 * 0.5)%float
    /\ pnl (info out) = (float_of_int 0 * ((price - 100) / 100))%float
    /\ tc (info out) = (float_of_int 1 * 0.5)%float.
Proof.
  apply (step_reward_is_pnl_minus_cost sample_env 1 1).
  - apply (reach_init sample_features sample_prices 1 0.5). reflexivity.
  - simpl. lia.
  - reflexivity.
Defined.

(** C2. When done is true, [step] raises the misuse error for every action
    and returns nothing; the object is exactly as it was before the call. *)
Theorem step_when_done_raises (self : MarketEnv) (action : Z) :
  done self = true ->
  step action self
  = (Raise (RuntimeError "Environment done. Call reset()."), self).
Proof.
  intros Hdone.
  unfold step, bind, get, raise. cbn beta iota.
  now rewrite Hdone.
Qed.

Lemma step_when_done_raises_witness :
  step 1 finished_env
  = (Raise (RuntimeError "Environment done. Call reset()."), finished_env).
Proof.
  apply (step_when_done_raises finished_env 1). reflexivity.
Defined.

(** C9, as stated, fails: on a finished simulator an action outside
    {0, 1, 2} meets the misuse error, not a KeyError. *)
Lemma step_bad_action_when_done :
  ~ In 5 [0; 1; 2]
  /\ step 5 finished_env
     = (Raise (RuntimeError "Environment done. Call reset()."), finished_env)
  /\ fst (step 5 finished_env) <> Raise (KeyError 5).
Proof.
  split; [simpl; lia|]. split; [reflexivity|]. discriminate.
Qed.

(** C9, amended. While done is false, an action outside {0, 1, 2} makes
    [step] raise a KeyError from the action-to-position lookup, before any
    of t, position, last_price, done is written: the object is unchanged. *)
Theorem step_bad_action_key_error (self : MarketEnv) (action : Z) :
  done self = false ->
  ~ In action [0; 1; 2] ->
  step action self = (Raise (KeyError action), self).
Proof.
  intros Hdone Hout.
  unfold step, bind, get, lift, raise. cbn beta iota.
  rewrite Hdone. cbn beta iota.
  now rewrite (pos_map_invalid action Hout).
Qed.

Lemma step_bad_action_key_error_witness :
  step 5 sample_env = (Raise (KeyError 5), sample_env).
Proof.
  apply (step_bad_action_key_error sample_env 5).
  - reflexivity.
  - simpl. lia.
Defined.

(** C10, as stated, fails at both ends: over the empty price series, with
    window = T = 0, [reset] raises IndexError (the constructor runs it, so
    no such simulator exists); and after a [reset] with window = T = 4 a
    step with an action outside {0, 1, 2} raises KeyError, not IndexError. *)
Lemma reset_empty_series_or_bad_action :
  __init__ [] [] 0 0.5 = Raise IndexError
  /\ fst (reset (mkEnv [] [] 0 0.5 0 0 0 0 false)) = Raise IndexError
  /\ __init__ sample_features sample_prices 4 0.5 = Ok full_window_env
  /\ step 5 full_window_env = (Raise (KeyError 5), full_window_env).
Proof.
  repeat split; reflexivity.
Qed.

(** C10, amended. [reset] never sets done to true.  Over a non-empty price
    series of length T with window = T the constructor's [reset] succeeds,
    as does any later one, returning the window features[0:T] with
    done = false, position = 0 and t = T; the next [step] with an action in
    {0, 1, 2} then raises IndexError on the price array (with any other
    action, KeyError), never the misuse error, and leaves the object as it
    is. *)
Theorem reset_full_window_then_index_error
    (f : list (list float)) (p : list float) (c : float) :
  p <> [] ->
  (forall s r s', reset s = (r, s') -> done s' = true -> done s = true)
  /\ exists self,
       __init__ f p (len p) c = Ok self
       /\ reset self
          = (Ok (map (map astype_float32) (slice f 0 (len p))), self)
       /\ done self = false /\ position self = 0 /\ t self = len p
       /\ (forall a, In a [0; 1; 2] -> step a self = (Raise IndexError, self))
       /\ (forall a, ~ In a [0; 1; 2] ->
             step a self = (Raise (KeyError a), self)).
Proof.
  intros Hp. split.
  - intros s r s' Hr Hd.
    apply reset_inv in Hr as [(q & o & _ & _ & ->)|(e & _ & _ & ->)];
      simpl in Hd; [discriminate | exact Hd].
  - assert (Hlen : 0 < len p).
    { unfold len. destruct p; [congruence | simpl; lia]. }
    destruct (getitem_in_range p (len p - 1)) as [q Hq]; [lia|].
    set (self0 := mkEnv f p (len p) c (len p) 0 0 0%float false).
    pose proof (reset_ok self0 q Hq) as Hr0. simpl in Hr0.
    exists (rewound self0 q).
    split.
    { unfold __init__.
      replace (len p <? 0) with false by (symmetry; apply Z.ltb_ge; lia).
      fold self0. now rewrite Hr0. }
    split.
    { pose proof (reset_ok (rewound self0 q) q Hq) as Hr1. simpl in Hr1.
      rewrite Z.sub_diag in Hr1. exact Hr1. }
    repeat split.
    + intros a Ha. apply step_index_error; simpl; auto; lia.
    + intros a Ha. apply step_key_error; simpl; auto.
Qed.

Lemma reset_full_window_then_index_error_witness :
  exists self,
    __init__ sample_features sample_prices 4 0.5 = Ok self
    /\ done self = false
    /\ step 1 self = (Raise IndexError, self).
Proof.
  destruct (reset_full_window_then_index_error
              sample_features sample_prices 0.5)
    as [_ (self & Hi & _ & Hd & _ & _ & Hs & _)].
  - discriminate.
  - exists self. split; [exact Hi|]. split; [exact Hd|].
    apply Hs. simpl. lia.
Defined.

(** The spec's scenario, prices 100, 101, 99, 99 with a one-bar window:
    entering long from flat costs one unit of transaction cost and earns
    nothing; the turn from long to short costs two units. *)
Example long_then_short_costs_two_units :
  match step 1 sample_env with
  | (Ok o1, self1) =>
      match step 2 self1 with
      | (Ok o2, self2) =>
          tc (info o1) = (1 * 0.5)%float /\ pnl (info o1) = 0%float
          /\ tc (info o2) = (2 * 0.5)%float
          /\ pnl (info o2) = (1 * ((99 - 101) / 101))%float
          /\ position self2 = -1
      | _ => False
      end
  | _ => False
  end.
Proof.
  vm_compute. repeat split; reflexivity.
Qed.

(** With no price at all the constructor itself fails: no simulator with
    T = 0 exists. *)
Lemma init_empty_prices (f : list (list float)) (w : Z) (c : float) :
  __init__ f [] w c = Raise (if w <? 0 then ValueError else IndexError).
Proof.
  unfold __init__. destruct (w <? 0); [reflexivity|].
  unfold reset, bind, get, lift, assign; simpl.
  destruct (getitem (A:=float) [] (w - 1)) as [q|e] eqn:Hq; simpl.
  - apply getitem_ok_range in Hq. unfold len in Hq. simpl in Hq. lia.
  - now rewrite (getitem_raise _ _ _ Hq).
Qed.

End MarketEnvClaims.

(** * Properties of the trading-minute calendar *)

Section CalendarFacts.
Import py pd fix_integer_datetime_to_ts calendar_aux.

Lemma len_nonneg {A : Type} (l : list A) : 0 <= len l.
Proof. unfold len. lia. Qed.

Lemma len_app {A : Type} (l1 l2 : list A) : len (l1 ++ l2) = len l1 + len l2.
Proof. unfold len. rewrite length_app. lia. Qed.

Lemma ascending_app (l1 l2 : list Z) :
  ascending l1 -> ascending l2 ->
  (forall x y, In x l1 -> In y l2 -> x < y) ->
  ascending (l1 ++ l2).
Proof.
  unfold ascending. intros H1 H2 H12.
  induction l1 as [|a l1 IH]; simpl; [exact H2|].
  apply StronglySorted_inv in H1 as [Hs Ha].
  constructor.
  - apply IH; [exact Hs|]. intros x y Hx Hy. apply H12; simpl; auto.
  - apply Forall_app. split; [exact Ha|].
    apply Forall_forall. intros y Hy. apply H12; simpl; auto.
Qed.

Lemma ascending_split (l1 l2 : list Z) (x : Z) :
  ascending (l1 ++ x :: l2) ->
  (forall z, In z l1 -> z < x) /\ (forall z, In z l2 -> x < z).
Proof.
  unfold ascending. induction l1 as [|a l1 IH]; simpl; intros H.
  - apply StronglySorted_inv in H as [_ Ha]. rewrite Forall_forall in Ha.
    split; [contradiction | exact Ha].
  - apply StronglySorted_inv in H as [Hs Ha]. rewrite Forall_forall in Ha.
    destruct (IH Hs) as [H1 H2]. split; [|exact H2].
    intros z [<-|Hz]; [|now apply H1].
    apply Ha. apply in_or_app. right. simpl. auto.
Qed.

Lemma ascending_firstn (n : nat) (l : list Z) :
  ascending l -> ascending (firstn n l).
Proof.
  unfold ascending. revert l.
  induction n as [|n IH]; intros l Hl; simpl; [constructor|].
  destruct l as [|a l]; [constructor|].
  apply StronglySorted_inv in Hl as [Hs Ha].
  constructor; [now apply IH|].
  apply Forall_forall. intros x Hx.
  rewrite Forall_forall in Ha. apply Ha.
  rewrite <- (firstn_skipn n l). apply in_or_app. now left.
Qed.

Lemma ascending_skipn (n : nat) (l : list Z) :
  ascending l -> ascending (skipn n l).
Proof.
  unfold ascending. revert l.
  induction n as [|n IH]; intros l Hl; simpl; [exact Hl|].
  destruct l as [|a l]; [constructor|].
  apply StronglySorted_inv in Hl as [Hs _]. now apply IH.
Qed.

(** A slice of an ascending list is ascending. *)
Lemma ascending_slice (l : list Z) (i j : Z) :
  ascending l -> ascending (slice l i j).
Proof.
  intros Hl. unfold slice. now apply ascending_firstn, ascending_skipn.
Qed.

Lemma slice_prefix {A : Type} (l : list A) (n : Z) :
  0 <= n -> slice l 0 n = firstn (Z.to_nat n) l.
Proof.
  intros Hn. unfold slice, adjust_index.
  pose proof (len_nonneg l) as Hl.
  replace (0 <? 0) with false by reflexivity.
  replace (n <? 0) with false by (symmetry; apply Z.ltb_ge; lia).
  rewrite (Z.min_l 0 (len l)) by lia. simpl.
  rewrite Z.sub_0_r.
  destruct (Z.le_ge_cases n (len l)) as [Hle|Hge].
  - now rewrite Z.min_l by lia.
  - rewrite Z.min_r by lia. unfold len. rewrite Nat2Z.id.
    rewrite !firstn_all2; auto; unfold len in Hge; lia.
Qed.

Lemma slice_all {A : Type} (l : list A) : slice l 0 (len l) = l.
Proof.
  rewrite slice_prefix by apply len_nonneg.
  unfold len. rewrite Nat2Z.id. apply firstn_all.
Qed.

Lemma len_slice_prefix {A : Type} (l : list A) (n : Z) :
  0 <= n <= len l -> len (slice l 0 n) = n.
Proof.
  intros Hn. rewrite slice_prefix by lia. unfold len in *.
  rewrite length_firstn. lia.
Qed.

(** ** Ranges *)

Lemma range_incl_length (a b : Z) :
  a <= b + 1 -> len (range_incl a b) = b - a + 1.
Proof.
  intros Hab. unfold range_incl, len.
  rewrite length_map, length_seq. lia.
Qed.

Lemma range_incl_In (a b x : Z) : In x (range_incl a b) <-> a <= x <= b.
Proof.
  unfold range_incl. rewrite in_map_iff. split.
  - intros (k & <- & Hk). apply in_seq in Hk. lia.
  - intros Hx. exists (Z.to_nat (x - a)). split; [lia|].
    apply in_seq. lia.
Qed.

Lemma seq_shift_ascending (a : Z) (n start : nat) :
  ascending (map (fun k => a + Z.of_nat k) (seq start n)).
Proof.
  unfold ascending. revert start.
  induction n as [|n IH]; intros start; simpl; constructor; [apply IH|].
  apply Forall_forall. intros x Hx.
  apply in_map_iff in Hx as (k & <- & Hk). apply in_seq in Hk. lia.
Qed.

Lemma range_incl_ascending (a b : Z) : ascending (range_incl a b).
Proof. apply seq_shift_ascending. Qed.

Lemma ascending_filter (f : Z -> bool) (l : list Z) :
  ascending l -> ascending (filter f l).
Proof.
  unfold ascending. induction 1 as [|a l Hs IH Ha]; simpl; [constructor|].
  destruct (f a); [|exact IH].
  constructor; [exact IH|].
  apply Forall_forall. intros x Hx. apply filter_In in Hx as [Hx _].
  rewrite Forall_forall in Ha. now apply Ha.
Qed.

(** ** Business days *)

Lemma weekday_range (d : Z) : 0 <= weekday d < 7.
Proof. unfold weekday. apply Z.mod_pos_bound. lia. Qed.

Lemma weekday_succ (d : Z) :
  weekday (d + 1) = if weekday d =? 6 then 0 else weekday d + 1.
Proof.
  unfold weekday.
  destruct (Z.eqb_spec ((d + 3) mod 7) 6) as [H|H];
    Z.div_mod_to_equations; lia.
Qed.

Lemma bdate_range_In (s e d : Z) :
  In d (bdate_range s e) <-> s <= d <= e /\ weekday d < 5.
Proof.
  unfold bdate_range. rewrite filter_In, range_incl_In, Z.ltb_lt. tauto.
Qed.

Lemma bdate_range_ascending (s e : Z) : ascending (bdate_range s e).
Proof. apply ascending_filter, range_incl_ascending. Qed.

(** The inner loop stops within three tests, on the first day from [nxt]
    on that is not a Saturday or a Sunday. *)
Lemma skip_weekend_stops (fuel : nat) (nxt : Z) :
  (3 <= fuel)%nat ->
  exists day, skip_weekend fuel nxt = Some day
              /\ nxt <= day <= nxt + 2 /\ weekday day < 5.
Proof.
  intros Hf.
  destruct fuel as [|[|[|fuel]]]; try lia.
  pose proof (weekday_range nxt) as Hr.
  pose proof (weekday_succ nxt) as H1.
  pose proof (weekday_succ (nxt + 1)) as H2.
  cbn [skip_weekend].
  destruct (Z.leb_spec 5 (weekday nxt)) as [Ha|Ha];
    [|exists nxt; split; [reflexivity | lia]].
  destruct (Z.eqb_spec (weekday nxt) 6) as [E6|E6].
  - rewrite H1. simpl. exists (nxt + 1). split; [reflexivity|]. lia.
  - assert (E5 : weekday nxt = 5) by lia.
    rewrite H1, E5 in *. simpl in H2 |- *.
    replace (nxt + 1 + 1) with (nxt + 2) in * by lia.
    rewrite H2. simpl. exists (nxt + 2). split; [reflexivity|]. lia.
Qed.

Lemma skip_weekend_more_fuel (fuel fuel' : nat) (nxt day : Z) :
  skip_weekend fuel nxt = Some day -> (fuel <= fuel')%nat ->
  skip_weekend fuel' nxt = Some day.
Proof.
  revert fuel' nxt.
  induction fuel as [|fuel IH]; intros fuel' nxt; simpl; [discriminate|].
  intros H Hle. destruct fuel' as [|fuel']; [lia|]. simpl.
  destruct (5 <=? weekday nxt); [|exact H].
  apply IH; [exact H | lia].
Qed.

(** ** Trading minutes *)

Lemma trading_minutes_flat (days : list Z) :
  trading_minutes_for_days days = flat_map day_minutes days.
Proof.
  unfold trading_minutes_for_days. rewrite flat_map_concat_map.
  fold day_minutes.
  change (map (fun d => date_range (at_time d 9 30) (at_time d 11 30)
                        ++ date_range (at_time d 13 0) (at_time d 15 0)) days)
    with (map day_minutes days).
  destruct (map day_minutes days); reflexivity.
Qed.

Lemma day_minutes_length (d : Z) : len (day_minutes d) = minutes_per_day.
Proof.
  unfold day_minutes, date_range. rewrite len_app.
  rewrite !range_incl_length; unfold at_time, minutes_per_day; lia.
Qed.

Lemma day_minutes_In (d x : Z) :
  In x (day_minutes d) <-> day_of x = d /\ in_session (minute_of_day x).
Proof.
  unfold day_minutes, date_range, in_session, day_of, minute_of_day, at_time.
  rewrite in_app_iff, !range_incl_In.
  split.
  - intros H. Z.div_mod_to_equations. lia.
  - intros [Hd H]. Z.div_mod_to_equations. lia.
Qed.

Lemma day_minutes_ascending (d : Z) : ascending (day_minutes d).
Proof.
  unfold day_minutes, date_range. apply ascending_app.
  - apply range_incl_ascending.
  - apply range_incl_ascending.
  - intros x y Hx Hy. apply range_incl_In in Hx, Hy.
    unfold at_time in *. lia.
Qed.

Lemma trading_minutes_app (days1 days2 : list Z) :
  trading_minutes_for_days (days1 ++ days2)
  = trading_minutes_for_days days1 ++ trading_minutes_for_days days2.
Proof. rewrite !trading_minutes_flat. apply flat_map_app. Qed.

Lemma trading_minutes_length (days : list Z) :
  len (trading_minutes_for_days days) = minutes_per_day * len days.
Proof.
  rewrite trading_minutes_flat.
  induction days as [|d days IH]; simpl; [reflexivity|].
  rewrite len_app, day_minutes_length, IH.
  unfold len, minutes_per_day. cbn [List.length]. lia.
Qed.

Lemma trading_minutes_In (days : list Z) (x : Z) :
  In x (trading_minutes_for_days days)
  <-> In (day_of x) days /\ in_session (minute_of_day x).
Proof.
  rewrite trading_minutes_flat, in_flat_map. split.
  - intros (d & Hd & Hx). apply day_minutes_In in Hx as [<- Hs]. auto.
  - intros [Hd Hs]. exists (day_of x). split; [exact Hd|].
    apply day_minutes_In. auto.
Qed.

Lemma trading_minutes_ascending (days : list Z) :
  ascending days -> ascending (trading_minutes_for_days days).
Proof.
  rewrite trading_minutes_flat. unfold ascending at 1.
  induction 1 as [|d days Hs IH Hd]; simpl; [constructor|].
  apply ascending_app; [apply day_minutes_ascending | exact IH |].
  intros x y Hx Hy.
  apply day_minutes_In in Hx as [Hdx Hsx].
  apply in_flat_map in Hy as (d' & Hd' & Hy).
  apply day_minutes_In in Hy as [Hdy Hsy].
  rewrite Forall_forall in Hd. specialize (Hd d' Hd').
  unfold day_of, minute_of_day, in_session in *.
  Z.div_mod_to_equations. lia.
Qed.

(** Two neighbours of the calendar are one minute apart, unless the first
    closes a session: then the second opens the next one. *)
Lemma trading_minutes_spacing (days : list Z) (x y : Z) (l1 l2 : list Z) :
  ascending days ->
  trading_minutes_for_days days = l1 ++ x :: y :: l2 ->
  y = x + 1
  \/ (minute_of_day x = 11 * 60 + 30 /\ y = x + 90)
  \/ (minute_of_day x = 15 * 60 /\ minute_of_day y = 9 * 60 + 30
      /\ day_of x < day_of y).
Proof.
  intros Hdays Heq.
  pose proof (trading_minutes_ascending days Hdays) as Hasc.
  assert (Hx : In x (trading_minutes_for_days days))
    by (rewrite Heq; apply in_or_app; right; simpl; auto).
  assert (Hy : In y (trading_minutes_for_days days))
    by (rewrite Heq; apply in_or_app; right; simpl; auto).
  pose proof Hasc as Hasc'. rewrite Heq in Hasc'.
  destruct (ascending_split l1 (y :: l2) x Hasc') as [Hbefore Hafter].
  replace (l1 ++ x :: y :: l2) with ((l1 ++ [x]) ++ y :: l2) in Hasc'
    by (rewrite <- app_assoc; reflexivity).
  destruct (ascending_split (l1 ++ [x]) l2 y Hasc') as [_ Hafter'].
  assert (Hlt : x < y) by (apply Hafter; simpl; auto).
  (* no calendar minute lies strictly between x and y *)
  assert (Hgap : forall z, In z (trading_minutes_for_days days) ->
                           ~ (x < z < y)).
  { intros z Hz [Hxz Hzy]. rewrite Heq in Hz.
    apply in_app_or in Hz as [Hz|[Hz|[Hz|Hz]]]; try lia.
    - specialize (Hbefore z Hz). lia.
    - specialize (Hafter' z Hz). lia. }
  apply trading_minutes_In in Hx as [Hdx Hsx].
  pose proof Hy as Hy'. apply trading_minutes_In in Hy' as [Hdy Hsy].
  destruct (Z.eq_dec y (x + 1)) as [?|Hne]; [now left | right].
  destruct (Z.eq_dec (minute_of_day x) (11 * 60 + 30)) as [E1|N1].
  - left. split; [exact E1|].
    destruct (Z.eq_dec y (x + 90)) as [?|Hne']; [assumption | exfalso].
    apply (Hgap (x + 90)).
    + apply trading_minutes_In.
      replace (day_of (x + 90)) with (day_of x)
        by (unfold day_of, minute_of_day in *; Z.div_mod_to_equations; lia).
      split; [exact Hdx|].
      unfold in_session, minute_of_day in *. Z.div_mod_to_equations. lia.
    + unfold in_session, minute_of_day, day_of in *.
      Z.div_mod_to_equations. lia.
  - destruct (Z.eq_dec (minute_of_day x) (15 * 60)) as [E2|N2].
    + right. split; [exact E2|].
      assert (Hday : day_of x < day_of y).
      { unfold in_session, minute_of_day, day_of in *.
        Z.div_mod_to_equations. lia. }
      split; [|exact Hday].
      destruct (Z.eq_dec (minute_of_day y) (9 * 60 + 30)) as [?|Hm];
        [assumption | exfalso].
      apply (Hgap (at_time (day_of y) 9 30)).
      * apply trading_minutes_In.
        replace (day_of (at_time (day_of y) 9 30)) with (day_of y)
          by (unfold day_of, at_time; Z.div_mod_to_equations; lia).
        split; [exact Hdy|].
        unfold in_session, minute_of_day, at_time. Z.div_mod_to_equations. lia.
      * unfold in_session, minute_of_day, day_of, at_time in *.
        Z.div_mod_to_equations. lia.
    + exfalso. apply (Hgap (x + 1)).
      * apply trading_minutes_In.
        replace (day_of (x + 1)) with (day_of x)
          by (unfold day_of, in_session, minute_of_day in *;
              Z.div_mod_to_equations; lia).
        split; [exact Hdx|].
        unfold in_session, minute_of_day in *. Z.div_mod_to_equations. lia.
      * lia.
Qed.

End CalendarFacts.

(** * The extension loop *)

Section ExtensionLoop.
Import py pd fix_integer_datetime_to_ts calendar_aux calendar_more_aux.

Lemma getitem_last {A : Type} (l : list A) (x : A) :
  getitem (l ++ [x]) (-1) = Ok x.
Proof.
  unfold getitem. rewrite len_app.
  pose proof (len_nonneg l) as Hl.
  change (len [x]) with 1. change (-1 <? 0) with true. cbv iota.
  replace (-1 + (len l + 1)) with (len l) by lia.
  replace (len l <? 0) with false by (symmetry; apply Z.ltb_ge; lia).
  replace (len l + 1 <=? len l) with false by (symmetry; apply Z.leb_gt; lia).
  simpl. unfold len. rewrite Nat2Z.id.
  rewrite nth_error_app2, Nat.sub_diag by lia. reflexivity.
Qed.

Lemma getitem_empty {A : Type} (i : Z) :
  getitem (A:=A) [] i = Raise IndexError.
Proof.
  destruct (getitem (A:=A) [] i) as [x|e] eqn:H.
  - apply getitem_ok_range in H. unfold len in H. simpl in H. lia.
  - now rewrite (getitem_raise _ _ _ H).
Qed.

(** One more unit of fuel never changes what the loop has returned. *)
Lemma extend_more_fuel (fuel fuel' : nat) (days : list Z) (L : Z)
    (r : result (list Z)) :
  extend_days_until_length fuel days L = Some r -> (fuel <= fuel')%nat ->
  extend_days_until_length fuel' days L = Some r.
Proof.
  revert fuel' days.
  induction fuel as [|fuel IH]; intros fuel' days; [discriminate|].
  intros H Hle. destruct fuel' as [|fuel']; [lia|].
  cbn [extend_days_until_length] in *.
  destruct (L <=? len (trading_minutes_for_days days)); [exact H|].
  destruct (getitem days (-1)) as [last|e]; [|exact H].
  destruct (skip_weekend fuel (last + 1)) as [nxt|] eqn:Hs; [|discriminate].
  rewrite (skip_weekend_more_fuel fuel fuel' _ _ Hs) by lia.
  apply IH; [exact H | lia].
Qed.

(** From a non-empty day list the loop returns after at most [k] appended
    days when [k] more days are enough minutes; the days it appended come
    after the given ones, in ascending order. *)
Lemma extend_returns (k : nat) :
  forall (days : list Z) (L : Z) (fuel : nat),
    days <> [] ->
    L <= len (trading_minutes_for_days days) + minutes_per_day * Z.of_nat k ->
    (k + 4 <= fuel)%nat ->
    exists extra,
      extend_days_until_length fuel days L
      = Some (Ok (trading_minutes_for_days (days ++ extra)))
      /\ L <= len (trading_minutes_for_days (days ++ extra))
      /\ (ascending days -> ascending (days ++ extra))
      /\ Forall (fun d => weekday d < 5) extra.
Proof.
  induction k as [|k IH]; intros days L fuel Hne HL Hfuel;
    (destruct fuel as [|fuel]; [lia|]);
    cbn [extend_days_until_length];
    destruct (Z.leb_spec L (len (trading_minutes_for_days days))) as [Hle|Hgt].
  - exists []. rewrite app_nil_r. auto.
  - unfold minutes_per_day in HL. lia.
  - exists []. rewrite app_nil_r. auto.
  - destruct (exists_last Hne) as (front & last & ->).
    rewrite getitem_last.
    destruct (skip_weekend_stops fuel (last + 1)) as (nxt & -> & Hnxt & Hwd);
      [lia|].
    destruct (IH ((front ++ [last]) ++ [nxt]) L fuel)
      as (extra & He & HLe & Ha & Hw).
    + intros H. apply app_eq_nil in H as [_ H]. discriminate.
    + rewrite trading_minutes_app, len_app.
      rewrite (trading_minutes_length [nxt]).
      change (len [nxt]) with 1. lia.
    + lia.
    + exists (nxt :: extra).
      replace ((front ++ [last]) ++ nxt :: extra)
        with (((front ++ [last]) ++ [nxt]) ++ extra)
        by (rewrite <- (app_assoc _ [nxt] extra); reflexivity).
      split; [exact He|]. split; [exact HLe|].
      split; [|now constructor].
      intros Hasc. apply Ha.
      apply ascending_app; [exact Hasc | repeat constructor |].
      intros x y Hx [<-|[]].
      apply in_app_or in Hx as [Hx|[<-|[]]]; [|lia].
      destruct (ascending_split front [] last Hasc) as [Hb _].
      specialize (Hb x Hx). lia.
Qed.

(** ** The days the loop appends *)

Lemma next_business_day_spec (d : Z) :
  let n := next_business_day d in
  d < n <= d + 3 /\ weekday n < 5
  /\ forall x, d < x < n -> 5 <= weekday x.
Proof.
  unfold next_business_day.
  pose proof (weekday_range (d + 1)) as R1.
  pose proof (weekday_succ (d + 1)) as S1.
  pose proof (weekday_succ (d + 1 + 1)) as S2.
  replace (d + 1 + 1) with (d + 2) in * by lia.
  replace (d + 2 + 1) with (d + 3) in * by lia.
  destruct (Z.ltb_spec (weekday (d + 1)) 5) as [H1|H1].
  - simpl. repeat split; try lia.
  - destruct (Z.eqb_spec (weekday (d + 1)) 6) as [E|E].
    + rewrite S1. simpl. repeat split; try lia.
      intros x Hx. assert (x = d + 1) as -> by lia. lia.
    + assert (E5 : weekday (d + 1) = 5) by lia.
      rewrite S1, E5 in *. simpl in S2 |- *. rewrite S2. simpl.
      repeat split; try lia.
      intros x Hx. assert (x = d + 1 \/ x = d + 2) as [->| ->] by lia; lia.
Qed.

Lemma skip_weekend_next (fuel : nat) (d : Z) :
  (3 <= fuel)%nat -> skip_weekend fuel (d + 1) = Some (next_business_day d).
Proof.
  intros Hf. destruct fuel as [|[|[|fuel]]]; try lia.
  unfold next_business_day. cbn [skip_weekend].
  pose proof (weekday_range (d + 1)) as R1.
  pose proof (weekday_succ (d + 1)) as S1.
  pose proof (weekday_succ (d + 1 + 1)) as S2.
  replace (d + 1 + 1 + 1) with (d + 3) in * by lia.
  destruct (Z.leb_spec 5 (weekday (d + 1))) as [H1|H1].
  - replace (weekday (d + 1) <? 5) with false
      by (symmetry; apply Z.ltb_ge; lia).
    replace (d + 2) with (d + 1 + 1) by lia.
    destruct (Z.eqb_spec (weekday (d + 1)) 6) as [E|E].
    + rewrite S1. reflexivity.
    + assert (E5 : weekday (d + 1) = 5) by lia.
      rewrite S1, E5 in *. simpl in S2 |- *. now rewrite S2.
  - now replace (weekday (d + 1) <? 5) with true
      by (symmetry; apply Z.ltb_lt; lia).
Qed.

Lemma last_default {A : Type} (l : list A) (d d' : A) :
  l <> [] -> List.last l d = List.last l d'.
Proof.
  induction l as [|a l IH]; intros H; [congruence|].
  destruct l as [|b l]; [reflexivity|].
  cbn [List.last] in *. apply IH. discriminate.
Qed.

Lemma following_days_app (j k : nat) (last : Z) :
  following_days (j + k) last
  = following_days j last
    ++ following_days k (List.last (following_days j last) last).
Proof.
  revert last. induction j as [|j IH]; intros last; [reflexivity|].
  cbn [Nat.add following_days]. rewrite IH. cbn [app]. do 3 f_equal.
  destruct (following_days j (next_business_day last)) as [|z l] eqn:E;
    [reflexivity|].
  change (List.last (next_business_day last :: z :: l) last)
    with (List.last (z :: l) last).
  apply last_default. discriminate.
Qed.

Lemma following_days_length (k : nat) (last : Z) :
  List.length (following_days k last) = k.
Proof.
  revert last. induction k as [|k IH]; intros last; simpl; [reflexivity|].
  now rewrite IH.
Qed.

Lemma last_snoc {A : Type} (l : list A) (x d : A) : List.last (l ++ [x]) d = x.
Proof. apply last_last. Qed.

(** The loop appends exactly the business days that follow the last day
    given, and as few of them as reach the required length. *)
Lemma extend_exact (k : nat) :
  forall (front : list Z) (last L : Z) (fuel : nat),
    (k = O -> L <= minutes_per_day * (len front + 1)) ->
    (k <> O ->
     minutes_per_day * (len front + Z.of_nat k) < L
     /\ L <= minutes_per_day * (len front + 1 + Z.of_nat k)) ->
    (k + 4 <= fuel)%nat ->
    extend_days_until_length fuel (front ++ [last]) L
    = Some (Ok (trading_minutes_for_days
                  ((front ++ [last]) ++ following_days k last))).
Proof.
  induction k as [|k IH]; intros front last L fuel H0 Hk Hfuel;
    (destruct fuel as [|fuel]; [lia|]);
    cbn [extend_days_until_length];
    rewrite (trading_minutes_length (front ++ [last])), len_app;
    change (len [last]) with 1.
  - specialize (H0 eq_refl).
    replace (L <=? minutes_per_day * (len front + 1)) with true
      by (symmetry; apply Z.leb_le; lia).
    cbn [following_days]. now rewrite app_nil_r.
  - destruct Hk as [Hlo Hhi]; [discriminate|].
    pose proof (len_nonneg front) as Hn.
    replace (L <=? minutes_per_day * (len front + 1)) with false
      by (symmetry; apply Z.leb_gt; unfold minutes_per_day in *; lia).
    rewrite getitem_last, skip_weekend_next by lia.
    rewrite (IH (front ++ [last]) (next_business_day last) L fuel).
    + cbn [following_days]. now rewrite <- !app_assoc.
    + intros ->. rewrite len_app. change (len [last]) with 1.
      unfold minutes_per_day in *. lia.
    + intros Hne. rewrite len_app. change (len [last]) with 1.
      unfold minutes_per_day in *. lia.
    + lia.
Qed.

Lemma days_short_spec (n L : Z) :
  let k := days_short n L in
  (k = O -> L <= minutes_per_day * n)
  /\ (k <> O ->
      minutes_per_day * (n - 1 + Z.of_nat k) < L
      /\ L <= minutes_per_day * (n + Z.of_nat k)).
Proof.
  unfold days_short, minutes_per_day. cbv zeta.
  replace (242 - 1) with 241 by reflexivity.
  set (q := (L - 242 * n + 241) / 242).
  assert (Hq : 242 * q <= L - 242 * n + 241 < 242 * q + 242).
  { subst q. pose proof (Z.div_mod (L - 242 * n + 241) 242 ltac:(lia)).
    pose proof (Z.mod_pos_bound (L - 242 * n + 241) 242 ltac:(lia)). lia. }
  clearbody q. split; intros H; lia.
Qed.

Lemma following_days_business (k : nat) (last : Z) :
  Forall (fun d => weekday d < 5) (following_days k last).
Proof.
  revert last. induction k as [|k IH]; intros last; cbn [following_days];
    constructor; [|apply IH].
  apply (next_business_day_spec last).
Qed.

End ExtensionLoop.

(** * The calendar's claims *)

Section CalendarClaims.
Import py pd fix_integer_datetime_to_ts calendar_aux calendar_more_aux.

Lemma bdate_range_reversed (start end_ : Z) :
  end_ < start -> bdate_range start end_ = [].
Proof.
  intros H. unfold bdate_range, range_incl.
  replace (Z.to_nat (end_ - start + 1)) with O by lia. reflexivity.
Qed.

Lemma slice_nil {A : Type} (i j : Z) : slice (A:=A) [] i j = [].
Proof. unfold slice. now rewrite skipn_nil, firstn_nil. Qed.

(** C5. Over a date range with at least one business day, the base output
    of the calendar builder is not empty and strictly increasing; it holds
    exactly the whole minutes of 09:30-11:30 and 13:00-15:00, bounds
    included, of the business days of the range, so that neighbours are
    one minute apart except across the midday break and from one day's
    close to the next day's open. *)
Theorem base_calendar_in_sessions (start end_ : Z) :
  bdate_range start end_ <> [] ->
  let ts := trading_minutes_for_days (bdate_range start end_) in
  ts <> []
  /\ (forall fuel, build_minutes_sequence fuel start end_ (len ts) = Some (Ok ts))
  /\ StronglySorted Z.lt ts
  /\ (forall x, In x ts <->
        (start <= day_of x <= end_ /\ weekday (day_of x) < 5)
        /\ in_session (minute_of_day x))
  /\ (forall l1 x y l2, ts = l1 ++ x :: y :: l2 ->
        y = x + 1
        \/ (minute_of_day x = 11 * 60 + 30 /\ y = x + 90)
        \/ (minute_of_day x = 15 * 60 /\ minute_of_day y = 9 * 60 + 30
            /\ day_of x < day_of y)).
Proof.
  intros Hne ts. subst ts.
  split; [|split; [|split; [|split]]].
  - intros H. apply (f_equal len) in H.
    rewrite trading_minutes_length in H.
    destruct (bdate_range start end_); [congruence|].
    unfold len, minutes_per_day in H. simpl in H. lia.
  - intros fuel. unfold build_minutes_sequence.
    rewrite Z.leb_refl. now rewrite slice_all.
  - apply trading_minutes_ascending, bdate_range_ascending.
  - intros x. rewrite trading_minutes_In, bdate_range_In. reflexivity.
  - intros l1 x y l2. apply trading_minutes_spacing, bdate_range_ascending.
Qed.

Lemma base_calendar_in_sessions_witness :
  let ts := trading_minutes_for_days
              (bdate_range (date 2025 10 3) (date 2025 10 6)) in
  ts <> [] /\ StronglySorted Z.lt ts.
Proof.
  destruct (base_calendar_in_sessions (date 2025 10 3) (date 2025 10 6))
    as (H1 & _ & H2 & _).
  - vm_compute. discriminate.
  - split; assumption.
Defined.

(** C6. From a non-empty list of days and a required length L >= 1 the
    extension loop terminates: with enough fuel it returns a calendar, the
    same whatever the fuel beyond. The calendar returned is the session
    minutes of the days given followed by appended days; each appended day
    is a business day, the first one after its predecessor, starting after
    the last day given; each appended day adds a full day of 242 session
    minutes, and the loop stops at the first day with which the calendar has
    at least L minutes. The first L elements of the calendar are L in
    number; truncation keeps a strictly increasing calendar strictly
    increasing, and the calendar is strictly increasing when the days given
    were ascending. *)
Theorem extension_loop_terminates (days : list Z) (L : Z) :
  days <> [] ->
  1 <= L ->
  exists fuel extra ts,
    (forall fuel', (fuel <= fuel')%nat ->
       extend_days_until_length fuel' days L = Some (Ok ts))
    /\ ts = trading_minutes_for_days (days ++ extra)
    /\ extra = following_days (List.length extra) (List.last days 0)
    /\ Forall (fun d => weekday d < 5) extra
    /\ (forall d, d < next_business_day d <= d + 3
                  /\ weekday (next_business_day d) < 5
                  /\ forall x, d < x < next_business_day d -> 5 <= weekday x)
    /\ (forall cur d,
          len (trading_minutes_for_days (cur ++ [d]))
          = len (trading_minutes_for_days cur) + 242)
    /\ len ts = 242 * (len days + len extra)
    /\ (extra <> [] -> len ts - 242 < L)
    /\ L <= len ts
    /\ len (slice ts 0 L) = L
    /\ (StronglySorted Z.lt ts -> StronglySorted Z.lt (slice ts 0 L))
    /\ (StronglySorted Z.lt days ->
        StronglySorted Z.lt ts /\ StronglySorted Z.lt (slice ts 0 L)).
Proof.
  intros Hne HL.
  set (k := days_short (len days) L).
  set (extra := following_days k (List.last days 0)).
  set (ts := trading_minutes_for_days (days ++ extra)).
  destruct (days_short_spec (len days) L) as [H0 Hk]. fold k in H0, Hk.
  unfold minutes_per_day in H0, Hk.
  assert (Hrun : forall fuel, (k + 4 <= fuel)%nat ->
            extend_days_until_length fuel days L = Some (Ok ts)).
  { intros fuel Hfuel. subst ts extra.
    destruct (exists_last Hne) as (front & last & E).
    rewrite E, last_snoc. rewrite E, len_app in H0, Hk.
    change (len [last]) with 1 in H0, Hk.
    apply extend_exact; unfold minutes_per_day; [exact H0 | | exact Hfuel].
    intros Hk0. specialize (Hk Hk0). lia. }
  assert (Hex : len extra = Z.of_nat k)
    by (unfold len; subst extra; now rewrite following_days_length).
  assert (Hlen : len ts = 242 * (len days + len extra)).
  { subst ts. rewrite (trading_minutes_length (days ++ extra)), len_app.
    reflexivity. }
  assert (HLts : L <= len ts).
  { rewrite Hlen, Hex. destruct k as [|k']; [specialize (H0 eq_refl); lia|].
    destruct Hk as [_ Hk]; [discriminate | lia]. }
  exists (k + 4)%nat, extra, ts.
  split; [exact Hrun|]. split; [reflexivity|].
  split; [subst extra; now rewrite following_days_length|].
  split; [apply following_days_business|].
  split; [exact next_business_day_spec|].
  split.
  { intros cur d. rewrite trading_minutes_app, len_app.
    now rewrite (trading_minutes_length [d]). }
  split; [exact Hlen|]. split.
  { intros Hx. rewrite Hlen, Hex.
    destruct k as [|k']; [now destruct Hx|].
    destruct Hk as [Hk _]; [discriminate | lia]. }
  split; [exact HLts|].
  split; [apply len_slice_prefix; lia|].
  split; [apply ascending_slice|].
  intros Hd.
  destruct (extend_returns (Z.to_nat L) days L (Z.to_nat L + 4 + (k + 4)) Hne)
    as (extra' & Hext & _ & Hasc & _).
  { pose proof (len_nonneg (trading_minutes_for_days days)).
    unfold minutes_per_day. lia. }
  { lia. }
  rewrite Hrun in Hext by lia. injection Hext as Hext.
  assert (Hts : StronglySorted Z.lt ts).
  { rewrite Hext. now apply trading_minutes_ascending, Hasc. }
  split; [exact Hts | now apply ascending_slice].
Qed.

Lemma extension_loop_terminates_witness :
  exists fuel extra ts,
    (forall fuel', (fuel <= fuel')%nat ->
       extend_days_until_length fuel' [date 2025 10 3] 300 = Some (Ok ts))
    /\ ts = trading_minutes_for_days ([date 2025 10 3] ++ extra)
    /\ Forall (fun d => weekday d < 5) extra
    /\ 300 <= len ts.
Proof.
  destruct (extension_loop_terminates [date 2025 10 3] 300)
    as (fuel & extra & ts & H1 & H2 & _ & H3 & _ & _ & _ & _ & H4 & _).
  - discriminate.
  - lia.
  - exists fuel, extra, ts.
    split; [exact H1|]. split; [exact H2|]. split; [exact H3 | exact H4].
Defined.

(** C7, as stated, fails: over a range without business days and with
    required length 0 the builder returns the empty calendar and signals
    nothing. *)
Lemma empty_range_zero_length_returns :
  bdate_range (date 2025 10 4) (date 2025 10 5) = []
  /\ build_minutes_sequence 0 (date 2025 10 4) (date 2025 10 5) 0
     = Some (Ok []).
Proof.
  split; reflexivity.
Qed.

(** C7, amended. When the base range yields no business days (start after
    end, or only Saturdays and Sundays), the base calendar is empty; for a
    required length L <= 0 the builder returns it and signals nothing; for
    L >= 1 the builder raises an error in the first iteration of the
    extension loop, so it never loops forever. *)
Theorem empty_base_range (start end_ L : Z) (fuel : nat) :
  bdate_range start end_ = [] ->
  trading_minutes_for_days (bdate_range start end_) = []
  /\ (L <= 0 -> build_minutes_sequence fuel start end_ L = Some (Ok []))
  /\ (1 <= L -> (1 <= fuel)%nat ->
      build_minutes_sequence fuel start end_ L = Some (Raise IndexError)).
Proof.
  intros He. unfold build_minutes_sequence. rewrite He.
  change (trading_minutes_for_days []) with (@nil Z).
  change (len (@nil Z)) with 0.
  split; [reflexivity|]. split.
  - intros HL. replace (L <=? 0) with true by (symmetry; apply Z.leb_le; lia).
    now rewrite slice_nil.
  - intros HL Hf.
    replace (L <=? 0) with false by (symmetry; apply Z.leb_gt; lia).
    destruct fuel as [|fuel]; [lia|].
    cbn [extend_days_until_length].
    change (trading_minutes_for_days []) with (@nil Z).
    change (len (@nil Z)) with 0.
    replace (L <=? 0) with false by (symmetry; apply Z.leb_gt; lia).
    now rewrite getitem_empty.
Qed.

Lemma empty_base_range_witness :
  build_minutes_sequence 1 (date 2025 10 8) (date 2025 10 1) 5
  = Some (Raise IndexError).
Proof.
  apply (empty_base_range (date 2025 10 8) (date 2025 10 1) 5 1).
  - apply bdate_range_reversed. vm_compute. reflexivity.
  - lia.
  - lia.
Defined.

End CalendarClaims.

(** * Properties of the timestamp repair *)

Section RepairFacts.
Import py pd fix_integer_datetime_to_ts calendar_aux repair_aux.

Variable int_of_str : string -> option Z.

Lemma mem_index_of (name : string) (names : list string) :
  mem name names = true <-> exists k, index_of name names = Some k.
Proof.
  unfold mem. induction names as [|x names IH]; simpl.
  - split; [discriminate | intros [k H]; discriminate].
  - destruct (String.eqb name x); simpl.
    + split; eauto.
    + rewrite IH. split; intros [k H].
      * rewrite H. simpl. eauto.
      * destruct (index_of name names); [eauto | discriminate].
Qed.

Lemma index_of_bound (name : string) (names : list string) (k : nat) :
  index_of name names = Some k -> (k < List.length names)%nat.
Proof.
  revert k. induction names as [|x names IH]; simpl; intros k; [discriminate|].
  destruct (String.eqb name x).
  - intros [= <-]. lia.
  - destruct (index_of name names) as [k'|]; simpl; [|discriminate].
    intros [= <-]. specialize (IH k' eq_refl). lia.
Qed.

Lemma cell_at_set_nth (k : nat) (v : cell) (row : list cell) :
  cell_at k (set_nth k v row) = v.
Proof.
  unfold cell_at. revert row.
  induction k as [|k IH]; intros [|c row]; simpl; auto.
Qed.

Lemma remove_nth_set_nth (k : nat) (v : cell) (row : list cell) :
  (k < List.length row)%nat ->
  remove_nth k (set_nth k v row) = remove_nth k row.
Proof.
  revert row. induction k as [|k IH]; intros [|c row]; simpl; intros H;
    try lia; auto.
  rewrite IH; [reflexivity | lia].
Qed.

(** ** The integer test *)

Lemma cell_to_int_raise (c : cell) (e : exn) :
  cell_to_int int_of_str c = Raise e -> e = ValueError.
Proof.
  destruct c as [z|f|b|s|m|]; simpl; try discriminate.
  - unfold int_of_float. destruct (Prim2SF f); try discriminate;
      now intros [= <-].
  - destruct (int_of_str s); [discriminate | now intros [= <-]].
  - now intros [= <-].
Qed.

Lemma astype_int_spec (col : list cell) :
  (exists zs, astype_int int_of_str col = Ok zs
              /\ forall c, In c col -> exists z, cell_to_int int_of_str c = Ok z)
  \/ (astype_int int_of_str col = Raise ValueError
      /\ exists c, In c col /\ cell_to_int int_of_str c = Raise ValueError).
Proof.
  induction col as [|c col IH]; simpl.
  - left. exists []. split; [reflexivity | contradiction].
  - destruct (cell_to_int int_of_str c) as [z|e] eqn:Hc.
    + destruct IH as [(zs & Hzs & Hall)|(Hr & c' & Hin & Hc')]; rewrite ?Hzs, ?Hr.
      * left. exists (z :: zs). split; [reflexivity|].
        intros c' [<-|Hin]; [exists z; exact Hc | now apply Hall].
      * right. split; [reflexivity|]. exists c'. auto.
    + right. pose proof (cell_to_int_raise c e Hc) as ->.
      split; [reflexivity|]. exists c. auto.
Qed.

Lemma forallb_isinstance_int (l : list Z) : forallb isinstance_int l = true.
Proof. induction l; simpl; auto. Qed.

(** The test fails exactly on a value that is present and does not convert. *)
Lemma is_int_seq_false (col : list cell) :
  is_int_seq int_of_str col = false
  <-> exists c, In c col /\ isna c = false
                /\ cell_to_int int_of_str c = Raise ValueError.
Proof.
  unfold is_int_seq.
  destruct (astype_int_spec (dropna_values col))
    as [(zs & -> & Hall)|(-> & c & Hin & Hc)].
  - rewrite forallb_isinstance_int. split; [discriminate|].
    intros (c & Hin & Hna & Hc).
    destruct (Hall c) as [z Hz]; [|congruence].
    apply filter_In. now rewrite Hna.
  - split; [|reflexivity]. intros _. exists c.
    apply filter_In in Hin as [Hin Hna].
    apply negb_true_iff in Hna. auto.
Qed.

(** ** The calendar of a repair *)

Lemma extend_raise (fuel : nat) (days : list Z) (L : Z) (e : exn) :
  extend_days_until_length fuel days L = Some (Raise e) -> e = IndexError.
Proof.
  revert days. induction fuel as [|fuel IH]; intros days; [discriminate|].
  cbn [extend_days_until_length].
  destruct (L <=? _); [discriminate|].
  destruct (getitem days (-1)) as [last|e'] eqn:Hg.
  - destruct (skip_weekend fuel (last + 1)); [apply IH | discriminate].
  - intros [= <-]. now apply getitem_raise in Hg.
Qed.

Lemma build_raise (fuel : nat) (s e L : Z) (x : exn) :
  build_minutes_sequence fuel s e L = Some (Raise x) -> x = IndexError.
Proof.
  unfold build_minutes_sequence.
  destruct (L <=? _); [discriminate|].
  destruct (extend_days_until_length fuel (bdate_range s e) L)
    as [[ts|x']|] eqn:He; try discriminate.
  intros [= <-]. now apply extend_raise in He.
Qed.

(** With a business day in the range, or nothing to build, the builder
    returns exactly the required number of trading minutes, ascending. *)
Lemma build_returns (s e L : Z) :
  0 <= L ->
  bdate_range s e <> [] \/ L = 0 ->
  exists fuel ts,
    (forall fuel', (fuel <= fuel')%nat ->
       build_minutes_sequence fuel' s e L = Some (Ok ts))
    /\ len ts = L /\ ascending ts /\ Forall trading_minute ts.
Proof.
  intros HL Hne.
  set (days := bdate_range s e) in *.
  assert (Hbase : forall extra, Forall (fun d => weekday d < 5) extra ->
            Forall trading_minute (trading_minutes_for_days (days ++ extra))).
  { intros extra Hx. apply Forall_forall. intros x Hin.
    apply trading_minutes_In in Hin as [Hd Hs]. split; [|exact Hs].
    apply in_app_or in Hd as [Hd|Hd].
    - now apply bdate_range_In in Hd.
    - rewrite Forall_forall in Hx. now apply Hx. }
  assert (Hslice : forall ts, ascending ts -> Forall trading_minute ts ->
            L <= len ts ->
            len (slice ts 0 L) = L /\ ascending (slice ts 0 L)
            /\ Forall trading_minute (slice ts 0 L)).
  { intros ts Ha Ht Hle. split; [apply len_slice_prefix; lia|].
    split; [now apply ascending_slice|].
    rewrite slice_prefix by lia.
    apply Forall_forall. intros x Hx. rewrite Forall_forall in Ht.
    apply Ht. rewrite <- (firstn_skipn (Z.to_nat L) ts).
    apply in_or_app. now left. }
  unfold build_minutes_sequence. fold days.
  destruct (Z.leb_spec L (len (trading_minutes_for_days days))) as [Hle|Hgt].
  - exists O, (slice (trading_minutes_for_days days) 0 L).
    split; [reflexivity|].
    apply Hslice; [| |exact Hle].
    + apply trading_minutes_ascending, bdate_range_ascending.
    + specialize (Hbase [] (Forall_nil _)). now rewrite app_nil_r in Hbase.
  - destruct Hne as [Hne|H0];
      [|pose proof (len_nonneg (trading_minutes_for_days days)); lia].
    destruct (extend_returns (Z.to_nat L) days L (Z.to_nat L + 4) Hne)
      as (extra & Hext & Hlen & Hasc & Hwd).
    { pose proof (len_nonneg (trading_minutes_for_days days)).
      unfold minutes_per_day. lia. }
    { lia. }
    exists (Z.to_nat L + 4)%nat,
           (slice (trading_minutes_for_days (days ++ extra)) 0 L).
    split.
    + intros fuel' Hf.
      now rewrite (extend_more_fuel _ _ _ _ _ Hext Hf).
    + apply Hslice; [| |exact Hlen].
      * apply trading_minutes_ascending, Hasc, bdate_range_ascending.
      * now apply Hbase.
Qed.

(** ** Sorting an index that is already ascending *)

Lemma sort_ascending_rows (ts : list Z) (vals : list (list cell)) :
  ascending ts ->
  fold_right insert_row [] (combine (map CTimestamp ts) vals)
  = combine (map CTimestamp ts) vals.
Proof.
  unfold ascending. intros Hts. revert vals.
  induction Hts as [|x ts Hs IH Hx]; intros vals; simpl; [reflexivity|].
  destruct vals as [|v vals]; simpl; [reflexivity|].
  rewrite IH.
  destruct ts as [|y ts]; simpl; [reflexivity|].
  destruct vals as [|w vals]; simpl; [reflexivity|].
  apply Forall_inv in Hx.
  now replace (x <=? y) with true by (symmetry; apply Z.leb_le; lia).
Qed.

End RepairFacts.

(** * The repair's claims *)

Section RepairClaims.
Import py pd fix_integer_datetime_to_ts calendar_aux repair_aux.

Lemma rebind_rows (k : nat) (rs : list (cell * list cell)) (vals : list cell) :
  List.length vals = List.length rs ->
  (forall r, In r rs -> (k < List.length (snd r))%nat) ->
  map (fun r => (cell_at k (snd r), remove_nth k (snd r)))
      (map (fun rv => (fst (fst rv), set_nth k (snd rv) (snd (fst rv))))
           (combine rs vals))
  = combine vals (map (fun r => remove_nth k (snd r)) rs).
Proof.
  revert vals. induction rs as [|r rs IH]; intros [|v vals]; simpl;
    intros Hlen Hk; try discriminate; [reflexivity|].
  rewrite cell_at_set_nth, remove_nth_set_nth by (apply Hk; auto).
  f_equal. apply IH; [lia | auto].
Qed.

Lemma map_fst_combine {A B : Type} (a : list A) (b : list B) :
  List.length a = List.length b -> map fst (combine a b) = a.
Proof.
  revert b. induction a as [|x a IH]; intros [|y b]; simpl;
    intros H; try discriminate; [reflexivity|].
  f_equal. apply IH. lia.
Qed.

Lemma map_snd_combine {A B : Type} (a : list A) (b : list B) :
  List.length a = List.length b -> map snd (combine a b) = b.
Proof.
  revert b. induction a as [|x a IH]; intros [|y b]; simpl;
    intros H; try discriminate; [reflexivity|].
  f_equal. apply IH. lia.
Qed.

(** What [main] does once the integer test has passed and the calendar is
    built. *)
Lemma main_rebinds (int_of_str : string -> option Z) (fuel : nat)
    (df : DataFrame) (start end_ : Z) (k : nat) (ts : list Z) :
  rectangular df ->
  index_of "datetime" (columns df) = Some k ->
  is_int_seq int_of_str (map (fun r => cell_at k (snd r)) (rows df)) = true ->
  build_minutes_sequence fuel start end_ (len (rows df)) = Some (Ok ts) ->
  len ts = len (rows df) ->
  ascending ts ->
  main int_of_str fuel (Some df) start end_
  = Some (Ok (mkDataFrame (Some "datetime"%string) (remove_nth k (columns df))
                (combine (map CTimestamp ts)
                   (map (fun r => remove_nth k (snd r)) (rows df))))).
Proof.
  intros Hrect Hk Hint Hbuild Hlen Hasc.
  unfold main.
  replace (mem "datetime" (columns df)) with true
    by (symmetry; apply mem_index_of; eauto).
  unfold getcol. rewrite Hk. cbv beta iota. simpl negb. cbv iota.
  rewrite Hint, Hbuild. simpl negb. cbv iota.
  replace (len ts <? len (rows df)) with false
    by (symmetry; apply Z.ltb_ge; lia).
  rewrite <- Hlen, slice_all.
  unfold setitem. rewrite Hk.
  replace (len (map CTimestamp ts) =? len (rows df)) with true
    by (symmetry; apply Z.eqb_eq; unfold len in *; rewrite length_map; lia).
  simpl negb. cbv iota.
  unfold set_index. cbn [columns rows index_name]. rewrite Hk.
  unfold sort_index. cbn [columns rows index_name].
  rewrite rebind_rows.
  - now rewrite sort_ascending_rows.
  - unfold len in Hlen. rewrite length_map. lia.
  - intros r Hr. rewrite (Hrect r Hr). now apply index_of_bound in Hk.
Qed.

(** C3, as stated, fails: three bars with a valid counter column and a date
    range that holds only a Saturday and a Sunday make the repair stop on
    an IndexError. *)
Lemma repair_without_business_day :
  is_int_seq int_of_ascii [CInt 0; CInt 1; CInt 2] = true
  /\ bdate_range (date 2025 10 4) (date 2025 10 5) = []
  /\ main int_of_ascii 10 (Some counter_frame) (date 2025 10 4) (date 2025 10 5)
     = Some (Raise IndexError).
Proof.
  repeat split; reflexivity.
Qed.

(** C3, amended. For a frame of N rows whose time column passes the integer
    test, and a date range with at least one business day (or N = 0), the
    repair returns a frame of exactly N rows, indexed under the name
    datetime by N strictly increasing trading minutes, with the cells of
    every other column unchanged and in the original row order; the counter
    column is gone from the columns. *)
Theorem repair_rebinds_by_position (int_of_str : string -> option Z)
    (df : DataFrame) (start end_ : Z) (k : nat) :
  rectangular df ->
  index_of "datetime" (columns df) = Some k ->
  is_int_seq int_of_str (map (fun r => cell_at k (snd r)) (rows df)) = true ->
  bdate_range start end_ <> [] \/ rows df = [] ->
  exists fuel ts out,
    (forall fuel', (fuel <= fuel')%nat ->
       main int_of_str fuel' (Some df) start end_ = Some (Ok out))
    /\ len (rows out) = len (rows df)
    /\ map fst (rows out) = map CTimestamp ts
    /\ StronglySorted Z.lt ts
    /\ Forall trading_minute ts
    /\ map snd (rows out) = map (fun r => remove_nth k (snd r)) (rows df)
    /\ columns out = remove_nth k (columns df)
    /\ index_name out = Some "datetime"%string.
Proof.
  intros Hrect Hk Hint Hrange.
  destruct (build_returns start end_ (len (rows df)))
    as (fuel & ts & Hbuild & Hlen & Hasc & Htm).
  { apply len_nonneg. }
  { destruct Hrange as [H|H]; [now left | right; now rewrite H]. }
  assert (Hl : List.length (map CTimestamp ts)
               = List.length (map (fun r => remove_nth k (snd r)) (rows df))).
  { unfold len in Hlen. rewrite !length_map. lia. }
  exists fuel, ts. eexists.
  split.
  { intros fuel' Hf.
    apply (main_rebinds int_of_str fuel' df start end_ k ts); auto. }
  cbn [rows columns index_name].
  split.
  { unfold len. rewrite length_combine, <- Hl, Nat.min_id, length_map.
    exact Hlen. }
  split; [now apply map_fst_combine|].
  split; [exact Hasc|]. split; [exact Htm|].
  split; [now apply map_snd_combine|]. split; reflexivity.
Qed.

Lemma repair_rebinds_by_position_witness :
  exists fuel ts out,
    (forall fuel', (fuel <= fuel')%nat ->
       main int_of_ascii fuel' (Some counter_frame)
            (date 2025 10 3) (date 2025 10 3) = Some (Ok out))
    /\ len (rows out) = 3
    /\ map fst (rows out) = map CTimestamp ts
    /\ StronglySorted Z.lt ts
    /\ map snd (rows out)
       = [[CFloat 10.5; CInt 100]; [CFloat 10.75; CInt 250];
          [CFloat 10.25; CInt 175]].
Proof.
  destruct (repair_rebinds_by_position int_of_ascii counter_frame
              (date 2025 10 3) (date 2025 10 3) 0)
    as (fuel & ts & out & H1 & H2 & H3 & H4 & _ & H5 & _).
  - intros r Hr. simpl in Hr.
    destruct Hr as [<-|[<-|[<-|[]]]]; reflexivity.
  - reflexivity.
  - reflexivity.
  - left. vm_compute. discriminate.
  - exists fuel, ts, out. repeat split; assumption.
Defined.

(** C4, as stated, fails: a counter column out of order, 2, 0, 1, passes
    the test and is rebound by position. *)
Lemma shuffled_counter_is_accepted :
  main int_of_ascii 10 (Some shuffled_frame) (date 2025 10 3) (date 2025 10 3)
  = Some (Ok (mkDataFrame (Some "datetime"%string) ["close"; "volume"]%string
                [(CTimestamp (at_time (date 2025 10 3) 9 30),
                  [CFloat 10.5; CInt 100]);
                 (CTimestamp (at_time (date 2025 10 3) 9 31),
                  [CFloat 10.75; CInt 250]);
                 (CTimestamp (at_time (date 2025 10 3) 9 32),
                  [CFloat 10.25; CInt 175])])).
Proof.
  reflexivity.
Qed.

(** The validation exit is taken exactly when the integer test fails. *)
Lemma validation_exit_iff (int_of_str : string -> option Z)
    (fuel : nat) (df : DataFrame) (start end_ : Z) (k : nat) :
  index_of "datetime" (columns df) = Some k ->
  main int_of_str fuel (Some df) start end_
  = Some (Raise (SystemExit not_an_integer_sequence))
  <-> is_int_seq int_of_str (map (fun r => cell_at k (snd r)) (rows df))
      = false.
Proof.
  intros Hk.
  unfold main.
  replace (mem "datetime" (columns df)) with true
    by (symmetry; apply mem_index_of; eauto).
  unfold getcol. rewrite Hk. cbv beta iota. simpl negb. cbv iota.
  destruct (is_int_seq int_of_str _); simpl negb; cbv iota;
    [|split; reflexivity].
  split; [|discriminate].
  unfold not_an_integer_sequence.
  destruct (build_minutes_sequence fuel start end_ (len (rows df)))
    as [[ts|e]|] eqn:Hb; [| |intros H; discriminate H].
  - destruct (len ts <? len (rows df)); [intros H; discriminate H|].
    unfold setitem. rewrite Hk.
    destruct (negb _); [intros H; discriminate H|].
    unfold set_index. cbn [columns]. rewrite Hk. intros H; discriminate H.
  - apply build_raise in Hb. subst e. intros H; discriminate H.
Qed.

(** C4, amended. When some value of the time column is present and cannot
    be converted to an integer, the repair stops with the validation exit
    and no frame is produced. The order of the values is not examined: a
    time column of integers, in whatever order, is not rejected by the
    validation. *)
Theorem validation_rejects_unconvertible (int_of_str : string -> option Z)
    (fuel : nat) (df : DataFrame) (start end_ : Z) (k : nat) :
  index_of "datetime" (columns df) = Some k ->
  ((exists c,
      In c (map (fun r => cell_at k (snd r)) (rows df))
      /\ isna c = false
      /\ cell_to_int int_of_str c = Raise ValueError) ->
   main int_of_str fuel (Some df) start end_
   = Some (Raise (SystemExit not_an_integer_sequence)))
  /\ (Forall (fun c => exists z, c = CInt z)
        (map (fun r => cell_at k (snd r)) (rows df)) ->
      main int_of_str fuel (Some df) start end_
      <> Some (Raise (SystemExit not_an_integer_sequence))).
Proof.
  intros Hk. split.
  - intros Hc. apply (validation_exit_iff _ _ _ _ _ _ Hk).
    apply is_int_seq_false. exact Hc.
  - intros Hall Hm. apply (validation_exit_iff _ _ _ _ _ _ Hk) in Hm.
    apply is_int_seq_false in Hm as (c & Hin & _ & Hc).
    rewrite Forall_forall in Hall. destruct (Hall c Hin) as [z ->].
    discriminate Hc.
Qed.

Lemma validation_rejects_unconvertible_witness :
  main int_of_ascii 0 (Some dated_frame) (date 2025 10 3) (date 2025 10 3)
  = Some (Raise (SystemExit not_an_integer_sequence))
  /\ main int_of_ascii 10 (Some shuffled_frame) (date 2025 10 3)
       (date 2025 10 3)
     <> Some (Raise (SystemExit not_an_integer_sequence)).
Proof.
  split.
  - apply (validation_rejects_unconvertible int_of_ascii 0 dated_frame
             (date 2025 10 3) (date 2025 10 3) 0).
    + reflexivity.
    + exists (CStr "2025-10-03 09:30:00").
      split; [simpl; auto|]. split; reflexivity.
  - apply (validation_rejects_unconvertible int_of_ascii 10 shuffled_frame
             (date 2025 10 3) (date 2025 10 3) 0).
    + reflexivity.
    + repeat (constructor; [eexists; reflexivity|]). constructor.
Defined.

End RepairClaims.

(** * Properties of the feed normaliser *)

Section FeedFacts.
Import py pd download_akshare_minute.
Local Open Scope string_scope.
Local Open Scope list_scope.

Variable repr_cell : cell -> string.
Variable to_datetime : list cell -> list cell.
Variable to_numeric : list cell -> list cell.
Variable day_plus_seconds : string -> list cell -> result (list cell).

(** ** Dicts and labels *)

Lemma sdict_get_set {V : Type} (d : list (string * V)) (k k' : string) (v : V) :
  sdict_get (sdict_set d k v) k'
  = if String.eqb k' k then Some v else sdict_get d k'.
Proof.
  induction d as [|[k0 v0] d IH]; simpl.
  - reflexivity.
  - destruct (String.eqb k k0) eqn:E; simpl.
    + apply String.eqb_eq in E. subst k0.
      destruct (String.eqb k' k); reflexivity.
    + rewrite IH. destruct (String.eqb k' k0) eqn:E'; [|reflexivity].
      apply String.eqb_eq in E'. subst k0.
      destruct (String.eqb k' k) eqn:E''; [|reflexivity].
      apply String.eqb_eq in E''. subst k'.
      rewrite String.eqb_refl in E. discriminate.
Qed.

Lemma lower_map_get (names : list string) (k c : string) :
  sdict_get (lower_map names) k = Some c -> lower c = k.
Proof.
  unfold lower_map.
  assert (H : forall d : list (string * string),
             (forall k c, sdict_get d k = Some c -> lower c = k) ->
             forall k c,
               sdict_get (fold_left (fun d c => sdict_set d (lower c) c) names d) k
               = Some c -> lower c = k).
  { induction names as [|x names IH]; intros d Hd; simpl; [exact Hd|].
    apply IH. intros k' c'. rewrite sdict_get_set.
    destruct (String.eqb k' (lower x)) eqn:E.
    - apply String.eqb_eq in E. now intros [= <-].
    - apply Hd. }
  apply H. intros k' c'. discriminate.
Qed.

Lemma mem_map (f : string -> string) (names : list string) (x : string) :
  mem x names = true -> f x = x -> mem x (map f names) = true.
Proof.
  unfold mem. rewrite !existsb_exists.
  intros (y & Hy & E) Hf. apply String.eqb_eq in E. subst y.
  exists x. split; [|apply String.eqb_refl].
  rewrite <- Hf at 1. now apply in_map.
Qed.

(** A renaming that has no entry for a label keeps that label. *)
Lemma rename_keeps (df : DataFrame) (mapping : list (string * string))
    (x : string) :
  sdict_get mapping x = None ->
  mem x (columns df) = true -> mem x (columns (rename df mapping)) = true.
Proof.
  intros Hx Hm. unfold rename. cbn [columns].
  apply mem_map; [exact Hm | now rewrite Hx].
Qed.

Lemma rename_rows (df : DataFrame) (mapping : list (string * string)) :
  rows (rename df mapping) = rows df.
Proof. reflexivity. Qed.

Lemma sdict_set_keeps_none {V : Type} (b : bool) (d : list (string * V))
    (k x : string) (v : V) :
  String.eqb x k = false -> sdict_get d x = None ->
  sdict_get (if b then sdict_set d k v else d) x = None.
Proof.
  intros E H. destruct b; [|exact H]. now rewrite sdict_get_set, E.
Qed.

(** ** The column mapping keeps the time column and every row *)

Lemma rename_chinese_and_capitalized_keeps (df : DataFrame) :
  mem "datetime" (columns df) = true ->
  mem "datetime" (columns (rename_chinese_and_capitalized df)) = true
  /\ rows (rename_chinese_and_capitalized df) = rows df.
Proof.
  intros Hm. unfold rename_chinese_and_capitalized.
  match goal with
  | |- context [match ?m with [] => df | _ :: _ => rename df ?m' end] =>
      assert (Hnone : sdict_get m "datetime" = None)
  end.
  { cbn [fold_left ohlcv].
    repeat (apply sdict_set_keeps_none; [reflexivity|]). reflexivity. }
  match goal with
  | |- context [match ?m with [] => df | _ :: _ => rename df ?m' end] =>
      destruct m eqn:Em
  end.
  - auto.
  - split; [|reflexivity]. now apply rename_keeps.
Qed.

Lemma rename_lowercase_matches_keeps (df : DataFrame) :
  mem "datetime" (columns df) = true ->
  mem "datetime" (columns (rename_lowercase_matches df)) = true
  /\ rows (rename_lowercase_matches df) = rows df.
Proof.
  unfold rename_lowercase_matches.
  set (lowermap := lower_map (columns df)).
  assert (Hl : forall want c, sdict_get lowermap want = Some c -> lower c = want)
    by (intros want c; apply lower_map_get).
  clearbody lowermap.
  assert (Hwant : forall want, In want ohlcv -> String.eqb "datetime" want = false).
  { intros want Hin. simpl in Hin.
    destruct Hin as [<-|[<-|[<-|[<-|[<-|[]]]]]]; reflexivity. }
  revert Hwant. generalize ohlcv as wants. intros wants. revert df.
  induction wants as [|want wants IH]; intros df Hwant Hm; simpl; [auto|].
  assert (Hstep : forall df', mem "datetime" (columns df') = true ->
            rows df' = rows df ->
            mem "datetime"
              (columns (fold_left
                 (fun df0 want0 =>
                    if negb (mem want0 (columns df0))
                    then match sdict_get lowermap want0 with
                         | Some c => rename df0 [(c, want0)]
                         | None => df0
                         end
                    else df0) wants df')) = true
            /\ rows (fold_left
                 (fun df0 want0 =>
                    if negb (mem want0 (columns df0))
                    then match sdict_get lowermap want0 with
                         | Some c => rename df0 [(c, want0)]
                         | None => df0
                         end
                    else df0) wants df') = rows df).
  { intros df' Hm' Hr. rewrite <- Hr. apply IH; [|exact Hm'].
    intros w Hw. apply Hwant. now right. }
  destruct (negb (mem want (columns df))); [|now apply Hstep].
  destruct (sdict_get lowermap want) as [c|] eqn:Hc; [|now apply Hstep].
  apply Hstep; [|reflexivity].
  apply rename_keeps; [|exact Hm].
  cbn [sdict_get]. destruct (String.eqb "datetime" c) eqn:E; [|reflexivity].
  apply String.eqb_eq in E. subst c.
  apply Hl in Hc. rewrite <- Hc in Hwant.
  specialize (Hwant _ (or_introl eq_refl)). discriminate.
Qed.

Lemma map_columns_keeps (df : DataFrame) :
  mem "datetime" (columns df) = true ->
  mem "datetime" (columns (map_columns df)) = true
  /\ rows (map_columns df) = rows df.
Proof.
  intros Hm. unfold map_columns.
  destruct (rename_chinese_and_capitalized_keeps df Hm) as [H1 R1].
  destruct (rename_lowercase_matches_keeps _ H1) as [H2 R2].
  split; [exact H2 | now rewrite R2].
Qed.

(** ** Frames *)

Lemma index_of_mem (name : string) (names : list string) :
  mem name names = true -> exists k, index_of name names = Some k.
Proof.
  unfold mem. induction names as [|x names IH]; simpl; [discriminate|].
  destruct (String.eqb name x); simpl; [eauto|].
  intros H. destruct (IH H) as [k ->]. simpl. eauto.
Qed.

Lemma positions_of_members (names keep : list string) :
  (forall c, In c keep -> mem c names = true) ->
  exists ks, positions names keep = Ok ks.
Proof.
  induction keep as [|c keep IH]; intros H; simpl; [eauto|].
  destruct (index_of_mem c names) as [k ->]; [apply H; simpl; auto|].
  destruct IH as [ks ->]; [intros c' Hc'; apply H; simpl; auto|]. eauto.
Qed.

Lemma insert_row_length (r : cell * list cell) (l : list (cell * list cell)) :
  List.length (insert_row r l) = S (List.length l).
Proof.
  induction l as [|r' l IH]; simpl; [reflexivity|].
  destruct (cell_leb (fst r) (fst r')); simpl; [reflexivity | now rewrite IH].
Qed.

Lemma sort_index_length (df : DataFrame) :
  List.length (rows (sort_index df)) = List.length (rows df).
Proof.
  unfold sort_index. cbn [rows].
  induction (rows df) as [|r l IH]; simpl; [reflexivity|].
  now rewrite insert_row_length, IH.
Qed.

(** Overwriting an existing column with as many values as there are rows
    succeeds and keeps the shape of the frame. *)
Lemma setitem_existing (df : DataFrame) (name : string) (vals : list cell) :
  mem name (columns df) = true ->
  List.length vals = List.length (rows df) ->
  exists df', setitem df name vals = Ok df'
              /\ columns df' = columns df
              /\ index_name df' = index_name df
              /\ List.length (rows df') = List.length (rows df).
Proof.
  intros Hm Hl. unfold setitem.
  replace (len vals =? len (rows df))%Z with true
    by (symmetry; apply Z.eqb_eq; unfold len; now rewrite Hl).
  destruct (index_of_mem _ _ Hm) as [k ->]. simpl negb. cbv iota.
  eexists. split; [reflexivity|]. cbn [columns index_name rows].
  repeat split.
  rewrite length_map, length_combine, Hl. apply Nat.min_id.
Qed.

Lemma getcol_length (df : DataFrame) (name : string) (col : list cell) :
  getcol df name = Ok col -> List.length col = List.length (rows df).
Proof.
  unfold getcol. destruct (index_of name (columns df)); [|discriminate].
  intros [= <-]. apply length_map.
Qed.

Lemma getcol_member (df : DataFrame) (name : string) :
  mem name (columns df) = true -> exists col, getcol df name = Ok col.
Proof.
  intros Hm. unfold getcol. destruct (index_of_mem _ _ Hm) as [k ->]. eauto.
Qed.

Lemma dropna_no_subset (df : DataFrame) : dropna df [] = Ok df.
Proof.
  unfold dropna. cbn [positions forallb].
  destruct df as [i c r]. cbn [index_name columns rows].
  f_equal. f_equal. induction r as [|x r IH]; simpl; [reflexivity|].
  now rewrite IH.
Qed.

Lemma positions_In (names keep : list string) (ks : list nat)
    (c : string) (k : nat) :
  positions names keep = Ok ks -> In c keep -> index_of c names = Some k ->
  In k ks.
Proof.
  revert ks. induction keep as [|x keep IH]; intros ks; simpl; [contradiction|].
  destruct (index_of x names) as [kx|] eqn:Hx; [|discriminate].
  destruct (positions names keep) as [ks'|]; [|discriminate].
  intros [= <-] [->|Hin] Hc.
  - left. congruence.
  - right. now apply (IH ks').
Qed.

Lemma mem_In (x : string) (l : list string) : mem x l = true <-> In x l.
Proof.
  unfold mem. rewrite existsb_exists. split.
  - intros (y & Hy & E). apply String.eqb_eq in E. now subst.
  - intros H. exists x. split; [exact H | apply String.eqb_refl].
Qed.

Lemma index_of_app_new (name : string) (names : list string) :
  index_of name names = None ->
  index_of name (names ++ [name]) = Some (List.length names).
Proof.
  induction names as [|x names IH]; simpl.
  - now rewrite String.eqb_refl.
  - destruct (String.eqb name x); [discriminate|].
    destruct (index_of name names); [discriminate|].
    intros _. now rewrite IH.
Qed.

Lemma combine_written (k : nat) (rs : list (cell * list cell))
    (vals : list cell) :
  List.length vals = List.length rs ->
  map (fun r => cell_at k (snd r))
    (map (fun rv => (fst (fst rv), set_nth k (snd rv) (snd (fst rv))))
       (combine rs vals)) = vals.
Proof.
  revert vals. induction rs as [|r rs IH]; intros [|v vals]; simpl;
    try discriminate; [reflexivity|].
  intros [= Hl]. now rewrite cell_at_set_nth, IH.
Qed.

Lemma combine_index (k : nat) (rs : list (cell * list cell))
    (vals : list cell) :
  List.length vals = List.length rs ->
  map fst
    (map (fun rv => (fst (fst rv), set_nth k (snd rv) (snd (fst rv))))
       (combine rs vals)) = map fst rs.
Proof.
  revert vals. induction rs as [|r rs IH]; intros [|v vals]; simpl;
    try discriminate; [reflexivity|].
  intros [= Hl]. now rewrite IH.
Qed.

Lemma setitem_lengths (df df' : DataFrame) (name : string)
    (vals : list cell) :
  setitem df name vals = Ok df' -> List.length vals = List.length (rows df).
Proof.
  unfold setitem.
  destruct (len vals =? len (rows df))%Z eqn:E; [|discriminate].
  intros _. apply Z.eqb_eq in E. unfold len in E. now apply Nat2Z.inj in E.
Qed.

(** After [df[name] = values] the column [name] holds the values. *)
Lemma setitem_column (df df' : DataFrame) (name : string)
    (vals : list cell) :
  setitem df name vals = Ok df' ->
  exists k, index_of name (columns df') = Some k
            /\ map (fun r => cell_at k (snd r)) (rows df') = vals.
Proof.
  intros H. pose proof (setitem_lengths _ _ _ _ H) as Hl. revert H.
  unfold setitem.
  destruct (len vals =? len (rows df))%Z; [|discriminate]. cbn [negb].
  intros [= <-]. cbn [columns rows].
  destruct (index_of name (columns df)) as [k|] eqn:Hi.
  - exists k. split; [exact Hi | now apply combine_written].
  - exists (List.length (columns df)).
    split; [now apply index_of_app_new | now apply combine_written].
Qed.

Lemma setitem_index (df df' : DataFrame) (name : string)
    (vals : list cell) :
  setitem df name vals = Ok df' -> map fst (rows df') = map fst (rows df).
Proof.
  intros H. pose proof (setitem_lengths _ _ _ _ H) as Hl. revert H.
  unfold setitem.
  destruct (len vals =? len (rows df))%Z; [|discriminate]. cbn [negb].
  intros [= <-]. cbn [rows]. now apply combine_index.
Qed.

Lemma setitem_shape (df df' : DataFrame) (name : string) (vals : list cell)
    (k : nat) :
  index_of name (columns df) = Some k ->
  setitem df name vals = Ok df' ->
  columns df' = columns df
  /\ List.length (rows df') = List.length (rows df).
Proof.
  intros Hk H. pose proof (setitem_lengths _ _ _ _ H) as Hl. revert H.
  unfold setitem.
  destruct (len vals =? len (rows df))%Z; [|discriminate]. cbn [negb].
  rewrite Hk. intros [= <-]. cbn [columns rows]. split; [reflexivity|].
  rewrite length_map, length_combine, Hl. apply Nat.min_id.
Qed.

(** A renaming that neither renames a label nor produces it leaves its
    position alone. *)
Lemma rename_index_of (df : DataFrame) (mapping : list (string * string))
    (x : string) :
  sdict_get mapping x = None ->
  (forall k v, sdict_get mapping k = Some v -> v <> x) ->
  index_of x (columns (rename df mapping)) = index_of x (columns df).
Proof.
  intros Hx Hv. unfold rename. cbn [columns].
  induction (columns df) as [|c names IH]; simpl; [reflexivity|].
  rewrite IH. destruct (String.eqb x c) eqn:E.
  - apply String.eqb_eq in E. subst c. now rewrite Hx, String.eqb_refl.
  - destruct (sdict_get mapping c) as [c'|] eqn:Hc; [|now rewrite E].
    destruct (String.eqb x c') eqn:E'; [|reflexivity].
    apply String.eqb_eq in E'. subst c'. now apply Hv in Hc.
Qed.

Lemma sdict_set_values (b : bool) (d : list (string * string))
    (k v : string) (P : string -> Prop) :
  P v -> (forall k' v', sdict_get d k' = Some v' -> P v') ->
  forall k' v', sdict_get (if b then sdict_set d k v else d) k' = Some v' ->
                P v'.
Proof.
  intros Hv Hd k' v'. destruct b; [|apply Hd].
  rewrite sdict_get_set. destruct (String.eqb k' k); [|apply Hd].
  now intros [= <-].
Qed.

Lemma ohlcv_not_datetime (v : string) : In v ohlcv -> v <> "datetime".
Proof.
  intros Hin E. subst v. simpl in Hin.
  destruct Hin as [H|[H|[H|[H|[H|[]]]]]]; discriminate H.
Qed.

Lemma rename_chinese_and_capitalized_index (df : DataFrame) :
  index_of "datetime" (columns (rename_chinese_and_capitalized df))
  = index_of "datetime" (columns df).
Proof.
  unfold rename_chinese_and_capitalized.
  match goal with
  | |- context [match ?m with [] => df | _ :: _ => rename df ?m' end] =>
      assert (Hnone : sdict_get m "datetime" = None);
      [|assert (Hvals : forall k v, sdict_get m k = Some v -> In v ohlcv)]
  end.
  { cbn [fold_left ohlcv].
    repeat (apply sdict_set_keeps_none; [reflexivity|]). reflexivity. }
  { cbn [fold_left ohlcv].
    repeat (apply sdict_set_values; [simpl; auto 6|]).
    intros k v. discriminate. }
  match goal with
  | |- context [match ?m with [] => df | _ :: _ => rename df ?m' end] =>
      destruct m eqn:Em
  end; [reflexivity|].
  apply rename_index_of; [exact Hnone|].
  intros k v Hk. apply ohlcv_not_datetime. now apply (Hvals k).
Qed.

Lemma rename_lowercase_matches_index (df : DataFrame) :
  index_of "datetime" (columns (rename_lowercase_matches df))
  = index_of "datetime" (columns df).
Proof.
  unfold rename_lowercase_matches.
  set (lowermap := lower_map (columns df)).
  assert (Hl : forall want c, sdict_get lowermap want = Some c -> lower c = want)
    by (intros want c; apply lower_map_get).
  clearbody lowermap.
  assert (Hwant : forall want, In want ohlcv -> want <> "datetime")
    by apply ohlcv_not_datetime.
  revert Hwant. generalize ohlcv as wants. intros wants.
  revert df.
  induction wants as [|want wants IH]; intros df0 Hwant; simpl; [reflexivity|].
  assert (Hw : want <> "datetime") by (apply Hwant; now left).
  assert (Hws : forall w, In w wants -> w <> "datetime")
    by (intros w Hin; apply Hwant; now right).
  destruct (negb (mem want (columns df0))); [|now apply IH].
  destruct (sdict_get lowermap want) as [c|] eqn:Hc; [|now apply IH].
  rewrite IH by exact Hws.
  apply rename_index_of.
  - cbn [sdict_get]. destruct (String.eqb "datetime" c) eqn:E; [|reflexivity].
    apply String.eqb_eq in E. subst c. apply Hl in Hc.
    exfalso. apply Hw. now rewrite <- Hc.
  - intros k v. cbn [sdict_get]. destruct (String.eqb k c); [|discriminate].
    now intros [= <-].
Qed.

Lemma map_columns_index (df : DataFrame) :
  index_of "datetime" (columns (map_columns df))
  = index_of "datetime" (columns df).
Proof.
  unfold map_columns.
  now rewrite rename_lowercase_matches_index,
    rename_chinese_and_capitalized_index.
Qed.

(** ** Labels that stand over several columns *)

Lemma index_of_not_In (name : string) (names : list string) :
  ~ In name names -> index_of name names = None.
Proof.
  induction names as [|x names IH]; simpl; [reflexivity|].
  intros H. destruct (String.eqb name x) eqn:E.
  - apply String.eqb_eq in E. exfalso. apply H. left. now symmetry.
  - rewrite IH; [reflexivity|]. intros Hin. apply H. now right.
Qed.

Lemma positions_of_head (name : string) (names : list string) (k0 k : nat) :
  index_of name names = Some k ->
  exists more, positions_of name names k0 = (k0 + k)%nat :: more.
Proof.
  revert k0 k. induction names as [|x names IH]; intros k0 k; simpl;
    [discriminate|].
  destruct (String.eqb name x).
  - intros [= <-]. rewrite Nat.add_0_r. eauto.
  - destruct (index_of name names) as [k'|]; [|discriminate].
    simpl. intros [= <-]. destruct (IH (S k0) k' eq_refl) as [more ->].
    exists more. f_equal. lia.
Qed.

Lemma positions_of_none (name : string) (names : list string) (k0 : nat) :
  index_of name names = None -> positions_of name names k0 = [].
Proof.
  revert k0. induction names as [|x names IH]; intros k0; simpl;
    [reflexivity|].
  destruct (String.eqb name x); [discriminate|].
  destruct (index_of name names); [discriminate|]. intros _. now apply IH.
Qed.

Lemma positions_of_shift (name : string) (names : list string) (k0 k1 : nat) :
  List.length (positions_of name names k0)
  = List.length (positions_of name names k1).
Proof.
  revert k0 k1. induction names as [|x names IH]; intros k0 k1; simpl;
    [reflexivity|].
  destruct (String.eqb name x); simpl; [f_equal|]; apply IH.
Qed.

(** Among pairwise distinct labels a label stands over one column at most. *)
Lemma positions_of_NoDup (name : string) (names : list string) (k0 : nat) :
  NoDup names -> (List.length (positions_of name names k0) <= 1)%nat.
Proof.
  intros H. revert k0. induction H as [|x l Hx _ IH]; intros k0; simpl;
    [lia|].
  destruct (String.eqb name x) eqn:E; [|apply IH].
  apply String.eqb_eq in E. subst x.
  rewrite (positions_of_none name l); [simpl; lia|].
  now apply index_of_not_In.
Qed.

Lemma positions_of_single (name : string) (names : list string) (k : nat) :
  NoDup names -> index_of name names = Some k ->
  positions_of name names 0 = [k].
Proof.
  intros Hn Hk. pose proof (positions_of_NoDup name names 0 Hn) as Hl.
  destruct (positions_of_head name names 0 k Hk) as [more E].
  rewrite E in Hl. rewrite E. cbn [Nat.add].
  destruct more; [reflexivity | simpl in Hl; lia].
Qed.

(** Labels that each stand over one column at most are pairwise distinct. *)
Lemma occurs_once_NoDup (names : list string) :
  (forall c, In c names ->
             (List.length (positions_of c names 0) <= 1)%nat) ->
  NoDup names.
Proof.
  induction names as [|x l IH]; intros H; constructor.
  - intros Hin. specialize (H x (or_introl eq_refl)).
    cbn [positions_of] in H. rewrite String.eqb_refl in H.
    apply mem_In in Hin. destruct (index_of_mem _ _ Hin) as [k Hk].
    destruct (positions_of_head x l 1 k Hk) as [more E].
    rewrite E in H. simpl in H. lia.
  - apply IH. intros c Hc. specialize (H c (or_intror Hc)).
    cbn [positions_of] in H. rewrite (positions_of_shift c l 0 1).
    destruct (String.eqb c x); simpl in H; lia.
Qed.

Lemma labels_single (places : string -> list nat) (labels : list string) :
  (forall c, In c labels -> exists k, places c = [k]) ->
  flat_map (fun c => map (fun _ => c) (places c)) labels = labels.
Proof.
  induction labels as [|c labels IH]; intros H; simpl; [reflexivity|].
  destruct (H c (or_introl eq_refl)) as [k ->]. simpl. f_equal.
  apply IH. intros c' Hc'. apply H. now right.
Qed.

Lemma labels_once (places : string -> list nat) (labels : list string) :
  (forall c, In c labels -> places c <> []) ->
  NoDup (flat_map (fun c => map (fun _ => c) (places c)) labels) ->
  flat_map (fun c => map (fun _ => c) (places c)) labels = labels.
Proof.
  induction labels as [|c labels IH]; intros Hne Hnd; [reflexivity|].
  cbn [flat_map] in *.
  destruct (places c) as [|p [|q ps]] eqn:E.
  - exfalso. exact (Hne c (or_introl eq_refl) E).
  - cbn [map app] in *. f_equal.
    apply IH; [intros c' Hc'; apply Hne; now right|].
    apply NoDup_cons_iff in Hnd. exact (proj2 Hnd).
  - cbn [map app] in Hnd. apply NoDup_cons_iff in Hnd.
    exfalso. apply (proj1 Hnd). now left.
Qed.

Lemma NoDup_ohlcv : NoDup ohlcv.
Proof.
  unfold ohlcv.
  repeat (constructor; [simpl; intuition discriminate|]). constructor.
Qed.

(** [sort_index] keeps the rows, up to their order. *)
Lemma insert_row_permutation (r : cell * list cell)
    (l : list (cell * list cell)) :
  Permutation (insert_row r l) (r :: l).
Proof.
  induction l as [|r' l IH]; simpl; [apply Permutation_refl|].
  destruct (cell_leb (fst r) (fst r')); [apply Permutation_refl|].
  apply Permutation_trans with (r' :: r :: l);
    [now apply perm_skip | apply perm_swap].
Qed.

Lemma sort_permutation (l : list (cell * list cell)) :
  Permutation (fold_right insert_row [] l) l.
Proof.
  induction l as [|r l IH]; simpl; [apply Permutation_refl|].
  apply Permutation_trans with (r :: fold_right insert_row [] l);
    [apply insert_row_permutation | now apply perm_skip].
Qed.

(** ** The numeric coercion, lines 143-146 *)

Hypothesis to_numeric_length :
  forall col, List.length (to_numeric col) = List.length col.

Local Abbreviation coerce_step :=
  (fun acc c =>
     match acc with
     | Ok df =>
         if mem c (columns df)
         then match to_numeric_of to_numeric df c with
              | Ok col => setitem df c col
              | Raise e => Raise e
              end
         else Ok df
     | Raise e => Raise e
     end).

Lemma coerce_raised (names : list string) (e : exn) :
  fold_left coerce_step names (Raise e) = Raise e.
Proof. induction names as [|c names IH]; simpl; auto. Qed.

(** When the loop returns, it has kept the labels and the index, and no
    canonical label it met stood over two columns. *)
Lemma coerce_inv (names : list string) (df df' : DataFrame) :
  fold_left coerce_step names (Ok df) = Ok df' ->
  columns df' = columns df
  /\ index_name df' = index_name df
  /\ map fst (rows df') = map fst (rows df)
  /\ (forall c, In c names -> mem c (columns df) = true ->
        (List.length (positions_of c (columns df) 0) <= 1)%nat).
Proof.
  revert df. induction names as [|c names IH]; intros df; simpl.
  - intros [= <-]. repeat split. intros c [].
  - destruct (mem c (columns df)) eqn:Hm.
    + unfold to_numeric_of.
      destruct (1 <? List.length (positions_of c (columns df) 0))%nat eqn:Hd;
        [rewrite coerce_raised; discriminate|].
      apply Nat.ltb_ge in Hd.
      destruct (getcol df c) as [col|e] eqn:Hcol;
        [|rewrite coerce_raised; discriminate].
      destruct (setitem df c (to_numeric col)) as [df1|e] eqn:Hs;
        [|rewrite coerce_raised; discriminate].
      intros H. apply IH in H as (Hc & Hi & Hx & Hn).
      destruct (index_of_mem _ _ Hm) as [k Hk].
      destruct (setitem_shape _ _ _ _ _ Hk Hs) as [Hc1 _].
      assert (Hi1 : index_name df1 = index_name df).
      { revert Hs. unfold setitem.
        destruct (negb _); [discriminate|]. now intros [= <-]. }
      apply setitem_index in Hs.
      split; [congruence|]. split; [congruence|]. split; [congruence|].
      intros c' [<-|Hin] Hm'; [exact Hd|].
      rewrite <- Hc1. apply Hn; [exact Hin | now rewrite Hc1].
    + intros H. apply IH in H as (Hc & Hi & Hx & Hn).
      split; [exact Hc|]. split; [exact Hi|]. split; [exact Hx|].
      intros c' [<-|Hin] Hm'; [congruence | now apply Hn].
Qed.

(** Over pairwise distinct labels the loop returns. *)
Lemma coerce_returns (names : list string) (df : DataFrame) :
  NoDup (columns df) ->
  exists df',
    fold_left coerce_step names (Ok df) = Ok df'
    /\ List.length (rows df') = List.length (rows df).
Proof.
  revert df. induction names as [|c names IH]; intros df Hn; simpl; [eauto|].
  destruct (mem c (columns df)) eqn:Hm; [|now apply IH].
  destruct (getcol_member df c Hm) as [col Hcol].
  assert (Hto : to_numeric_of to_numeric df c = Ok (to_numeric col)).
  { unfold to_numeric_of. rewrite Hcol.
    replace (1 <? List.length (positions_of c (columns df) 0))%nat with false
      by (symmetry; apply Nat.ltb_ge; now apply positions_of_NoDup).
    reflexivity. }
  rewrite Hto.
  destruct (setitem_existing df c (to_numeric col) Hm)
    as (df1 & -> & Hc & _ & Hr).
  { rewrite to_numeric_length. now apply getcol_length in Hcol. }
  destruct (IH df1) as (df' & -> & Hr'); [now rewrite Hc|].
  exists df'. split; [reflexivity | congruence].
Qed.

(** ** Lines 137-152 *)

(** Whenever they return: the index is the first column labelled datetime,
    sorted; the columns are those under datetime beyond the first, then the
    canonical columns, none of which stands twice; the rows are those
    without a missing price. *)
Lemma keep_and_coerce_inv (df out : DataFrame) :
  keep_and_coerce to_numeric df = Ok out ->
  exists k more rows1 before ks,
    index_of "datetime" (columns df) = Some k
    /\ positions_of "datetime" (columns df) 0 = k :: more
    /\ index_name out = Some "datetime"
    /\ columns out
       = (map (fun _ => "datetime") more
          ++ flat_map
               (fun c => map (fun _ => c) (positions_of c (columns df) 0))
               (filter (fun c => mem c (columns df)) ohlcv))%list
    /\ (forall c, In c ohlcv -> mem c (columns out) = true ->
          (List.length (positions_of c (columns out) 0) <= 1)%nat)
    /\ map fst rows1 = map (fun r => cell_at k (snd r)) (rows df)
    /\ map fst before = map fst (fold_right insert_row [] rows1)
    /\ positions (columns out)
         (filter (fun c => mem c (columns out)) price_names) = Ok ks
    /\ rows out
       = filter (fun r => forallb (fun k => negb (isna (cell_at k (snd r)))) ks)
           before.
Proof.
  unfold keep_and_coerce.
  set (rest := filter (fun c => mem c (columns df)) ohlcv).
  unfold getitem_labels.
  destruct (forallb _ _) eqn:Hall; [|discriminate].
  cbn [forallb] in Hall. apply andb_true_iff in Hall as [Hd _].
  destruct (index_of_mem _ _ Hd) as [k Hk].
  destruct (positions_of_head "datetime" (columns df) 0 k Hk) as [more Hp].
  cbn [Nat.add] in Hp.
  cbn [flat_map]. rewrite Hp. cbn [map app].
  unfold set_index. cbn [columns rows index_name index_of].
  rewrite String.eqb_refl. cbn [remove_nth].
  match goal with
  | |- context [sort_index ?d] => set (sorted := sort_index d)
  end.
  assert (Hsc : columns sorted
                = (map (fun _ => "datetime") more
                   ++ flat_map
                        (fun c => map (fun _ => c)
                                    (positions_of c (columns df) 0))
                        rest)%list) by reflexivity.
  assert (Hsi : index_name sorted = Some "datetime") by reflexivity.
  assert (Hsr : exists rows1,
             map fst rows1 = map (fun r => cell_at k (snd r)) (rows df)
             /\ rows sorted = fold_right insert_row [] rows1).
  { eexists. split; [|reflexivity]. cbn [rows]. rewrite !map_map.
    reflexivity. }
  clearbody sorted. destruct Hsr as (rows1 & Hr1 & Hsr).
  match goal with
  | |- match ?f with _ => _ end = _ -> _ => destruct f as [df'|e] eqn:Hf
  end; [|discriminate].
  apply coerce_inv in Hf as (Hc & Hi & Hx & Hn).
  unfold dropna.
  destruct (positions (columns df') _) as [ks|e] eqn:Hks; [|discriminate].
  intros [= <-]. cbn [index_name columns rows].
  exists k, more, rows1, (rows df'), ks.
  split; [exact Hk|]. split; [reflexivity|].
  split; [rewrite Hi; exact Hsi|].
  split; [rewrite Hc; exact Hsc|]. split.
  { intros c Hin Hm. rewrite Hc. apply Hn; [exact Hin | now rewrite <- Hc]. }
  split; [exact Hr1|]. split; [now rewrite Hx, Hsr|].
  split; [exact Hks | reflexivity].
Qed.

(** Over pairwise distinct labels with a datetime among them, they return. *)
Lemma keep_and_coerce_returns (df : DataFrame) :
  NoDup (columns df) -> mem "datetime" (columns df) = true ->
  exists out, keep_and_coerce to_numeric df = Ok out.
Proof.
  intros Hn Hd. unfold keep_and_coerce.
  set (rest := filter (fun c => mem c (columns df)) ohlcv).
  unfold getitem_labels.
  replace (forallb (fun c => mem c (columns df)) ("datetime" :: rest))
    with true.
  2:{ symmetry. apply forallb_forall. intros c [<-|Hin]; [exact Hd|].
      apply filter_In in Hin. exact (proj2 Hin). }
  destruct (index_of_mem _ _ Hd) as [k Hk].
  cbn [flat_map]. rewrite (positions_of_single _ _ _ Hn Hk). cbn [map app].
  rewrite (labels_single (fun c => positions_of c (columns df) 0) rest).
  2:{ intros c Hin. apply filter_In in Hin as [_ Hm].
      destruct (index_of_mem _ _ Hm) as [kc Hkc]. exists kc.
      now apply positions_of_single. }
  unfold set_index. cbn [columns rows index_name index_of].
  rewrite String.eqb_refl. cbn [remove_nth].
  match goal with
  | |- context [sort_index ?d] => set (sorted := sort_index d)
  end.
  assert (Hsc : columns sorted = rest) by reflexivity.
  clearbody sorted.
  destruct (coerce_returns ohlcv sorted) as (df' & Hf & _).
  { rewrite Hsc. apply NoDup_filter, NoDup_ohlcv. }
  rewrite Hf. unfold dropna.
  destruct (positions_of_members (columns df')
              (filter (fun c => mem c (columns df')) price_names))
    as [ks ->]; [|eauto].
  intros c Hin. apply filter_In in Hin. exact (proj2 Hin).
Qed.

(** On a frame of pairwise distinct labels with the time column and no
    price column: nothing fails and no row is dropped; the columns left are
    the volume column, when there is one, and the index holds the cells of
    the time column. *)
Lemma keep_and_coerce_without_prices (df : DataFrame) :
  NoDup (columns df) ->
  mem "datetime" (columns df) = true ->
  (forall p, In p price_names -> mem p (columns df) = false) ->
  exists out k,
    keep_and_coerce to_numeric df = Ok out
    /\ columns out = (if mem "volume" (columns df) then ["volume"] else [])
    /\ index_name out = Some "datetime"
    /\ index_of "datetime" (columns df) = Some k
    /\ Permutation (map fst (rows out))
         (map (fun r => cell_at k (snd r)) (rows df)).
Proof.
  intros Hn Hd Hp.
  destruct (keep_and_coerce_returns df Hn Hd) as [out Ho].
  exists out.
  destruct (keep_and_coerce_inv df out Ho)
    as (k & more & rows1 & before & ks & Hk & Hpos & Hi & Hc & _ & Hr1 & Hb
        & Hks & Hrows).
  exists k. split; [exact Ho|].
  rewrite (positions_of_single _ _ _ Hn Hk) in Hpos.
  injection Hpos as <-. cbn [map app] in Hc.
  rewrite (labels_single (fun c => positions_of c (columns df) 0)) in Hc.
  2:{ intros c Hin. apply filter_In in Hin as [_ Hm].
      destruct (index_of_mem _ _ Hm) as [kc Hkc]. exists kc.
      now apply positions_of_single. }
  cbn [filter ohlcv] in Hc.
  rewrite (Hp "open"), (Hp "high"), (Hp "low"), (Hp "close") in Hc
    by (simpl; auto 6).
  assert (Hnone : filter (fun c => mem c (columns out)) price_names = []).
  { rewrite Hc. destruct (mem "volume" (columns df)); reflexivity. }
  rewrite Hnone in Hks. cbn [positions] in Hks. injection Hks as <-.
  assert (Hall : rows out = before).
  { rewrite Hrows. clear. induction before as [|r l IH]; [reflexivity|].
    simpl. simpl in IH. now rewrite IH. }
  split; [exact Hc|]. split; [exact Hi|]. split; [exact Hk|].
  rewrite Hall, Hb, <- Hr1. apply Permutation_map, sort_permutation.
Qed.

(** ** The time stage *)

Lemma dropna_columns (df df' : DataFrame) (subset : list string) :
  dropna df subset = Ok df' -> columns df' = columns df.
Proof.
  unfold dropna. destruct (positions (columns df) subset); [|discriminate].
  now intros [= <-].
Qed.

Lemma drop_unparsed_some (df parsed : DataFrame) :
  drop_unparsed df = Ok (Some parsed) ->
  mem "datetime" (columns parsed) = true /\ rows parsed <> [].
Proof.
  unfold drop_unparsed.
  destruct (dropna df ["datetime"]) as [df'|e] eqn:Hd; [|discriminate].
  destruct (empty df') eqn:He; [discriminate|]. intros [= <-].
  split.
  - rewrite (dropna_columns _ _ _ Hd).
    unfold dropna in Hd. cbn [positions] in Hd.
    apply mem_index_of.
    destruct (index_of "datetime" (columns df)); [eauto | discriminate].
  - unfold empty in He. destruct (columns df'); [discriminate|].
    destruct (rows df'); [discriminate|]. discriminate.
Qed.

Lemma parse_times_some (df parsed : DataFrame) (datetime_col day_str : string) :
  parse_times repr_cell to_datetime to_numeric day_plus_seconds
    df datetime_col day_str = Ok (Some parsed) ->
  mem "datetime" (columns parsed) = true /\ rows parsed <> [].
Proof.
  unfold parse_times.
  repeat match goal with
         | |- context [drop_unparsed ?d] =>
             lazymatch d with
             | context [match _ with _ => _ end] => fail
             | _ => apply drop_unparsed_some
             end
         | |- match ?x with Ok _ => _ | Raise _ => _ end = _ -> _ =>
             destruct x; [|discriminate]
         | |- context [drop_unparsed (if ?b then _ else _)] => destruct b
         | |- context [drop_unparsed (match ?x with Ok _ => _ | Raise _ => _ end)] =>
             destruct x
         end.
Qed.


(** Lines 105-108: no row of what is left has a missing time. *)
Lemma drop_unparsed_present (df parsed : DataFrame) :
  drop_unparsed df = Ok (Some parsed) ->
  exists k, index_of "datetime" (columns parsed) = Some k
            /\ Forall (fun r => isna (cell_at k (snd r)) = false)
                 (rows parsed).
Proof.
  unfold drop_unparsed, dropna. cbn [positions].
  destruct (index_of "datetime" (columns df)) as [k|] eqn:Hk; [|discriminate].
  match goal with |- context [empty ?d] => destruct (empty d) end;
    [discriminate|].
  intros [= <-]. cbn [columns rows]. exists k. split; [exact Hk|].
  apply Forall_forall. intros r Hr.
  apply filter_In in Hr as [_ Hna]. cbn [forallb] in Hna.
  rewrite andb_true_r in Hna. now apply negb_true_iff in Hna.
Qed.

Lemma parse_times_present (df parsed : DataFrame)
    (datetime_col day_str : string) :
  parse_times repr_cell to_datetime to_numeric day_plus_seconds
    df datetime_col day_str = Ok (Some parsed) ->
  exists k, index_of "datetime" (columns parsed) = Some k
            /\ Forall (fun r => isna (cell_at k (snd r)) = false)
                 (rows parsed).
Proof.
  unfold parse_times.
  repeat match goal with
         | |- context [drop_unparsed ?d] =>
             lazymatch d with
             | context [match _ with _ => _ end] => fail
             | _ => apply drop_unparsed_present
             end
         | |- match ?x with Ok _ => _ | Raise _ => _ end = _ -> _ =>
             destruct x; [|discriminate]
         | |- context [drop_unparsed (if ?b then _ else _)] => destruct b
         | |- context [drop_unparsed (match ?x with Ok _ => _ | Raise _ => _ end)] =>
             destruct x
         end.
Qed.

End FeedFacts.

(** * The feed normaliser's claim *)

Section FeedClaims.
Import py pd download_akshare_minute feed_aux.
Local Open Scope string_scope.

(** C8, as stated, fails: a payload with a time column and a volume column
    but no price column under any label comes back as a table, not as a
    null result. *)
Lemma volume_only_payload_is_normalised :
  parse_and_normalize_minute_df sample_repr sample_to_datetime
    sample_to_numeric sample_day_plus_seconds
    (Some volume_only_payload) "2025-01-02"
  = Ok (Some (mkDataFrame (Some "datetime") ["volume"]
                [(CTimestamp (at_time (date 2025 1 2) 9 30), [CInt 100]);
                 (CTimestamp (at_time (date 2025 1 2) 9 31), [CInt 250])])).
Proof.
  reflexivity.
Qed.

(** C8, amended. The normaliser never tests for price columns. Its null
    result comes only from a payload that is missing or empty, from a time
    column it cannot detect, or from a time stage that leaves no row.
    For a payload that passes these stages and in which, after column-name
    mapping, the labels are pairwise distinct and none of open, high, low,
    close is present, it returns a non-null table indexed by the parsed
    times: the index is named datetime and holds the values of the time
    column the time stage left, each of them once per row and none of them
    missing. The table has one row per row of the time stage and no price
    column: only the volume column, when there is one. *)
Theorem normalize_without_price_columns
    (repr_cell : cell -> string)
    (to_datetime to_numeric : list cell -> list cell)
    (day_plus_seconds : string -> list cell -> result (list cell))
    (df_raw : DataFrame) (day_str : string) :
  (forall col, List.length (to_numeric col) = List.length col) ->
  let normalize :=
    parse_and_normalize_minute_df repr_cell to_datetime to_numeric
      day_plus_seconds in
  let time_stage :=
    parse_times repr_cell to_datetime to_numeric day_plus_seconds in
  (normalize (Some df_raw) day_str = Ok None ->
   empty df_raw = true
   \/ detect_datetime_col df_raw = None
   \/ exists df datetime_col,
        detect_datetime_col df_raw = Some (df, datetime_col)
        /\ time_stage df datetime_col day_str = Ok None)
  /\ (forall df datetime_col parsed,
        empty df_raw = false ->
        detect_datetime_col df_raw = Some (df, datetime_col) ->
        time_stage df datetime_col day_str = Ok (Some parsed) ->
        NoDup (columns (map_columns parsed)) ->
        (forall p, In p price_names ->
                   mem p (columns (map_columns parsed)) = false) ->
        exists out k,
          normalize (Some df_raw) day_str = Ok (Some out)
          /\ (forall p, In p price_names -> mem p (columns out) = false)
          /\ columns out
             = (if mem "volume" (columns (map_columns parsed))
                then ["volume"] else [])
          /\ rows out <> []
          /\ List.length (rows out) = List.length (rows parsed)
          /\ index_name out = Some "datetime"
          /\ index_of "datetime" (columns parsed) = Some k
          /\ Permutation (map fst (rows out))
               (map (fun r => cell_at k (snd r)) (rows parsed))
          /\ Forall (fun t => isna t = false) (map fst (rows out))).
Proof.
  intros Hnum normalize time_stage. subst normalize time_stage.
  unfold parse_and_normalize_minute_df. split.
  - destruct (empty df_raw); [auto|].
    destruct (detect_datetime_col df_raw) as [[df col]|]; [|auto].
    destruct (parse_times _ _ _ _ df col day_str) as [[parsed|]|e] eqn:Hp;
      [| |discriminate].
    + destruct (keep_and_coerce _ _); discriminate.
    + intros _. right. right. exists df, col. auto.
  - intros df col parsed He Hd Hp Hn Hprice.
    rewrite He, Hd, Hp.
    destruct (parse_times_some _ _ _ _ _ _ _ _ Hp) as [Hm Hrows].
    destruct (parse_times_present _ _ _ _ _ _ _ _ Hp) as (k0 & Hk0 & Hpres).
    destruct (map_columns_keeps parsed Hm) as [Hm' Hr'].
    destruct (keep_and_coerce_without_prices to_numeric Hnum
                (map_columns parsed) Hn Hm' Hprice)
      as (out & k & -> & Hc & Hi & Hk & Hperm).
    rewrite map_columns_index in Hk. rewrite Hr' in Hperm.
    assert (k0 = k) by congruence. subst k0.
    assert (Hl : List.length (rows out) = List.length (rows parsed)).
    { apply Permutation_length in Hperm. now rewrite !length_map in Hperm. }
    exists out, k. split; [reflexivity|].
    split; [|split; [exact Hc|split; [|split; [exact Hl|]]]].
    + intros p Hin. rewrite Hc.
      simpl in Hin. destruct Hin as [<-|[<-|[<-|[<-|[]]]]];
        destruct (mem "volume" _); reflexivity.
    + intros E. rewrite E in Hl. destruct (rows parsed); [auto | discriminate].
    + split; [exact Hi|]. split; [exact Hk|]. split; [exact Hperm|].
      apply (Permutation_Forall (Permutation_sym Hperm)).
      apply Forall_map. exact Hpres.
Qed.

Lemma normalize_without_price_columns_witness :
  exists out,
    parse_and_normalize_minute_df sample_repr sample_to_datetime
      sample_to_numeric sample_day_plus_seconds
      (Some volume_only_payload) "2025-01-02" = Ok (Some out)
    /\ columns out = ["volume"]
    /\ rows out <> []
    /\ index_name out = Some "datetime"
    /\ Permutation (map fst (rows out))
         (map (fun r => cell_at 2 (snd r)) (rows volume_only_parsed))
    /\ Forall (fun t => isna t = false) (map fst (rows out)).
Proof.
  destruct (normalize_without_price_columns sample_repr sample_to_datetime
              sample_to_numeric sample_day_plus_seconds
              volume_only_payload "2025-01-02")
    as [_ H].
  - intros col. apply length_map.
  - destruct (H volume_only_payload "时间" volume_only_parsed)
      as (out & k & Ho & _ & Hc & Hr & _ & Hi & Hk & Hperm & Hpres).
    + reflexivity.
    + reflexivity.
    + reflexivity.
    + vm_compute. repeat constructor; simpl; intuition discriminate.
    + intros p Hin. simpl in Hin.
      destruct Hin as [<-|[<-|[<-|[<-|[]]]]]; reflexivity.
    + exists out. split; [exact Ho|]. split; [exact Hc|]. split; [exact Hr|].
      split; [exact Hi|]. split; [|exact Hpres].
      vm_compute in Hk. injection Hk as <-. exact Hperm.
Defined.

End FeedClaims.

(** * Further properties of the market simulator *)

Section MarketEnvMore.
Import py market_env market_env_aux notebook_01 market_env_more_aux.

Local Arguments dict_get : simpl never.
Local Arguments getitem : simpl never.
Local Arguments slice : simpl never.

Lemma step_inv (self self' : MarketEnv) (a : Z) (out : StepOutcome) :
  step a self = (Ok out, self') ->
  exists target price,
    done self = false
    /\ dict_get pos_map a = Ok target
    /\ getitem (prices self) (t self) = Ok price
    /\ self' = stepped self target price
    /\ done_flag out = done self'
    /\ tc (info out) = cost self target
    /\ obs out
       = (if done self'
          then zeros_like (map (map astype_float32)
                 (slice (features self) (t self + 1 - window self) (t self + 1)))
          else map (map astype_float32)
                 (slice (features self) (t self + 1 - window self) (t self + 1))).
Proof.
  intros Hs.
  destruct (done self) eqn:Hd;
    [rewrite (step_done self a Hd) in Hs; discriminate|].
  destruct (dict_get pos_map a) as [v|e] eqn:Hv.
  2:{ unfold step, bind, get, lift in Hs; simpl in Hs.
      rewrite Hd, Hv in Hs. discriminate. }
  destruct (getitem (prices self) (t self)) as [q|e] eqn:Hq.
  2:{ unfold step, bind, get, lift in Hs; simpl in Hs.
      rewrite Hd, Hv, Hq in Hs. discriminate. }
  exists v, q. repeat (split; [reflexivity|]).
  revert Hs.
  unfold step, bind, get, lift, raise, assign, when, ret, _get_obs; simpl.
  rewrite Hd, Hv, Hq; simpl.
  unfold cost, stepped.
  destruct (v =? position self); simpl;
    destruct (T self <=? t self + 1); simpl;
    unfold set_done, set_t, set_last_price, set_position; simpl;
    rewrite ?Hd; intros [= <- <-]; simpl; auto.
Qed.

Lemma reachable_bounds (self : MarketEnv) :
  reachable self ->
  t self <= T self
  /\ (done self = true -> t self = T self)
  /\ getitem (prices self) (t self - 1) = Ok (last_price self).
Proof.
  induction 1 as [f p w c self Hinit | self r self' Hr IH Hreset
                 | self a r self' Hr IH Hstep].
  - unfold __init__ in Hinit.
    destruct (w <? 0); [discriminate|].
    destruct (reset _) as [[o|e] s] eqn:Hre; [|discriminate].
    injection Hinit as <-.
    apply reset_inv in Hre as [(q & o' & Hq & _ & ->)|(e & He & _)];
      [|discriminate].
    simpl in *. pose proof (getitem_ok_range _ _ _ Hq).
    repeat split; [lia | discriminate | exact Hq].
  - pose proof (reachable_consistent self Hr) as (HT & Hw & _).
    apply reset_inv in Hreset as [(q & o' & Hq & _ & ->)|(e & _ & He & _)].
    + simpl. repeat split; [lia | discriminate | exact Hq].
    + destruct (getitem_in_range (prices self) (window self - 1)) as [x Hx];
        [rewrite <- HT; lia | congruence].
  - destruct r as [o|e].
    + pose proof (reachable_consistent self Hr) as (HT & _).
      apply step_inv in Hstep
        as (v & q & Hd & Hv & Hq & -> & _).
      pose proof (getitem_ok_range _ _ _ Hq) as Hrange. rewrite <- HT in Hrange.
      unfold stepped; simpl. repeat split.
      * lia.
      * destruct (T self <=? t self + 1) eqn:Hle.
        -- intros _. apply Z.leb_le in Hle. lia.
        -- rewrite Hd. discriminate.
      * replace (t self + 1 - 1) with (t self) by lia. exact Hq.
    + now rewrite (step_raise_unchanged _ _ _ _ Hstep).
Qed.

(** The constructor refuses a negative window, and nothing changes the
    window afterwards. *)
Lemma reachable_window (self : MarketEnv) :
  reachable self -> 0 <= window self.
Proof.
  induction 1 as [f p w c self Hinit | self r self' Hr IH Hreset
                 | self a r self' Hr IH Hstep].
  - unfold __init__ in Hinit.
    destruct (w <? 0) eqn:Hw; [discriminate|]. apply Z.ltb_ge in Hw.
    destruct (reset _) as [[o|e] s] eqn:Hre; [|discriminate].
    injection Hinit as <-.
    apply reset_inv in Hre as [(q & o' & _ & _ & ->)|(e & He & _)];
      [exact Hw | discriminate].
  - apply reset_inv in Hreset as [(q & o' & _ & _ & ->)|(e & _ & _ & ->)];
      exact IH.
  - destruct r as [o|e].
    + apply step_inv in Hstep as (v & q & _ & _ & _ & -> & _). exact IH.
    + now rewrite (step_raise_unchanged _ _ _ _ Hstep).
Qed.

Lemma getitem_nth_error {A : Type} (l : list A) (i : Z) (x : A) :
  getitem l i = Ok x ->
  nth_error l (Z.to_nat (if i <? 0 then i + len l else i)) = Some x.
Proof.
  unfold getitem. destruct (_ || _); [discriminate|].
  destruct (nth_error _ _) as [y|]; [|discriminate]. now intros [= <-].
Qed.

(** X1. Invariant of the simulator: on every object built by the
    constructor and driven by [reset] and [step], T is the number of prices,
    0 <= window <= t <= T, the position is -1, 0 or 1, done implies t = T,
    and last_price is [prices[t - 1]] in Python's indexing: the price of
    the bar before t when t >= 1; when t = 0, which happens only with a
    window of 0 after the constructor or a [reset], the index -1 wraps
    around and last_price is the price of the final bar. *)
Theorem simulator_invariant (self : MarketEnv) :
  reachable self ->
  T self = len (prices self)
  /\ 0 <= window self
  /\ window self <= t self <= T self
  /\ In (position self) [-1; 0; 1]
  /\ (done self = true -> t self = T self)
  /\ getitem (prices self) (t self - 1) = Ok (last_price self)
  /\ (1 <= t self ->
      nth_error (prices self) (Z.to_nat (t self - 1))
      = Some (last_price self))
  /\ (t self = 0 ->
      window self = 0
      /\ nth_error (prices self) (Z.to_nat (T self - 1))
         = Some (last_price self)).
Proof.
  intros Hr.
  destruct (reachable_consistent self Hr) as (HT & _ & Hw & Hp & _).
  destruct (reachable_bounds self Hr) as (Ht & Hd & Hl).
  pose proof (reachable_window self Hr) as H0.
  pose proof (getitem_nth_error _ _ _ Hl) as Hn.
  split; [exact HT|]. split; [exact H0|]. split; [lia|].
  split; [exact Hp|]. split; [exact Hd|]. split; [exact Hl|]. split.
  - intros H1. rewrite <- Hn.
    replace (t self - 1 <? 0) with false by (symmetry; apply Z.ltb_ge; lia).
    reflexivity.
  - intros E. split; [lia|]. rewrite E in Hn.
    change (0 - 1 <? 0) with true in Hn. cbv iota in Hn.
    rewrite <- Hn, HT. f_equal. f_equal. lia.
Qed.

Lemma simulator_invariant_witness :
  0 <= window sample_env
  /\ window sample_env <= t sample_env <= T sample_env
  /\ getitem (prices sample_env) (t sample_env - 1) = Ok (last_price sample_env)
  /\ nth_error (prices sample_env) (Z.to_nat (t sample_env - 1))
     = Some (last_price sample_env).
Proof.
  destruct (simulator_invariant sample_env) as (_ & H0 & H1 & _ & _ & H2 & H3 & _).
  - apply (reach_init sample_features sample_prices 1 0.5). reflexivity.
  - split; [exact H0|]. split; [exact H1|]. split; [exact H2|].
    apply H3. vm_compute. discriminate.
Defined.

Lemma steps_cons (a : Z) (rest : list Z) (self : MarketEnv) :
  steps (a :: rest) self
  = match step a self with
    | (Ok o, self1) =>
        match steps rest self1 with
        | (Ok os, self2) => (Ok (o :: os), self2)
        | (Raise e, self2) => (Raise e, self2)
        end
    | (Raise e, self1) => (Raise e, self1)
    end.
Proof.
  cbn [steps]. unfold bind, ret.
  destruct (step a self) as [[o|e] self1]; [|reflexivity].
  destruct (steps rest self1) as [[os|e] self2]; reflexivity.
Qed.

(** Steps inside an episode. *)
Lemma steps_run (actions : list Z) (self : MarketEnv) :
  reachable self ->
  done self = false ->
  Forall valid_action actions ->
  len actions <= T self - t self ->
  exists outs self',
    steps actions self = (Ok outs, self')
    /\ reachable self'
    /\ len outs = len actions
    /\ t self' = t self + len actions
    /\ (forall i o, nth_error outs i = Some o ->
          done_flag o = (T self <=? t self + Z.of_nat i + 1))
    /\ (done self' = true <-> actions <> [] /\ t self' = T self).
Proof.
  revert self.
  induction actions as [|a rest IH]; intros self Hr Hd Hv Hlen.
  - exists [], self. cbn [steps]. unfold ret.
    split; [reflexivity|]. split; [exact Hr|]. split; [reflexivity|].
    split; [unfold len; simpl; lia|].
    split; [intros [|i] o; discriminate|].
    rewrite Hd. split; [discriminate | intros [H _]; congruence].
  - apply Forall_cons_iff in Hv as [Ha Hv].
    assert (Hl : len (a :: rest) = 1 + len rest)
      by (unfold len; cbn [List.length]; lia).
    rewrite Hl in *.
    pose proof (len_nonneg rest) as Hn.
    destruct (reachable_consistent self Hr) as (HT & Hw0 & Hw & _ & _).
    destruct (getitem_in_range (prices self) (t self)) as [price Hp];
      [rewrite <- HT; lia|].
    destruct (pos_map_valid a Ha) as [target Htarget].
    destruct (step_ok self a target price Hd Htarget Hp) as [ob Ho].
    match type of Ho with _ = (Ok ?x, _) => set (out := x) in * end.
    set (self1 := stepped self target price) in *.
    assert (Hflag : done_flag out = done self1) by reflexivity.
    clearbody out.
    assert (Hr1 : reachable self1) by (eapply reach_step; eauto).
    rewrite steps_cons, Ho.
    destruct (Z.leb_spec (T self) (t self + 1)) as [Hend|Hmore].
    + (* the last price was consumed: nothing is left to run *)
      assert (rest = []) as ->.
      { destruct rest; [reflexivity|].
        unfold len in Hlen. cbn [List.length] in Hlen. lia. }
      cbn [steps]. unfold ret.
      eexists; eexists. split; [reflexivity|].
      split; [exact Hr1|]. split; [reflexivity|].
      split; [subst self1; unfold stepped, len; cbn [t T List.length]; lia|].
      split.
      * intros [|[|i]] o' E; try discriminate. injection E as <-.
        rewrite Hflag. simpl.
        replace (T self <=? t self + 0 + 1) with true
          by (symmetry; apply Z.leb_le; lia).
        now replace (T self <=? t self + 1) with true
          by (symmetry; apply Z.leb_le; lia).
      * subst self1. unfold stepped, len. simpl.
        replace (T self <=? t self + 1) with true
          by (symmetry; apply Z.leb_le; lia).
        split; [intros _; split; [discriminate | lia] | reflexivity].
    + assert (Hd1 : done self1 = false).
      { subst self1. unfold stepped. simpl.
        replace (T self <=? t self + 1) with false
          by (symmetry; apply Z.leb_gt; lia). exact Hd. }
      destruct (IH self1 Hr1 Hd1 Hv) as (outs & self' & Hs & Hr' & Hlo & Ht & Hf & Hdone).
      { subst self1. unfold stepped. cbn [t T]. lia. }
      rewrite Hs. exists (out :: outs), self'.
      split; [reflexivity|]. split; [exact Hr'|].
      split; [unfold len in *; cbn [List.length]; lia|].
      split; [rewrite Ht; subst self1; unfold stepped; cbn [t T]; lia|].
      split.
      * intros [|i] o' E.
        -- injection E as <-. rewrite Hflag. simpl.
           replace (T self <=? t self + 0 + 1) with false
             by (symmetry; apply Z.leb_gt; lia).
           exact Hd1.
        -- simpl in E. rewrite (Hf i o' E).
           subst self1. unfold stepped. simpl. f_equal. lia.
      * rewrite Hdone. subst self1. unfold stepped. simpl.
        split.
        -- intros [Hne Hte]. split; [discriminate | exact Hte].
        -- intros [_ Hte]. split; [|exact Hte].
           intros ->. unfold len in Ht. simpl in Ht.
           rewrite Ht in Hte. unfold stepped in Hte. simpl in Hte. lia.
Qed.

(** X2. An episode runs to the end of the prices: on a live simulator, any
    n <= T - t steps with actions of the action space all succeed and
    advance t by n; the flag returned by the i-th of them is true exactly
    when it consumed the last price, and so is done afterwards. *)
Theorem episode_runs_to_the_end (actions : list Z) (self : MarketEnv) :
  reachable self ->
  done self = false ->
  Forall valid_action actions ->
  len actions <= T self - t self ->
  exists outs self',
    steps actions self = (Ok outs, self')
    /\ reachable self'
    /\ len outs = len actions
    /\ t self' = t self + len actions
    /\ (forall i o, nth_error outs i = Some o ->
          done_flag o = (T self <=? t self + Z.of_nat i + 1))
    /\ (done self' = true <-> actions <> [] /\ t self' = T self).
Proof.
  apply steps_run.
Qed.

Lemma episode_runs_to_the_end_witness :
  exists outs self',
    steps [1; 1; 0] sample_env = (Ok outs, self')
    /\ done self' = true.
Proof.
  destruct (episode_runs_to_the_end [1; 1; 0] sample_env)
    as (outs & self' & Hs & _ & _ & Ht & _ & Hd).
  - apply (reach_init sample_features sample_prices 1 0.5). reflexivity.
  - reflexivity.
  - repeat (apply Forall_cons; [unfold valid_action; simpl; lia|]).
    apply Forall_nil.
  - vm_compute. discriminate.
  - exists outs, self'. split; [exact Hs|].
    apply Hd. split; [discriminate | rewrite Ht; reflexivity].
Defined.

(** Steps beyond the episode. *)
Lemma steps_overrun (actions : list Z) (self : MarketEnv) :
  reachable self ->
  done self = false ->
  t self < T self ->
  Forall valid_action actions ->
  T self - t self < len actions ->
  exists self',
    steps actions self = (Raise misuse, self')
    /\ reachable self' /\ t self' = T self /\ done self' = true.
Proof.
  revert self.
  induction actions as [|a rest IH]; intros self Hr Hd Ht Hv Hlen.
  - unfold len in Hlen. simpl in Hlen. lia.
  - apply Forall_cons_iff in Hv as [Ha Hv].
    assert (Hl : len (a :: rest) = 1 + len rest)
      by (unfold len; cbn [List.length]; lia).
    rewrite Hl in *.
    destruct (reachable_consistent self Hr) as (HT & Hw0 & Hw & _ & _).
    destruct (getitem_in_range (prices self) (t self)) as [price Hp];
      [rewrite <- HT; lia|].
    destruct (pos_map_valid a Ha) as [target Htarget].
    destruct (step_ok self a target price Hd Htarget Hp) as [ob Ho].
    set (self1 := stepped self target price) in *.
    assert (Hr1 : reachable self1) by (eapply reach_step; eauto).
    rewrite steps_cons, Ho.
    destruct (Z.leb_spec (T self) (t self + 1)) as [Hend|Hmore].
    + assert (Hd1 : done self1 = true).
      { subst self1. unfold stepped. simpl.
        now replace (T self <=? t self + 1) with true
          by (symmetry; apply Z.leb_le; lia). }
      destruct rest as [|b rest];
        [unfold len in Hlen; simpl in Hlen; lia|].
      rewrite steps_cons, (step_done self1 b Hd1).
      exists self1. split; [reflexivity|]. split; [exact Hr1|].
      split; [subst self1; unfold stepped; cbn [t T]; lia | exact Hd1].
    + assert (Hd1 : done self1 = false).
      { subst self1. unfold stepped. simpl.
        replace (T self <=? t self + 1) with false
          by (symmetry; apply Z.leb_gt; lia). exact Hd. }
      destruct (IH self1 Hr1 Hd1) as (self' & Hs & Hr' & Ht' & Hd').
      { subst self1. unfold stepped. cbn [t T]. lia. }
      { exact Hv. }
      { subst self1. unfold stepped. cbn [t T]. lia. }
      rewrite Hs. exists self'. auto.
Qed.

(** X3. Stepping past the end: when more steps are asked than prices
    remain, the steps up to the last price succeed, the next one raises the
    misuse error, and the simulator is left finished, at t = T with done
    set. *)
Theorem stepping_past_the_end (actions : list Z) (self : MarketEnv) :
  reachable self ->
  done self = false ->
  t self < T self ->
  Forall valid_action actions ->
  T self - t self < len actions ->
  exists self',
    steps actions self = (Raise misuse, self')
    /\ t self' = T self /\ done self' = true.
Proof.
  intros Hr Hd Ht Hv Hlen.
  destruct (steps_overrun actions self Hr Hd Ht Hv Hlen)
    as (self' & Hs & _ & Ht' & Hd').
  exists self'. auto.
Qed.

Lemma stepping_past_the_end_witness :
  exists self',
    steps [1; 1; 0; 2; 2] sample_env = (Raise misuse, self')
    /\ t self' = 4 /\ done self' = true.
Proof.
  apply (stepping_past_the_end [1; 1; 0; 2; 2] sample_env).
  - apply (reach_init sample_features sample_prices 1 0.5). reflexivity.
  - reflexivity.
  - vm_compute. reflexivity.
  - repeat (apply Forall_cons; [unfold valid_action; simpl; lia|]).
    apply Forall_nil.
  - vm_compute. reflexivity.
Defined.

(** ** Reset *)

Lemma evolves_config (s s' : MarketEnv) :
  evolves s s' ->
  features s' = features s /\ prices s' = prices s /\ window s' = window s
  /\ transaction_cost s' = transaction_cost s /\ T s' = T s.
Proof.
  induction 1 as [s | s s1 r s2 _ IH Hreset | s s1 a r s2 _ IH Hstep].
  - auto.
  - destruct IH as (Hf & Hp & Hw & Hc & HT).
    apply reset_inv in Hreset as [(q & o & _ & _ & ->)|(e & _ & _ & ->)];
      simpl; auto.
  - destruct IH as (Hf & Hp & Hw & Hc & HT).
    destruct r as [out|e].
    + apply step_inv in Hstep as (v & q & _ & _ & _ & -> & _).
      simpl; auto.
    + rewrite (step_raise_unchanged _ _ _ _ Hstep). auto.
Qed.

(** X4. [reset] forgets the episode: when [reset] succeeds on a simulator,
    it returns the same observation and leaves the same object after any
    further calls of [step] and [reset], whatever they did. *)
Theorem reset_forgets_the_episode (self self2 : MarketEnv)
    (o : Observation) (start : MarketEnv) :
  reset self = (Ok o, start) ->
  evolves self self2 ->
  reset self2 = (Ok o, start).
Proof.
  intros Hreset Hev.
  destruct (evolves_config _ _ Hev) as (Hf & Hp & Hw & Hc & HT).
  pose proof Hreset as Hr.
  apply reset_inv in Hr as [(q & o' & Hq & _ & _)|(e & He & _)];
    [|discriminate].
  rewrite (reset_ok self q Hq) in Hreset. injection Hreset as <- <-.
  rewrite <- Hp, <- Hw in Hq.
  rewrite (reset_ok self2 q Hq).
  unfold rewound. now rewrite Hf, Hp, Hw, Hc, HT.
Qed.

Lemma reset_forgets_the_episode_witness :
  exists o start,
    reset sample_env = (Ok o, start) /\ reset finished_env = (Ok o, start).
Proof.
  destruct (reset sample_env) as [[o|e] start] eqn:Hr;
    [|vm_compute in Hr; discriminate].
  exists o, start. split; [reflexivity|].
  apply (reset_forgets_the_episode sample_env finished_env o start Hr).
  change finished_env
    with (snd (step 1 (snd (step 1 (snd (step 1 sample_env)))))).
  repeat (eapply evolves_step; [|apply surjective_pairing]).
  apply evolves_refl.
Defined.

(** ** Observations *)

Lemma len_slice {A : Type} (l : list A) (i j : Z) :
  0 <= i <= j -> j <= len l -> len (slice l i j) = j - i.
Proof.
  intros Hij Hj. unfold slice, adjust_index.
  replace (i <? 0) with false by (symmetry; apply Z.ltb_ge; lia).
  replace (j <? 0) with false by (symmetry; apply Z.ltb_ge; lia).
  rewrite !Z.min_l by lia.
  unfold len in *. rewrite length_firstn, length_skipn. lia.
Qed.

Lemma len_map {A B : Type} (f : A -> B) (l : list A) : len (map f l) = len l.
Proof. unfold len. now rewrite length_map. Qed.

Lemma zeros_like_zero (o : Observation) :
  Forall (Forall (fun x => x = 0%float)) (zeros_like o).
Proof.
  unfold zeros_like. apply Forall_forall. intros row Hrow.
  apply in_map_iff in Hrow as (row0 & <- & _).
  apply Forall_forall. intros x Hx.
  now apply in_map_iff in Hx as (x0 & <- & _).
Qed.

(** X5. Shape of the observations: on a simulator in use whose window is
    not negative and whose features cover the prices, every observation
    [reset] or [step] returns has exactly window rows, the terminal one
    included, and the terminal one holds only zeros. *)
Theorem observation_has_window_rows (self : MarketEnv) :
  reachable self ->
  0 <= window self ->
  T self <= len (features self) ->
  (forall o self', reset self = (Ok o, self') -> len o = window self)
  /\ (forall a out self', step a self = (Ok out, self') ->
        len (obs out) = window self
        /\ (done_flag out = true ->
            Forall (Forall (fun x => x = 0%float)) (obs out))).
Proof.
  intros Hr Hw Hf.
  destruct (reachable_consistent self Hr) as (HT & Hw0 & Hwt & _ & _).
  split.
  - intros o self' Hreset.
    pose proof Hreset as H.
    apply reset_inv in H as [(q & o' & Hq & _ & _)|(e & He & _)];
      [|discriminate].
    rewrite (reset_ok self q Hq) in Hreset. injection Hreset as <- _.
    rewrite len_map, len_slice; lia.
  - intros a out self' Hstep.
    apply step_inv in Hstep as (v & q & _ & _ & Hq & -> & Hflag & _ & Hobs).
    apply getitem_ok_range in Hq. rewrite <- HT in Hq.
    assert (Hlen : len (map (map astype_float32)
                     (slice (features self) (t self + 1 - window self)
                        (t self + 1))) = window self)
      by (rewrite len_map, len_slice; lia).
    rewrite Hobs, Hflag.
    destruct (done (stepped self v q)).
    + split; [unfold zeros_like; now rewrite len_map | intros _].
      apply zeros_like_zero.
    + split; [exact Hlen | discriminate].
Qed.

Lemma observation_has_window_rows_witness :
  exists out self',
    step 1 sample_env = (Ok out, self') /\ len (obs out) = 1.
Proof.
  destruct (step 1 sample_env) as [[out|e] self'] eqn:Hs;
    [|vm_compute in Hs; discriminate].
  exists out, self'. split; [reflexivity|].
  destruct (observation_has_window_rows sample_env) as [_ H].
  - apply (reach_init sample_features sample_prices 1 0.5). reflexivity.
  - vm_compute. discriminate.
  - vm_compute. discriminate.
  - now apply (H 1 out self').
Defined.

(** ** Positions and costs *)

(** X6. The position after a step is the target of its action, whatever
    was held before: action 0 does not keep a long or short position, it
    closes it.  So the cost a step charges is fixed by the previous action
    and its own: nothing when both have the same target, and otherwise the
    cost rate times the distance of the targets, which is 1 or 2. *)
Theorem cost_follows_the_last_two_actions
    (self s1 s2 : MarketEnv) (a b : Z) (o1 o2 : StepOutcome) :
  step a self = (Ok o1, s1) ->
  step b s1 = (Ok o2, s2) ->
  exists ta tb,
    dict_get pos_map a = Ok ta /\ dict_get pos_map b = Ok tb
    /\ position s1 = ta /\ position s2 = tb
    /\ (a = 0 -> position s1 = 0)
    /\ tc (info o2)
       = (if tb =? ta then 0%float
          else (float_of_int (Z.abs (tb - ta)) * transaction_cost self)%float)
    /\ (tb <> ta -> 1 <= Z.abs (tb - ta) <= 2).
Proof.
  intros H1 H2.
  apply step_inv in H1 as (ta & q1 & _ & Ha & _ & -> & _).
  apply step_inv in H2 as (tb & q2 & _ & Hb & _ & -> & _ & Hc & _).
  exists ta, tb. split; [exact Ha|]. split; [exact Hb|].
  split; [reflexivity|]. split; [reflexivity|].
  split.
  { intros ->. simpl. unfold pos_map, dict_get in Ha. simpl in Ha.
    now injection Ha as <-. }
  split; [exact Hc|].
  apply pos_map_ok in Ha as [_ Ha]. apply pos_map_ok in Hb as [_ Hb].
  simpl in Ha, Hb. lia.
Qed.

Lemma cost_follows_the_last_two_actions_witness :
  exists o1 s1 o2 s2,
    step 1 sample_env = (Ok o1, s1) /\ step 2 s1 = (Ok o2, s2)
    /\ position s2 = -1
    /\ tc (info o2) = (float_of_int 2 * 0.5)%float.
Proof.
  destruct (step 1 sample_env) as [[o1|e] s1] eqn:H1;
    [|vm_compute in H1; discriminate].
  destruct (step 2 s1) as [[o2|e] s2] eqn:H2.
  2:{ vm_compute in H1. injection H1 as _ <-. vm_compute in H2. discriminate. }
  destruct (cost_follows_the_last_two_actions sample_env s1 s2 1 2 o1 o2 H1 H2)
    as (ta & tb & Ha & Hb & _ & Hp & _ & Hc & _).
  vm_compute in Ha. injection Ha as <-.
  vm_compute in Hb. injection Hb as <-.
  exists o1, s1, o2, s2. repeat split; assumption.
Defined.

(** ** The notebook's interface test *)

Lemma init_ok (f : list (list float)) (p : list float) (w : Z) (c q : float) :
  0 <= w ->
  getitem p (w - 1) = Ok q ->
  __init__ f p w c
  = Ok (rewound (mkEnv f p w c (len p) 0 0 0%float false) q).
Proof.
  intros Hw Hq. unfold __init__.
  replace (w <? 0) with false by (symmetry; apply Z.ltb_ge; exact Hw).
  now rewrite (reset_ok (mkEnv f p w c (len p) 0 0 0%float false) q Hq).
Qed.

(** X7. The notebook's interface test, a constructor with a 30-bar window
    over at most 2000 bars, a [reset] and three sampled steps, passes
    exactly when at least 33 bars are given: with 31 or 32 bars a step
    meets the misuse error, and with 30 bars or fewer it stops on an
    IndexError (in the first step at 30 bars, in the constructor below). *)
Theorem smoke_test_needs_33_bars (fs : list (list float))
    (ps : list float) (a1 a2 a3 : Z) :
  Forall valid_action [a1; a2; a3] ->
  (33 <= len ps ->
   exists outs, env_smoke_test fs ps a1 a2 a3 = Ok outs
                /\ len outs = 3)
  /\ (31 <= len ps <= 32 ->
      env_smoke_test fs ps a1 a2 a3 = Raise misuse)
  /\ (len ps <= 30 ->
      env_smoke_test fs ps a1 a2 a3 = Raise IndexError).
Proof.
  intros Hv. unfold env_smoke_test.
  pose proof (len_nonneg ps) as Hn.
  set (Tn := Z.min 2000 (len ps)).
  set (P := slice ps 0 Tn).
  set (F := slice fs 0 Tn).
  assert (HP : len P = Tn) by (apply len_slice_prefix; subst Tn; lia).
  assert (Hlive : 30 <= Tn ->
            exists q,
              let self := mkEnv F P 30 TRANSACTION_COST (len P) 30 0 q false in
              __init__ F P 30 TRANSACTION_COST = Ok self
              /\ reset self
                 = (Ok (map (map astype_float32) (slice F (30 - 30) 30)), self)
              /\ reachable self).
  { intros H30.
    destruct (getitem_in_range P (30 - 1)) as [q Hq]; [lia|].
    exists q. intros self.
    assert (Hi : __init__ F P 30 TRANSACTION_COST = Ok self)
      by (apply (init_ok F P 30 _ q); [lia | exact Hq]).
    split; [exact Hi|]. split; [apply (reset_ok self q Hq)|].
    now apply (reach_init F P 30 TRANSACTION_COST). }
  split; [|split].
  - intros H33.
    destruct Hlive as (q & Hi & Hreset & Hr); [subst Tn; lia|].
    rewrite Hi. unfold bind. rewrite Hreset.
    destruct (steps_run [a1; a2; a3] _ Hr eq_refl Hv)
      as (outs & self' & -> & _ & Hl & _).
    { cbn [T t]. rewrite HP. change (len [a1; a2; a3]) with 3. subst Tn. lia. }
    exists outs. split; [reflexivity | exact Hl].
  - intros H31.
    destruct Hlive as (q & Hi & Hreset & Hr); [subst Tn; lia|].
    rewrite Hi. unfold bind. rewrite Hreset.
    destruct (steps_overrun [a1; a2; a3] _ Hr eq_refl) as (self' & -> & _).
    + cbn [T t]. rewrite HP. subst Tn. lia.
    + exact Hv.
    + cbn [T t]. rewrite HP. change (len [a1; a2; a3]) with 3. subst Tn. lia.
    + reflexivity.
  - intros H30.
    destruct (Z.eq_dec (len ps) 30) as [E|N].
    + destruct Hlive as (q & Hi & Hreset & Hr); [subst Tn; lia|].
      rewrite Hi. unfold bind. rewrite Hreset.
      rewrite steps_cons, step_index_error.
      * reflexivity.
      * reflexivity.
      * now apply Forall_inv in Hv.
      * cbn [prices t]. rewrite HP. subst Tn. lia.
    + assert (Hq : getitem P (30 - 1) = Raise IndexError)
        by (apply getitem_out_of_range; rewrite HP; subst Tn; lia).
      unfold __init__. change (30 <? 0) with false. cbv iota.
      unfold reset, bind, get, lift, assign. cbn [fst snd].
      cbn [window set_t set_position prices t features transaction_cost T].
      now rewrite Hq.
Qed.

Lemma smoke_test_needs_33_bars_witness :
  env_smoke_test [] (repeat 1%float 31) 0 1 2 = Raise misuse.
Proof.
  apply (smoke_test_needs_33_bars [] (repeat 1%float 31) 0 1 2).
  - repeat (apply Forall_cons; [unfold valid_action; simpl; lia|]).
    apply Forall_nil.
  - vm_compute. split; discriminate.
Defined.

End MarketEnvMore.

(** * Further properties of the calendar and of the repair *)

Section CalendarMore.
Import py pd fix_integer_datetime_to_ts calendar_aux repair_aux
       calendar_more_aux.

(** X8. The extension loop appends exactly the business days that follow
    the last day given, each the first day after its predecessor that is
    not a Saturday or a Sunday, and as few of them as reach the required
    length: none when the days given suffice, otherwise the k for which
    k - 1 more days fall short and k do not. *)
Theorem extension_appends_next_business_days (days : list Z) (L : Z) :
  days <> [] ->
  let k := days_short (len days) L in
  (forall fuel, (k + 4 <= fuel)%nat ->
     extend_days_until_length fuel days L
     = Some (Ok (trading_minutes_for_days
                   (days ++ following_days k (List.last days 0)))))
  /\ (k = O -> L <= 242 * len days)
  /\ (k <> O -> 242 * (len days + Z.of_nat k - 1) < L
                /\ L <= 242 * (len days + Z.of_nat k))
  /\ (forall d, d < next_business_day d <= d + 3
                /\ weekday (next_business_day d) < 5
                /\ forall x, d < x < next_business_day d -> 5 <= weekday x).
Proof.
  intros Hne k.
  destruct (days_short_spec (len days) L) as [H0 Hk]. fold k in H0, Hk.
  unfold minutes_per_day in H0, Hk.
  split; [|split; [exact H0|split; [|exact next_business_day_spec]]].
  - intros fuel Hfuel.
    destruct (exists_last Hne) as (front & last & E).
    rewrite E, last_snoc. rewrite E, len_app in H0, Hk.
    change (len [last]) with 1 in H0, Hk.
    apply extend_exact; unfold minutes_per_day; [exact H0 | | exact Hfuel].
    intros Hk0. specialize (Hk Hk0). lia.
  - intros Hk0. specialize (Hk Hk0). lia.
Qed.

Lemma extension_appends_next_business_days_witness :
  extend_days_until_length 6 [date 2025 10 3] 500
  = Some (Ok (trading_minutes_for_days
                ([date 2025 10 3]
                 ++ following_days 2 (List.last [date 2025 10 3] 0)))).
Proof.
  pose proof (extension_appends_next_business_days [date 2025 10 3] 500) as H.
  destruct H as [H _]; [discriminate|].
  apply (H 6%nat). vm_compute. lia.
Defined.

(** What the builder returns over a range with a business day. *)
Lemma build_exact (s e L : Z) (fuel : nat) :
  bdate_range s e <> [] ->
  let days := bdate_range s e in
  let k := days_short (len days) L in
  (k + 4 <= fuel)%nat ->
  build_minutes_sequence fuel s e L
  = Some (Ok (slice (trading_minutes_for_days
                       (days ++ following_days k (List.last days 0))) 0 L)).
Proof.
  intros Hne. cbv zeta.
  set (days := bdate_range s e) in *.
  pose proof (days_short_spec (len days) L) as Hspec. cbv zeta in Hspec.
  remember (days_short (len days) L) as k eqn:Ek.
  destruct Hspec as [H0 Hk].
  intros Hfuel. unfold build_minutes_sequence. fold days.
  rewrite (trading_minutes_length days).
  destruct (Z.leb_spec L (minutes_per_day * len days)) as [Hle|Hgt].
  - assert (k = O) as -> by (destruct k; [reflexivity|];
      destruct Hk as [Hk _]; [discriminate|]; unfold minutes_per_day in *; lia).
    cbn [following_days]. now rewrite app_nil_r.
  - assert (Hk0 : k <> O) by (intros E; specialize (H0 E); lia).
    specialize (Hk Hk0). clear Ek H0.
    destruct (exists_last Hne) as (front & last & E).
    rewrite E in *. rewrite last_snoc.
    rewrite len_app in Hk. change (len [last]) with 1 in Hk.
    rewrite (extend_exact k front last L fuel);
      [reflexivity | congruence | | exact Hfuel].
    intros _. lia.
Qed.

(** X9. Asking for more only appends: over a range with a business day,
    the calendar built for a length L is the first L timestamps of the
    calendar built for any larger length. *)
Theorem longer_calendar_extends_shorter (s e L L' : Z) :
  bdate_range s e <> [] ->
  0 <= L <= L' ->
  exists fuel ts ts',
    (forall fuel', (fuel <= fuel')%nat ->
       build_minutes_sequence fuel' s e L = Some (Ok ts)
       /\ build_minutes_sequence fuel' s e L' = Some (Ok ts'))
    /\ ts = slice ts' 0 L.
Proof.
  intros Hne HL.
  set (days := bdate_range s e).
  set (k := days_short (len days) L).
  set (k' := days_short (len days) L').
  set (last := List.last days 0).
  destruct (days_short_spec (len days) L) as [H0 Hk]. fold k in H0, Hk.
  destruct (days_short_spec (len days) L') as [H0' Hk']. fold k' in H0', Hk'.
  unfold minutes_per_day in *.
  assert (Hkk : (k <= k')%nat).
  { destruct (Nat.eq_dec k O) as [->|Hk0]; [lia|].
    destruct (Nat.eq_dec k' O) as [E|Hk0'];
      [specialize (H0' E); specialize (Hk Hk0); lia|].
    specialize (Hk Hk0). specialize (Hk' Hk0'). lia. }
  exists (k' + 4)%nat. eexists. eexists. split.
  - intros fuel' Hf. split.
    + apply build_exact; [exact Hne | fold days; fold k; lia].
    + apply build_exact; [exact Hne | fold days; fold k'; lia].
  - fold days k k' last.
    replace k' with (k + (k' - k))%nat by lia.
    rewrite following_days_app, app_assoc.
    rewrite (trading_minutes_app (days ++ following_days k last)).
    set (A := trading_minutes_for_days (days ++ following_days k last)).
    set (B := trading_minutes_for_days _).
    assert (HA : L <= len A).
    { subst A. rewrite trading_minutes_length, len_app.
      unfold minutes_per_day.
      unfold len at 2. rewrite following_days_length.
      destruct (Nat.eq_dec k O) as [E|Hk0];
        [specialize (H0 E); lia | specialize (Hk Hk0); lia]. }
    rewrite !slice_prefix by lia.
    rewrite firstn_firstn, Nat.min_l by lia.
    rewrite firstn_app.
    replace (Z.to_nat L - List.length A)%nat with O
      by (unfold len in HA; lia).
    cbn [firstn]. now rewrite app_nil_r.
Qed.

Lemma longer_calendar_extends_shorter_witness :
  exists fuel ts ts',
    (forall fuel', (fuel <= fuel')%nat ->
       build_minutes_sequence fuel' (date 2025 10 3) (date 2025 10 3) 100
       = Some (Ok ts)
       /\ build_minutes_sequence fuel' (date 2025 10 3) (date 2025 10 3) 600
          = Some (Ok ts'))
    /\ ts = slice ts' 0 100.
Proof.
  apply (longer_calendar_extends_shorter (date 2025 10 3) (date 2025 10 3)
           100 600).
  - vm_compute. discriminate.
  - lia.
Defined.

(** ** The exits of [main] *)

Lemma extend_ok_len (fuel : nat) (days : list Z) (L : Z) (ts : list Z) :
  extend_days_until_length fuel days L = Some (Ok ts) -> L <= len ts.
Proof.
  revert days. induction fuel as [|fuel IH]; intros days; [discriminate|].
  cbn [extend_days_until_length].
  destruct (Z.leb_spec L (len (trading_minutes_for_days days))) as [Hle|Hgt].
  - now intros [= <-].
  - destruct (getitem days (-1)) as [last|e]; [|discriminate].
    destruct (skip_weekend fuel (last + 1)); [apply IH | discriminate].
Qed.

Lemma build_ok_len (fuel : nat) (s e L : Z) (ts : list Z) :
  0 <= L -> build_minutes_sequence fuel s e L = Some (Ok ts) -> len ts = L.
Proof.
  intros HL. unfold build_minutes_sequence.
  destruct (Z.leb_spec L (len (trading_minutes_for_days (bdate_range s e))))
    as [Hle|Hgt].
  - intros [= <-]. apply len_slice_prefix. lia.
  - destruct (extend_days_until_length fuel (bdate_range s e) L)
      as [[ts'|x]|] eqn:He; try discriminate.
    intros [= <-]. apply extend_ok_len in He. apply len_slice_prefix. lia.
Qed.

(** X10. The exit of [main] for a calendar shorter than the data is dead
    code: whatever the file, the dates and the fuel, [main] never ends with
    it, because the builder returns exactly the number of timestamps it is
    asked for or does not return. *)
Theorem main_never_reports_a_short_calendar
    (int_of_str : string -> option Z) (fuel : nat)
    (infile : option DataFrame) (start end_ : Z) :
  main int_of_str fuel infile start end_
  <> Some (Raise (SystemExit not_enough_timestamps)).
Proof.
  unfold main, not_enough_timestamps.
  destruct infile as [df|]; [|intros H; discriminate H].
  destruct (negb (mem "datetime" (columns df))); [intros H; discriminate H|].
  destruct (getcol df "datetime") as [col|e] eqn:Hcol.
  2:{ unfold getcol in Hcol.
      destruct (index_of "datetime" (columns df)); [discriminate|].
      injection Hcol as <-. intros H; discriminate H. }
  destruct (negb (is_int_seq int_of_str col)); [intros H; discriminate H|].
  destruct (build_minutes_sequence fuel start end_ (len (rows df)))
    as [[ts|e]|] eqn:Hb; [| |intros H; discriminate H].
  - apply build_ok_len in Hb; [|apply len_nonneg].
    replace (len ts <? len (rows df)) with false
      by (symmetry; apply Z.ltb_ge; lia).
    unfold setitem. destruct (negb _); [intros H; discriminate H|].
    unfold set_index. cbn [columns].
    destruct (index_of "datetime" _); intros H; discriminate H.
  - apply build_raise in Hb. subst e. intros H; discriminate H.
Qed.

Lemma extend_nonempty_no_raise (fuel : nat) (days : list Z) (L : Z) (e : exn) :
  days <> [] -> extend_days_until_length fuel days L <> Some (Raise e).
Proof.
  revert days. induction fuel as [|fuel IH]; intros days Hne; [discriminate|].
  cbn [extend_days_until_length].
  destruct (L <=? _); [discriminate|].
  destruct (exists_last Hne) as (front & last & ->).
  rewrite getitem_last.
  destruct (skip_weekend fuel (last + 1)); [|discriminate].
  apply IH. intros H. apply app_eq_nil in H as [_ H]. discriminate.
Qed.

(** X11. When the repair crashes: for a frame whose time column passes the
    integer test, [main] ends on an IndexError exactly when the date range
    holds no business day and the frame has at least one row (and the loop
    is entered at all). *)
Theorem main_index_error_iff (int_of_str : string -> option Z) (fuel : nat)
    (df : DataFrame) (start end_ : Z) (k : nat) :
  index_of "datetime" (columns df) = Some k ->
  is_int_seq int_of_str (map (fun r => cell_at k (snd r)) (rows df)) = true ->
  main int_of_str fuel (Some df) start end_ = Some (Raise IndexError)
  <-> (1 <= fuel)%nat /\ bdate_range start end_ = [] /\ rows df <> [].
Proof.
  intros Hk Hint. unfold main.
  replace (mem "datetime" (columns df)) with true
    by (symmetry; apply mem_index_of; eauto).
  unfold getcol. rewrite Hk. cbv beta iota. simpl negb. cbv iota.
  rewrite Hint. simpl negb. cbv iota.
  assert (Hlen : rows df <> [] <-> 0 < len (rows df)).
  { unfold len. destruct (rows df); simpl; split; intros H;
      try congruence; try lia. }
  unfold build_minutes_sequence.
  destruct (Z.leb_spec (len (rows df))
              (len (trading_minutes_for_days (bdate_range start end_))))
    as [Hle|Hgt].
  - (* the base calendar suffices: no IndexError *)
    split.
    + pose proof (len_nonneg (rows df)) as Hn.
      rewrite len_slice_prefix by lia.
      rewrite Z.ltb_irrefl.
      unfold setitem. rewrite Hk.
      destruct (negb _); [intros H; discriminate H|].
      unfold set_index. cbn [columns]. rewrite Hk. intros H; discriminate H.
    + intros (_ & He & Hr). rewrite He in Hle.
      change (len (trading_minutes_for_days [])) with 0 in Hle.
      apply Hlen in Hr. lia.
  - destruct (bdate_range start end_) as [|d days] eqn:Hd.
    + destruct fuel as [|fuel].
      * cbn [extend_days_until_length]. split;
          [intros H; discriminate H | intros [H _]; lia].
      * cbn [extend_days_until_length].
        change (len (trading_minutes_for_days [])) with 0 in *.
        replace (len (rows df) <=? 0) with false
          by (symmetry; apply Z.leb_gt; lia).
        rewrite getitem_empty.
        split; [intros _|reflexivity].
        split; [lia|]. split; [reflexivity|]. apply Hlen. lia.
    + split; [|intros (_ & H & _); discriminate H].
      destruct (extend_days_until_length fuel (d :: days) (len (rows df)))
        as [[ts|x]|] eqn:He; [| |intros H; discriminate H].
      * apply extend_ok_len in He.
        pose proof (len_nonneg (rows df)) as Hn.
        rewrite len_slice_prefix by lia. rewrite Z.ltb_irrefl.
        unfold setitem. rewrite Hk.
        destruct (negb _); [intros H; discriminate H|].
        unfold set_index. cbn [columns]. rewrite Hk. intros H; discriminate H.
      * exfalso. revert He. apply extend_nonempty_no_raise. discriminate.
Qed.

Lemma main_index_error_iff_witness :
  main int_of_ascii 1 (Some counter_frame) (date 2025 10 11) (date 2025 10 12)
  = Some (Raise IndexError).
Proof.
  apply (main_index_error_iff int_of_ascii 1 counter_frame
           (date 2025 10 11) (date 2025 10 12) 0).
  - reflexivity.
  - reflexivity.
  - split; [lia|]. split; [reflexivity | discriminate].
Defined.

(** ** The integer test *)

Lemma prim2sf_nan_isna (f : float) :
  Prim2SF f = S754_nan -> PrimFloat.is_nan f = true.
Proof.
  intros H. unfold PrimFloat.is_nan. rewrite eqb_spec, H. reflexivity.
Qed.

(** X12. The integer test does not test that values are whole: it accepts
    every time column made of integers, booleans and floats that are not
    infinities, fractional floats and missing values included. *)
Theorem integer_test_accepts_fractions (int_of_str : string -> option Z)
    (col : list cell) :
  Forall converts_to_int col -> is_int_seq int_of_str col = true.
Proof.
  intros Hcol. unfold is_int_seq.
  destruct (astype_int_spec int_of_str (dropna_values col))
    as [(zs & -> & _)|(_ & c & Hin & Hc)].
  - apply forallb_isinstance_int.
  - exfalso. apply filter_In in Hin as [Hin Hna].
    rewrite Forall_forall in Hcol. specialize (Hcol c Hin).
    destruct c as [z|f|b|s|m|]; simpl in Hcol, Hc; try discriminate;
      try contradiction.
    unfold int_of_float in Hc.
    destruct (Prim2SF f) as [sg|sg| |sg m ex] eqn:Hf; try discriminate.
    + now apply (Hcol sg).
    + apply prim2sf_nan_isna in Hf. simpl in Hna. now rewrite Hf in Hna.
Qed.

Lemma integer_test_accepts_fractions_witness :
  is_int_seq int_of_ascii [CFloat 1.5; NaN; CFloat (-2.25); CBool true] = true.
Proof.
  apply (integer_test_accepts_fractions int_of_ascii).
  repeat (apply Forall_cons; [simpl; try exact I; vm_compute; discriminate|]).
  apply Forall_nil.
Defined.

End CalendarMore.

(** * Further properties of the feed normaliser *)

Import py pd download_akshare_minute feed_aux feed_more_aux.

Section FeedMore.
Local Open Scope string_scope.
Local Open Scope list_scope.

Variable repr_cell : cell -> string.
Variable to_datetime : list cell -> list cell.
Variable to_numeric : list cell -> list cell.
Variable day_plus_seconds : string -> list cell -> result (list cell).
Lemma normalize_some_inv (df_raw out : DataFrame) (day_str : string) :
  parse_and_normalize_minute_df repr_cell to_datetime to_numeric
    day_plus_seconds (Some df_raw) day_str = Ok (Some out) ->
  exists df datetime_col parsed,
    detect_datetime_col df_raw = Some (df, datetime_col)
    /\ parse_times repr_cell to_datetime to_numeric day_plus_seconds
         df datetime_col day_str = Ok (Some parsed)
    /\ keep_and_coerce to_numeric (map_columns parsed) = Ok out.
Proof.
  unfold parse_and_normalize_minute_df.
  destruct (empty df_raw); [discriminate|].
  destruct (detect_datetime_col df_raw) as [[df col]|]; [|discriminate].
  destruct (parse_times _ _ _ _ df col day_str) as [[parsed|]|e] eqn:Hp;
    try discriminate.
  destruct (keep_and_coerce to_numeric (map_columns parsed)) as [o|e] eqn:Hk;
    [|discriminate].
  intros [= <-]. exists df, col, parsed. auto.
Qed.

(** ** Pairwise distinct labels *)

Lemma setitem_NoDup (df df' : DataFrame) (name : string) (vals : list cell) :
  setitem df name vals = Ok df' -> NoDup (columns df) -> NoDup (columns df').
Proof.
  unfold setitem. destruct (negb _); [discriminate|].
  intros [= <-] Hn. cbn [columns].
  destruct (index_of name (columns df)) as [k|] eqn:E; [exact Hn|].
  apply (Permutation_NoDup (Permutation_cons_append _ _)).
  constructor; [|exact Hn].
  intros Hin. apply mem_In in Hin.
  destruct (index_of_mem _ _ Hin) as [k Hk]. congruence.
Qed.

Lemma detect_datetime_col_NoDup (df_raw df : DataFrame) (col : string) :
  detect_datetime_col df_raw = Some (df, col) ->
  NoDup (columns df_raw) -> NoDup (columns df).
Proof.
  unfold detect_datetime_col, reset_index.
  destruct (detect_in_map _ _); [intros [= <- _] Hn; exact Hn|].
  set (label := match index_name df_raw with Some _ => _ | None => _ end).
  destruct (mem label (columns df_raw)) eqn:Hm; [discriminate|].
  destruct (detect_in_columns _ _); [|discriminate].
  intros [= <- _] Hn. cbn [columns]. constructor; [|exact Hn].
  intros Hin. apply mem_In in Hin. congruence.
Qed.

Lemma drop_unparsed_columns (df parsed : DataFrame) :
  drop_unparsed df = Ok (Some parsed) -> columns parsed = columns df.
Proof.
  unfold drop_unparsed.
  destruct (dropna df ["datetime"]) as [df'|e] eqn:Hd; [|discriminate].
  destruct (empty df'); [discriminate|]. intros [= <-].
  now apply dropna_columns in Hd.
Qed.

Lemma parse_times_NoDup (df parsed : DataFrame)
    (datetime_col day_str : string) :
  parse_times repr_cell to_datetime to_numeric day_plus_seconds
    df datetime_col day_str = Ok (Some parsed) ->
  NoDup (columns df) -> NoDup (columns parsed).
Proof.
  unfold parse_times.
  destruct (getcol df datetime_col) as [col|]; [|discriminate].
  destruct (setitem df datetime_col _) as [df1|] eqn:H1; [|discriminate].
  destruct (getcol df1 datetime_col) as [col1|]; [|discriminate].
  match goal with
  | |- match (if ?b then ?x else ?y) with _ => _ end = _ -> _ =>
      assert (Hset : exists vals, (if b then x else y)
                                  = setitem df1 "datetime" (to_datetime vals))
        by (destruct b; eauto);
      destruct Hset as [vals ->]
  end.
  destruct (setitem df1 "datetime" (to_datetime vals)) as [df2|] eqn:H2;
    [|discriminate].
  destruct (getcol df2 "datetime") as [parsed0|]; [|discriminate].
  intros H Hn. apply drop_unparsed_columns in H. rewrite H.
  assert (N2 : NoDup (columns df2)).
  { apply (setitem_NoDup _ _ _ _ H2), (setitem_NoDup _ _ _ _ H1), Hn. }
  destruct (_ <? _)%Z; [|exact N2].
  destruct (getcol df2 datetime_col) as [col2|]; [|exact N2].
  destruct (existsb _ _); [|exact N2].
  destruct (day_plus_seconds day_str (to_numeric col2)) as [v|]; [|exact N2].
  destruct (setitem df2 "datetime" v) as [df3|] eqn:H3; [|exact N2].
  exact (setitem_NoDup _ _ _ _ H3 N2).
Qed.

(** The column-name mapping leaves the places of the label datetime
    alone. *)
Lemma rename_positions_of (df : DataFrame) (mapping : list (string * string))
    (x : string) (k0 : nat) :
  sdict_get mapping x = None ->
  (forall k v, sdict_get mapping k = Some v -> v <> x) ->
  positions_of x (columns (rename df mapping)) k0
  = positions_of x (columns df) k0.
Proof.
  intros Hx Hv. unfold rename. cbn [columns]. revert k0.
  induction (columns df) as [|c names IH]; intros k0; simpl; [reflexivity|].
  rewrite IH. destruct (String.eqb x c) eqn:E.
  - apply String.eqb_eq in E. subst c. now rewrite Hx, String.eqb_refl.
  - destruct (sdict_get mapping c) as [c'|] eqn:Hc; [|now rewrite E].
    destruct (String.eqb x c') eqn:E'; [|reflexivity].
    apply String.eqb_eq in E'. subst c'. now apply Hv in Hc.
Qed.

Lemma rename_chinese_and_capitalized_positions (df : DataFrame) :
  positions_of "datetime" (columns (rename_chinese_and_capitalized df)) 0
  = positions_of "datetime" (columns df) 0.
Proof.
  unfold rename_chinese_and_capitalized.
  match goal with
  | |- context [match ?m with [] => df | _ :: _ => rename df ?m' end] =>
      assert (Hnone : sdict_get m "datetime" = None);
      [|assert (Hvals : forall k v, sdict_get m k = Some v -> In v ohlcv)]
  end.
  { cbn [fold_left ohlcv].
    repeat (apply sdict_set_keeps_none; [reflexivity|]). reflexivity. }
  { cbn [fold_left ohlcv].
    repeat (apply sdict_set_values; [simpl; auto 6|]).
    intros k v. discriminate. }
  match goal with
  | |- context [match ?m with [] => df | _ :: _ => rename df ?m' end] =>
      destruct m eqn:Em
  end; [reflexivity|].
  apply rename_positions_of; [exact Hnone|].
  intros k v Hk. apply ohlcv_not_datetime. now apply (Hvals k).
Qed.

Lemma rename_lowercase_matches_positions (df : DataFrame) :
  positions_of "datetime" (columns (rename_lowercase_matches df)) 0
  = positions_of "datetime" (columns df) 0.
Proof.
  unfold rename_lowercase_matches.
  set (lowermap := lower_map (columns df)).
  assert (Hl : forall want c, sdict_get lowermap want = Some c -> lower c = want)
    by (intros want c; apply lower_map_get).
  clearbody lowermap.
  assert (Hwant : forall want, In want ohlcv -> want <> "datetime")
    by apply ohlcv_not_datetime.
  revert Hwant. generalize ohlcv as wants. intros wants.
  revert df.
  induction wants as [|want wants IH]; intros df0 Hwant; simpl; [reflexivity|].
  assert (Hw : want <> "datetime") by (apply Hwant; now left).
  assert (Hws : forall w, In w wants -> w <> "datetime")
    by (intros w Hin; apply Hwant; now right).
  destruct (negb (mem want (columns df0))); [|now apply IH].
  destruct (sdict_get lowermap want) as [c|] eqn:Hc; [|now apply IH].
  rewrite IH by exact Hws.
  apply rename_positions_of.
  - cbn [sdict_get]. destruct (String.eqb "datetime" c) eqn:E; [|reflexivity].
    apply String.eqb_eq in E. subst c. apply Hl in Hc.
    exfalso. apply Hw. now rewrite <- Hc.
  - intros k v. cbn [sdict_get]. destruct (String.eqb k c); [|discriminate].
    now intros [= <-].
Qed.

Lemma map_columns_positions (df : DataFrame) :
  positions_of "datetime" (columns (map_columns df)) 0
  = positions_of "datetime" (columns df) 0.
Proof.
  unfold map_columns.
  now rewrite rename_lowercase_matches_positions,
    rename_chinese_and_capitalized_positions.
Qed.

(** X13. For a payload whose labels are pairwise distinct, a table the
    normaliser returns is indexed under the name datetime and its columns
    are canonical names only, each at most once and in the order open,
    high, low, close, volume: every other column of the payload is
    discarded. (When two labels of the payload are renamed to one canonical
    name, the numeric coercion raises and no table is returned.) *)
Theorem normalized_columns_are_canonical (df_raw out : DataFrame)
    (day_str : string) :
  NoDup (columns df_raw) ->
  parse_and_normalize_minute_df repr_cell to_datetime to_numeric
    day_plus_seconds (Some df_raw) day_str = Ok (Some out) ->
  index_name out = Some "datetime"
  /\ (exists labels, columns out = filter (fun c => mem c labels) ohlcv)
  /\ NoDup (columns out)
  /\ (forall c, In c (columns out) -> In c ohlcv).
Proof.
  intros Hraw H.
  apply normalize_some_inv in H as (df & col & parsed & Hdet & Hp & Hk).
  assert (Hn : NoDup (columns parsed)).
  { apply (parse_times_NoDup _ _ _ _ Hp).
    exact (detect_datetime_col_NoDup _ _ _ Hdet Hraw). }
  apply keep_and_coerce_inv in Hk
    as (k & more & rows1 & before & ks & _ & Hpos & Hi & Hc & Honce & _).
  assert (Hmore : more = []).
  { pose proof (positions_of_NoDup "datetime" (columns parsed) 0 Hn) as Hl.
    rewrite <- map_columns_positions, Hpos in Hl.
    destruct more; [reflexivity | simpl in Hl; lia]. }
  subst more. cbn [map app] in Hc.
  assert (Hin : forall c, In c (columns out) -> In c ohlcv).
  { intros c. rewrite Hc. intros Hc'.
    apply in_flat_map in Hc' as (c' & Hrest & Hc').
    apply in_map_iff in Hc' as (j & <- & _).
    apply filter_In in Hrest. exact (proj1 Hrest). }
  assert (Hnd : NoDup (columns out)).
  { apply occurs_once_NoDup. intros c Hc'.
    apply Honce; [now apply Hin | now apply mem_In]. }
  split; [exact Hi|]. split; [|split; [exact Hnd | exact Hin]].
  exists (columns (map_columns parsed)). rewrite Hc.
  apply labels_once; [|now rewrite <- Hc].
  intros c Hrest E. apply filter_In in Hrest as [_ Hm].
  destruct (index_of_mem _ _ Hm) as [kc Hkc].
  destruct (positions_of_head c _ 0 kc Hkc) as [rest' E'].
  rewrite E in E'. discriminate.
Qed.

(** X14. No row of a table the normaliser returns has a missing value in a
    price column: rows whose open, high, low or close did not coerce to a
    number are dropped. *)
Theorem normalized_rows_have_prices (df_raw out : DataFrame)
    (day_str : string) :
  parse_and_normalize_minute_df repr_cell to_datetime to_numeric
    day_plus_seconds (Some df_raw) day_str = Ok (Some out) ->
  forall r p k,
    In r (rows out) -> In p price_names ->
    index_of p (columns out) = Some k ->
    isna (cell_at k (snd r)) = false.
Proof.
  intros H.
  apply normalize_some_inv in H as (df & col & parsed & _ & _ & Hk).
  apply keep_and_coerce_inv in Hk
    as (k0 & more & rows1 & before & ks & _ & _ & _ & _ & _ & _ & _ & Hks
        & Hrows).
  intros r p k Hin Hp Hk.
  rewrite Hrows in Hin. apply filter_In in Hin as [_ Hall].
  rewrite forallb_forall in Hall.
  apply negb_true_iff, Hall.
  apply (positions_In _ _ _ p k Hks); [|exact Hk].
  apply filter_In. split; [exact Hp|].
  apply mem_index_of. eauto.
Qed.

(** ** The index of the returned table *)

Hypothesis to_datetime_times :
  forall col, Forall time_like (to_datetime col).
Hypothesis day_plus_seconds_times :
  forall day nums v, day_plus_seconds day nums = Ok v -> Forall time_like v.

Lemma setitem_time_column (df df' : DataFrame) (vals : list cell) :
  setitem df "datetime" vals = Ok df' -> Forall time_like vals ->
  exists k, index_of "datetime" (columns df') = Some k
            /\ Forall (fun r => time_like (cell_at k (snd r))) (rows df').
Proof.
  intros H Hv. apply setitem_column in H as (k & Hk & Hcol).
  exists k. split; [exact Hk|].
  rewrite <- Hcol in Hv. rewrite Forall_map in Hv. exact Hv.
Qed.

(** Lines 105-108: what is left holds a timestamp in every row. *)
Lemma drop_unparsed_stamps (df parsed : DataFrame) :
  (exists k, index_of "datetime" (columns df) = Some k
             /\ Forall (fun r => time_like (cell_at k (snd r))) (rows df)) ->
  drop_unparsed df = Ok (Some parsed) ->
  exists k, index_of "datetime" (columns parsed) = Some k
            /\ Forall (fun r => exists m, cell_at k (snd r) = CTimestamp m)
                 (rows parsed).
Proof.
  intros (k & Hk & Hall). unfold drop_unparsed, dropna.
  cbn [positions]. rewrite Hk.
  match goal with |- context [empty ?d] => destruct (empty d) end;
    [discriminate|].
  intros [= <-]. cbn [columns rows]. exists k. split; [exact Hk|].
  rewrite Forall_forall in *. intros r Hr.
  apply filter_In in Hr as [Hr Hna]. cbn [forallb] in Hna.
  rewrite andb_true_r in Hna. apply negb_true_iff in Hna.
  destruct (Hall r Hr) as [E|E]; [|exact E].
  rewrite E in Hna. discriminate.
Qed.

(** Lines 73-108: the time column of what the time stage returns. *)
Lemma parse_times_stamps (df parsed : DataFrame)
    (datetime_col day_str : string) :
  parse_times repr_cell to_datetime to_numeric day_plus_seconds
    df datetime_col day_str = Ok (Some parsed) ->
  exists k, index_of "datetime" (columns parsed) = Some k
            /\ Forall (fun r => exists m, cell_at k (snd r) = CTimestamp m)
                 (rows parsed).
Proof.
  unfold parse_times.
  destruct (getcol df datetime_col) as [col|]; [|discriminate].
  destruct (setitem df datetime_col _) as [df1|]; [|discriminate].
  destruct (getcol df1 datetime_col) as [col1|]; [|discriminate].
  match goal with
  | |- match (if ?b then ?x else ?y) with _ => _ end = _ -> _ =>
      assert (Hset : exists vals, (if b then x else y)
                                  = setitem df1 "datetime" (to_datetime vals))
        by (destruct b; eauto);
      destruct Hset as [vals ->]
  end.
  destruct (setitem df1 "datetime" (to_datetime vals)) as [df2|] eqn:H2;
    [|discriminate].
  apply setitem_time_column in H2; [|apply to_datetime_times].
  destruct (getcol df2 "datetime") as [parsed0|]; [|discriminate].
  apply drop_unparsed_stamps.
  destruct (_ <? _)%Z; [|exact H2].
  destruct (getcol df2 datetime_col) as [col2|]; [|exact H2].
  destruct (existsb _ _); [|exact H2].
  destruct (day_plus_seconds day_str (to_numeric col2)) as [v|] eqn:Hv;
    [|exact H2].
  destruct (setitem df2 "datetime" v) as [df3|] eqn:H3; [|exact H2].
  apply setitem_time_column in H3; [exact H3|].
  now apply day_plus_seconds_times in Hv.
Qed.

Lemma insert_row_stamps (m : Z) (v : list cell) (l : list (cell * list cell))
    (ms : list Z) :
  map fst l = map CTimestamp ms -> Sorted Z.le ms ->
  exists ms',
    map fst (insert_row (CTimestamp m, v) l) = map CTimestamp ms'
    /\ Sorted Z.le ms'
    /\ (forall y, HdRel Z.le y ms -> (y <= m)%Z -> HdRel Z.le y ms').
Proof.
  revert ms. induction l as [|r l IH]; intros [|x ms]; simpl;
    try discriminate.
  - intros _ _. exists [m]. repeat split; auto.
  - intros [= Hr Hl] Hs. cbn [fst]. rewrite Hr. cbn [cell_leb].
    destruct (m <=? x)%Z eqn:E.
    + apply Z.leb_le in E. exists (m :: x :: ms). simpl. rewrite Hr, Hl.
      repeat split; auto.
    + apply Z.leb_gt in E. apply Sorted_inv in Hs as [Hs Hd].
      destruct (IH ms Hl Hs) as (ms' & Hm & Hs' & Hh).
      exists (x :: ms'). simpl. rewrite Hr, Hm. repeat split.
      * constructor; [exact Hs' | apply Hh; [exact Hd | lia]].
      * intros y Hy _. apply HdRel_inv in Hy. now constructor.
Qed.

(** [sort_index] on an index of timestamps: the timestamps, ascending. *)
Lemma sort_stamps (l : list (cell * list cell)) :
  Forall (fun r => exists m, fst r = CTimestamp m) l ->
  exists ms, map fst (fold_right insert_row [] l) = map CTimestamp ms
             /\ Sorted Z.le ms.
Proof.
  induction 1 as [|r l [m Hm] _ (ms & Hms & Hs)]; simpl.
  - exists []. auto.
  - destruct r as [i v]. cbn [fst] in Hm. subst i.
    destruct (insert_row_stamps m v _ ms Hms Hs) as (ms' & H1 & H2 & _).
    eauto.
Qed.

Lemma filter_stamps (p : cell * list cell -> bool)
    (l : list (cell * list cell)) (ms : list Z) :
  map fst l = map CTimestamp ms -> StronglySorted Z.le ms ->
  exists ms', map fst (filter p l) = map CTimestamp ms'
              /\ StronglySorted Z.le ms' /\ incl ms' ms.
Proof.
  revert ms. induction l as [|r l IH]; intros [|x ms]; simpl;
    try discriminate.
  - intros _ _. exists []. repeat split; [constructor | apply incl_refl].
  - intros [= Hr Hl] Hs. apply StronglySorted_inv in Hs as [Hs Hx].
    destruct (IH ms Hl Hs) as (ms' & Hm & Hs' & Hi).
    destruct (p r).
    + exists (x :: ms'). simpl. rewrite Hr, Hm. repeat split.
      * constructor; [exact Hs'|]. rewrite Forall_forall in *. auto.
      * intros y [<-|Hy]; [now left | right; auto].
    + exists ms'. repeat split; auto. now apply incl_tl.
Qed.

(** Lines 137-152 on a frame whose time column holds timestamps. *)
Lemma keep_and_coerce_index (df out : DataFrame) (k : nat) :
  index_of "datetime" (columns df) = Some k ->
  Forall (fun r => exists m, cell_at k (snd r) = CTimestamp m) (rows df) ->
  keep_and_coerce to_numeric df = Ok out ->
  exists ms, map fst (rows out) = map CTimestamp ms
             /\ StronglySorted Z.le ms.
Proof.
  intros Hk Hall Ho.
  apply keep_and_coerce_inv in Ho
    as (k' & more & rows1 & before & ks & Hk' & _ & _ & _ & _ & Hr1 & Hb & _
        & Hrows).
  assert (k' = k) by congruence. subst k'.
  assert (Hst : Forall (fun r => exists m, fst r = CTimestamp m) rows1).
  { apply Forall_map with (f := fst) (P := fun c => exists m, c = CTimestamp m).
    rewrite Hr1. apply Forall_map. exact Hall. }
  destruct (sort_stamps rows1 Hst) as (ms & Hms & Hs).
  rewrite <- Hb in Hms.
  destruct (filter_stamps
              (fun r => forallb (fun k => negb (isna (cell_at k (snd r)))) ks)
              before ms) as (ms' & H1 & H2 & _).
  - exact Hms.
  - apply Sorted_StronglySorted; [|exact Hs].
    intros x y z. apply Z.le_trans.
  - exists ms'. rewrite Hrows. split; [exact H1 | exact H2].
Qed.

(** X15. When the time parsers yield timestamps or missing times only, the
    index of a table the normaliser returns holds timestamps only, in
    non-decreasing order. *)
Theorem normalized_index_is_sorted (df_raw out : DataFrame)
    (day_str : string) :
  parse_and_normalize_minute_df repr_cell to_datetime to_numeric
    day_plus_seconds (Some df_raw) day_str = Ok (Some out) ->
  exists ms, map fst (rows out) = map CTimestamp ms
             /\ StronglySorted Z.le ms.
Proof.
  intros H.
  apply normalize_some_inv in H as (df & col & parsed & _ & Hp & Hk).
  apply parse_times_stamps in Hp as (k & Hi & Hall).
  apply (keep_and_coerce_index (map_columns parsed) out k).
  - now rewrite map_columns_index.
  - destruct (map_columns_keeps parsed) as [_ ->]; [|exact Hall].
    apply mem_index_of. eauto.
  - exact Hk.
Qed.

End FeedMore.

Lemma normalized_columns_are_canonical_witness :
  NoDup (columns priced_payload)
  /\ parse_and_normalize_minute_df sample_repr sample_to_datetime
    sample_to_numeric sample_day_plus_seconds
    (Some priced_payload) "2025-01-02" = Ok (Some priced_normalized)
  /\ index_name priced_normalized = Some "datetime"%string
  /\ (exists labels,
        columns priced_normalized = filter (fun c => mem c labels) ohlcv)
  /\ NoDup (columns priced_normalized)
  /\ (forall c, In c (columns priced_normalized) -> In c ohlcv).
Proof.
  assert (Hn : NoDup (columns priced_payload)).
  { vm_compute. repeat (constructor; [simpl; intuition discriminate|]).
    constructor. }
  split; [exact Hn|]. split; [vm_compute; reflexivity|].
  apply (normalized_columns_are_canonical sample_repr sample_to_datetime
           sample_to_numeric sample_day_plus_seconds
           priced_payload priced_normalized "2025-01-02" Hn).
  vm_compute. reflexivity.
Defined.

Lemma normalized_rows_have_prices_witness :
  parse_and_normalize_minute_df sample_repr sample_to_datetime
    sample_to_numeric sample_day_plus_seconds
    (Some priced_payload) "2025-01-02" = Ok (Some priced_normalized)
  /\ (forall r p k,
        In r (rows priced_normalized) -> In p price_names ->
        index_of p (columns priced_normalized) = Some k ->
        isna (cell_at k (snd r)) = false).
Proof.
  split; [vm_compute; reflexivity|].
  apply (normalized_rows_have_prices sample_repr sample_to_datetime
           sample_to_numeric sample_day_plus_seconds
           priced_payload priced_normalized "2025-01-02").
  vm_compute. reflexivity.
Defined.

Lemma parse_minute_time_like (col : list cell) :
  Forall time_like (sample_to_datetime col).
Proof.
  unfold sample_to_datetime. apply Forall_map, Forall_forall.
  intros c _. unfold time_like.
  destruct c as [z|f|b|s|m|]; cbn [parse_minute]; eauto.
  repeat match goal with
         | |- context [if ?b then _ else _] => destruct b
         | |- context [match ?x with Some _ => _ | None => _ end] => destruct x
         end; eauto.
Qed.

Lemma sample_day_plus_seconds_time_like (day : string) (nums v : list cell) :
  sample_day_plus_seconds day nums = Ok v -> Forall time_like v.
Proof. discriminate. Qed.

Lemma normalized_index_is_sorted_witness :
  parse_and_normalize_minute_df sample_repr sample_to_datetime
    sample_to_numeric sample_day_plus_seconds
    (Some priced_payload) "2025-01-02" = Ok (Some priced_normalized)
  /\ exists ms, map fst (rows priced_normalized) = map CTimestamp ms
                /\ StronglySorted Z.le ms.
Proof.
  split; [vm_compute; reflexivity|].
  apply (normalized_index_is_sorted sample_repr sample_to_datetime
           sample_to_numeric sample_day_plus_seconds
           parse_minute_time_like
           sample_day_plus_seconds_time_like
           priced_payload priced_normalized "2025-01-02").
  vm_compute. reflexivity.
Defined.

(** * Detection of the time column (lines 39-71) *)

Import py pd download_akshare_minute feed_aux feed_more_aux.

Section FeedDetect.
Local Open Scope string_scope.
Local Open Scope list_scope.

Lemma lower_map_snoc (names : list string) (x : string) :
  lower_map (names ++ [x]) = sdict_set (lower_map names) (lower x) x.
Proof. unfold lower_map. now rewrite fold_left_app. Qed.

(** The dict of lowered labels holds, under a key, the last label that
    lowers to it. *)
Lemma lower_map_some (names : list string) (k c : string) :
  sdict_get (lower_map names) k = Some c ->
  lower c = k
  /\ exists a b, names = a ++ c :: b /\ forall c', In c' b -> lower c' <> k.
Proof.
  revert c. induction names as [|x names IH] using rev_ind; intros c.
  - discriminate.
  - rewrite lower_map_snoc, sdict_get_set.
    destruct (String.eqb k (lower x)) eqn:E.
    + apply String.eqb_eq in E. intros [= <-]. split; [now symmetry|].
      exists names, []. split; [reflexivity | intros c' []].
    + apply String.eqb_neq in E. intros H.
      destruct (IH c H) as (Hc & a & b & -> & Hb). split; [exact Hc|].
      exists a, (b ++ [x]). split; [now rewrite <- app_assoc|].
      intros c' Hin. apply in_app_or in Hin as [Hin|[<-|[]]]; auto.
Qed.

Lemma lower_map_none (names : list string) (k : string) :
  sdict_get (lower_map names) k = None ->
  forall c, In c names -> lower c <> k.
Proof.
  induction names as [|x names IH] using rev_ind; [intros _ c []|].
  rewrite lower_map_snoc, sdict_get_set.
  destruct (String.eqb k (lower x)) eqn:E; [discriminate|].
  apply String.eqb_neq in E. intros H c Hin.
  apply in_app_or in Hin as [Hin|[<-|[]]]; auto.
Qed.

(** Lines 51-55: the candidates are tried in order. *)
Lemma detect_in_map_some (names cands : list string) (col : string) :
  detect_in_map (lower_map names) cands = Some col ->
  exists pre post a b,
    cands = pre ++ lower col :: post
    /\ (forall c, In c names -> ~ In (lower c) pre)
    /\ names = a ++ col :: b
    /\ (forall c, In c b -> lower c <> lower col).
Proof.
  induction cands as [|cand cands IH]; simpl; [discriminate|].
  destruct (sdict_get (lower_map names) cand) as [c|] eqn:Hc.
  - intros [= ->]. apply lower_map_some in Hc as (<- & a & b & Hn & Hb).
    exists [], cands, a, b. repeat split; auto.
  - intros H. destruct (IH H) as (pre & post & a & b & -> & Hpre & Hn & Hb).
    exists (cand :: pre), post, a, b. repeat split; auto.
    intros c Hin [E|Hp]; [|now apply (Hpre c)].
    now apply (lower_map_none _ _ Hc c Hin).
Qed.

Lemma detect_in_map_none (names cands : list string) :
  detect_in_map (lower_map names) cands = None <->
  forall c, In c names -> ~ In (lower c) cands.
Proof.
  induction cands as [|cand cands IH]; simpl.
  - split; [intros _ c _ [] | reflexivity].
  - destruct (sdict_get (lower_map names) cand) as [c|] eqn:Hc.
    + split; [discriminate|]. intros H. exfalso.
      apply lower_map_some in Hc as (Hl & a & b & -> & _).
      apply (H c); [apply in_elt | now left].
    + rewrite IH. split.
      * intros H c Hin [E|Hp]; [|now apply (H c)].
        now apply (lower_map_none _ _ Hc c Hin).
      * intros H c Hin Hp. apply (H c Hin). now right.
Qed.

Lemma mem_lowered (names : list string) (k : string) :
  mem k (map lower names) = true <-> exists c, In c names /\ lower c = k.
Proof.
  unfold mem. rewrite existsb_exists. split.
  - intros (y & Hy & E). apply String.eqb_eq in E. subst y.
    apply in_map_iff in Hy as (c & Hc & Hin). eauto.
  - intros (c & Hin & <-). exists (lower c).
    split; [now apply in_map | apply String.eqb_refl].
Qed.

(** Lines 62-65 when only the first label lowers to a candidate. *)
Lemma detect_in_columns_head (label : string) (names cands : list string) :
  (forall c, In c names -> ~ In (lower c) cands) ->
  detect_in_columns (label :: names) cands
  = if mem (lower label) cands then Some label else None.
Proof.
  intros Hno. induction cands as [|cand cands IH]; [reflexivity|].
  cbn [detect_in_columns].
  assert (Hno' : forall c, In c names -> ~ In (lower c) cands)
    by (intros c Hin Hp; apply (Hno c Hin); now right).
  destruct (mem cand (map lower (label :: names))) eqn:Hm.
  - apply mem_lowered in Hm as (c & [<-|Hin] & Hc).
    + cbn [filter]. rewrite Hc, String.eqb_refl. cbn [hd_error].
      unfold mem. cbn [existsb]. now rewrite String.eqb_refl.
    + exfalso. apply (Hno c Hin). now left.
  - rewrite (IH Hno'). unfold mem. cbn [existsb].
    destruct (String.eqb (lower label) cand) eqn:E; [|reflexivity].
    apply String.eqb_eq in E.
    assert (Ht : mem cand (map lower (label :: names)) = true)
      by (apply mem_lowered; exists label; split; [now left | exact E]).
    congruence.
Qed.

(** X16. When some column label of the payload lowercases to one of
    datetime, time, 时间, date, the payload itself is used, and the time
    column is chosen by priority of the candidate, not by position: no
    column lowercases to an earlier candidate, and among the columns that
    lowercase to the chosen candidate it is the last one. *)
Theorem time_column_by_candidate_priority (df : DataFrame) :
  (exists c, In c (columns df) /\ In (lower c) candidates) ->
  exists col pre post a b,
    detect_datetime_col df = Some (df, col)
    /\ candidates = pre ++ lower col :: post
    /\ (forall c, In c (columns df) -> ~ In (lower c) pre)
    /\ columns df = a ++ col :: b
    /\ (forall c, In c b -> lower c <> lower col).
Proof.
  intros (c & Hin & Hc). unfold detect_datetime_col.
  destruct (detect_in_map (lower_map (columns df)) candidates) as [col|] eqn:Hd.
  - destruct (detect_in_map_some _ _ _ Hd) as (pre & post & a & b & H).
    exists col, pre, post, a, b. split; [reflexivity | exact H].
  - exfalso. rewrite detect_in_map_none in Hd. now apply (Hd c).
Qed.

(** X17. When no column label lowercases to a candidate, the time column
    can only be the index: it is brought in as first column under its name
    when that name lowercases to a candidate, and a payload whose index has
    no name, or another name, is given up. *)
Theorem time_column_from_index_only (df : DataFrame) :
  (forall c, In c (columns df) -> ~ In (lower c) candidates) ->
  detect_datetime_col df
  = match index_name df with
    | Some name =>
        if mem (lower name) candidates
        then Some (mkDataFrame None (name :: columns df)
                     (range_index (map (fun r => fst r :: snd r) (rows df))),
                   name)
        else None
    | None => None
    end.
Proof.
  intros Hno. unfold detect_datetime_col.
  replace (detect_in_map (lower_map (columns df)) candidates) with (@None string)
    by (symmetry; now apply detect_in_map_none).
  unfold reset_index.
  destruct (index_name df) as [name|].
  - destruct (mem name (columns df)) eqn:Hm.
    + apply mem_In in Hm.
      destruct (mem (lower name) candidates) eqn:Hc; [|reflexivity].
      apply mem_In in Hc. now apply Hno in Hm.
    + cbn [columns]. rewrite (detect_in_columns_head _ _ _ Hno).
      now destruct (mem (lower name) candidates).
  - set (label := if mem "index" (columns df) then "level_0" else "index").
    destruct (mem label (columns df)); [reflexivity|].
    cbn [columns]. rewrite (detect_in_columns_head _ _ _ Hno).
    subst label. now destruct (mem "index" (columns df)).
Qed.

End FeedDetect.

Local Open Scope list_scope.

Lemma time_column_by_candidate_priority_witness :
  exists col pre post a b,
    detect_datetime_col priced_payload = Some (priced_payload, col)
    /\ candidates = pre ++ lower col :: post
    /\ (forall c, In c (columns priced_payload) -> ~ In (lower c) pre)
    /\ columns priced_payload = a ++ col :: b
    /\ (forall c, In c b -> lower c <> lower col).
Proof.
  apply (time_column_by_candidate_priority priced_payload).
  exists "时间"%string. split; [simpl; auto | simpl; auto].
Defined.

Lemma time_column_from_index_only_witness :
  detect_datetime_col (mkDataFrame (Some "Time"%string) ["price"%string] [])
  = Some (mkDataFrame None ["Time"%string; "price"%string] [], "Time"%string).
Proof.
  apply (time_column_from_index_only
           (mkDataFrame (Some "Time"%string) ["price"%string] [])).
  intros c [<-|[]]. simpl. intros H.
  repeat destruct H as [H|H]; try discriminate H. exact H.
Defined.

(** * The column mapping (lines 110-135) *)

Import py pd download_akshare_minute feed_aux feed_more_aux.

Section FeedMapping.
Local Open Scope string_scope.
Local Open Scope list_scope.

Lemma sdict_get_if {V : Type} (b : bool) (d : list (string * V))
    (k c : string) (v : V) :
  sdict_get (if b then sdict_set d k v else d) c
  = if String.eqb c k && b then Some v else sdict_get d c.
Proof.
  destruct b; [rewrite sdict_get_set | rewrite andb_false_r; reflexivity].
  now rewrite andb_true_r.
Qed.

Lemma sdict_set_entries (P : string -> string -> Prop) (b : bool)
    (d : list (string * string)) (k v : string) :
  P k v -> (forall k' v', sdict_get d k' = Some v' -> P k' v') ->
  forall k' v', sdict_get (if b then sdict_set d k v else d) k' = Some v' ->
                P k' v'.
Proof.
  intros Hv Hd k' v'. rewrite sdict_get_if.
  destruct (String.eqb k' k) eqn:E; [|apply Hd].
  destruct b; [|apply Hd]. apply String.eqb_eq in E. subst k'.
  now intros [= <-].
Qed.

Lemma ohlcv_cases (P : string -> Prop) :
  P "open" -> P "high" -> P "low" -> P "close" -> P "volume" ->
  forall v, In v ohlcv -> P v.
Proof.
  intros H1 H2 H3 H4 H5 v Hin. simpl in Hin.
  destruct Hin as [<-|[<-|[<-|[<-|[<-|[]]]]]]; assumption.
Qed.

Lemma lower_ohlcv (v : string) : In v ohlcv -> lower v = v.
Proof. revert v. apply ohlcv_cases; reflexivity. Qed.

Lemma lower_capitalize_ohlcv (v : string) :
  In v ohlcv -> lower (capitalize v) = v.
Proof. revert v. apply ohlcv_cases; reflexivity. Qed.

Lemma lower_chinese_label (v w : string) :
  In v ohlcv -> In w ohlcv -> lower (chinese_label v) <> w.
Proof.
  intros Hv Hw. simpl in Hv, Hw.
  repeat (destruct Hv as [<-|Hv];
          [repeat (destruct Hw as [<-|Hw];
                   [intros E; vm_compute in E; discriminate E|]);
           destruct Hw|]).
  destruct Hv.
Qed.

(** Lines 110-128: the renaming dict, and the columns it gives. *)
Lemma rename_map_spec (df : DataFrame) :
  exists m : list (string * string),
    columns (rename_chinese_and_capitalized df)
    = map (fun c => match sdict_get m c with
                    | Some c' => c'
                    | None => c
                    end) (columns df)
    /\ (forall c v, sdict_get m c = Some v ->
          In v ohlcv /\ (c = chinese_label v \/ c = capitalize v))
    /\ (forall v, In v ohlcv -> mem (chinese_label v) (columns df) = true ->
          sdict_get m (chinese_label v) = Some v)
    /\ (forall v, In v ohlcv -> mem v (columns df) = false ->
          mem (capitalize v) (columns df) = true ->
          sdict_get m (capitalize v) = Some v).
Proof.
  unfold rename_chinese_and_capitalized.
  match goal with
  | |- context [match ?m with [] => df | _ :: _ => rename df ?m' end] =>
      exists m; set (rename_map := m)
  end.
  split; [|split; [|split]].
  - destruct rename_map eqn:Em; [|reflexivity].
    cbn [sdict_get]. now rewrite map_id.
  - subst rename_map. cbn [fold_left ohlcv].
    repeat (apply (sdict_set_entries
                     (fun k v => In v ohlcv
                                 /\ (k = chinese_label v \/ k = capitalize v)));
            [split; [simpl; auto 10 | vm_compute; auto]|]).
    intros c v. discriminate.
  - subst rename_map. cbn [fold_left ohlcv].
    apply (ohlcv_cases
             (fun v => mem (chinese_label v) (columns df) = true -> _));
      intros H; vm_compute (chinese_label _) in H |- *;
      rewrite !sdict_get_if, H; reflexivity.
  - subst rename_map. cbn [fold_left ohlcv].
    apply (ohlcv_cases
             (fun v => mem v (columns df) = false ->
                       mem (capitalize v) (columns df) = true -> _));
      intros Hv Hc; vm_compute (capitalize _) in Hc |- *;
      rewrite !sdict_get_if, Hv, Hc; reflexivity.
Qed.

Lemma relabelled_rename (cur names : list string) (c w : string) :
  lower c = w -> lower w = w ->
  Forall2 relabelled cur names ->
  Forall2 relabelled
    (map (fun a => match sdict_get [(c, w)] a with
                   | Some a' => a'
                   | None => a
                   end) cur) names.
Proof.
  intros Hc Hw. induction 1 as [|a b cur names Hab _ IH]; simpl;
    constructor; [|exact IH].
  destruct (String.eqb a c) eqn:E; [|exact Hab].
  apply String.eqb_eq in E. subst a. right. split; [|exact Hw].
  destruct Hab as [->|[Ha Hl]]; [now symmetry|]. congruence.
Qed.

Lemma relabelled_from (cur names : list string) (c : string) :
  Forall2 relabelled cur names -> In c names ->
  In c cur \/ In (lower c) cur.
Proof.
  induction 1 as [|a b cur names Hab _ IH]; simpl; [intros []|].
  intros [<-|Hin].
  - destruct Hab as [->|[-> _]]; auto.
  - destruct (IH Hin); auto.
Qed.

Lemma relabelled_to (cur names : list string) (a : string) :
  Forall2 relabelled cur names -> In a cur ->
  exists b, In b names /\ lower b = lower a.
Proof.
  induction 1 as [|a' b cur names Hab _ IH]; simpl; [intros []|].
  intros [<-|Hin].
  - exists b. split; [now left|].
    destruct Hab as [->|[Ha Hl]]; [reflexivity|]. congruence.
  - destruct (IH Hin) as (b' & Hb & E). exists b'. auto.
Qed.

Lemma Forall2_relabelled_refl (names : list string) :
  Forall2 relabelled names names.
Proof. induction names; constructor; [now left | assumption]. Qed.

(** Lines 130-135, for any list of wanted names. *)
Lemma lowercase_matches_spec (names : list string)
    (lowermap : list (string * string)) (wants : list string) :
  (forall w c, sdict_get lowermap w = Some c -> lower c = w /\ In c names) ->
  (forall w, sdict_get lowermap w = None ->
             forall c, In c names -> lower c <> w) ->
  (forall w, In w wants -> lower w = w) -> NoDup wants ->
  forall cur : DataFrame,
    Forall2 relabelled (columns cur) names ->
    let out :=
      fold_left (fun df want =>
                   if negb (mem want (columns df))
                   then match sdict_get lowermap want with
                        | Some c => rename df [(c, want)]
                        | None => df
                        end
                   else df) wants cur in
    Forall2 relabelled (columns out) names
    /\ (forall w, In w wants -> (exists c, In c names /\ lower c = w) ->
                  mem w (columns out) = true)
    /\ (forall x, lower x = x -> ~ In x wants ->
                  mem x (columns cur) = true -> mem x (columns out) = true).
Proof.
  intros Hsome Hnone.
  induction wants as [|w wants IH]; intros Hlow Hnd cur Hcur; cbn zeta.
  - cbn [fold_left]. split; [exact Hcur|]. split; [intros w []|auto].
  - apply NoDup_cons_iff in Hnd as [Hw Hnd].
    assert (Hlow' : forall w', In w' wants -> lower w' = w')
      by (intros w' Hin; apply Hlow; now right).
    assert (Hww : lower w = w) by (apply Hlow; now left).
    cbn [fold_left].
    set (cur' := if negb (mem w (columns cur))
                 then match sdict_get lowermap w with
                      | Some c => rename cur [(c, w)]
                      | None => cur
                      end
                 else cur).
    assert (Hcur' : Forall2 relabelled (columns cur') names).
    { subst cur'. destruct (negb (mem w (columns cur))); [|exact Hcur].
      destruct (sdict_get lowermap w) as [c|] eqn:Hc; [|exact Hcur].
      unfold rename. cbn [columns].
      apply relabelled_rename; [now apply Hsome in Hc | exact Hww | exact Hcur]. }
    assert (Hkeep : forall x, lower x = x -> x <> w ->
                      mem x (columns cur) = true ->
                      mem x (columns cur') = true).
    { intros x Hx Hxw Hm. subst cur'.
      destruct (negb (mem w (columns cur))); [|exact Hm].
      destruct (sdict_get lowermap w) as [c|] eqn:Hc; [|exact Hm].
      apply rename_keeps; [|exact Hm]. cbn [sdict_get].
      destruct (String.eqb x c) eqn:E; [|reflexivity].
      apply String.eqb_eq in E. subst c. apply Hsome in Hc as [Hc _].
      congruence. }
    assert (Hdone : (exists c, In c names /\ lower c = w) ->
                    mem w (columns cur') = true).
    { intros (c & Hin & Hc). subst cur'.
      destruct (mem w (columns cur)) eqn:Hm; [exact Hm|]. cbn [negb].
      destruct (sdict_get lowermap w) as [c'|] eqn:Hc'.
      - apply Hsome in Hc' as [Hl Hin'].
        destruct (relabelled_from _ _ _ Hcur Hin') as [H|H].
        + unfold rename. cbn [columns]. apply mem_In, in_map_iff.
          exists c'. split; [|exact H]. cbn [sdict_get].
          now rewrite String.eqb_refl.
        + rewrite Hl in H. apply mem_In in H. congruence.
      - exfalso. now apply (Hnone w Hc' c). }
    destruct (IH Hlow' Hnd cur' Hcur') as (H1 & H2 & H3).
    split; [exact H1|]. split.
    + intros w' [<-|Hin] Hex.
      * apply H3; auto.
      * now apply H2.
    + intros x Hx Hnot Hm. apply H3; [exact Hx | |].
      * intros Hin. apply Hnot. now right.
      * apply Hkeep; [exact Hx | | exact Hm].
        intros ->. apply Hnot. now left.
Qed.

(** X18. After the column mapping a canonical name is a column exactly when
    the payload has the local-market label of that name, or a label that
    lowercases to it. *)
Theorem canonical_name_after_mapping (df : DataFrame) (want : string) :
  In want ohlcv ->
  (mem want (columns (map_columns df)) = true <->
   mem (chinese_label want) (columns df) = true
   \/ exists c, In c (columns df) /\ lower c = want).
Proof.
  intros Hwant. unfold map_columns.
  destruct (rename_map_spec df) as (m & Hcols & Hkeys & Hzh & Hcap).
  set (df1 := rename_chinese_and_capitalized df) in *.
  assert (Hspec := lowercase_matches_spec (columns df1)
                     (lower_map (columns df1)) ohlcv).
  destruct Hspec with (cur := df1) as (H1 & H2 & _).
  { intros w c Hc. apply lower_map_some in Hc as (Hl & a & b & -> & _).
    split; [exact Hl | apply in_elt]. }
  { intros w. apply lower_map_none. }
  { apply lower_ohlcv. }
  { unfold ohlcv. repeat (constructor; [simpl; intuition discriminate|]).
    constructor. }
  { apply Forall2_relabelled_refl. }
  fold (rename_lowercase_matches df1) in H1, H2.
  split.
  - intros Hm. apply mem_In in Hm.
    destruct (relabelled_to _ _ _ H1 Hm) as (b & Hb & E).
    rewrite (lower_ohlcv want Hwant) in E.
    rewrite Hcols in Hb. apply in_map_iff in Hb as (c & Hc & Hin).
    destruct (sdict_get m c) as [v|] eqn:Hv.
    + subst b. apply Hkeys in Hv as [Hv Hk].
      rewrite (lower_ohlcv v Hv) in E. subst v.
      destruct Hk as [->| ->].
      * left. apply mem_In. exact Hin.
      * right. exists (capitalize want).
        split; [exact Hin | apply lower_capitalize_ohlcv; exact Hwant].
    + subst b. right. exists c. split; assumption.
  - intros H. apply H2; [exact Hwant|].
    rewrite Hcols.
    destruct H as [Hm|(c & Hin & Hc)].
    + exists want. split; [|apply lower_ohlcv; exact Hwant].
      apply in_map_iff. exists (chinese_label want).
      rewrite (Hzh want Hwant Hm). split; [reflexivity | apply mem_In; exact Hm].
    + destruct (sdict_get m c) as [v|] eqn:Hv.
      * exists v. pose proof Hv as Hv'. apply Hkeys in Hv' as [Hv' Hk].
        split; [apply in_map_iff; exists c; rewrite Hv; auto|].
        rewrite (lower_ohlcv v Hv').
        destruct Hk as [->| ->].
        -- exfalso. exact (lower_chinese_label v want Hv' Hwant Hc).
        -- rewrite lower_capitalize_ohlcv in Hc by exact Hv'. exact Hc.
      * exists c. split; [|exact Hc].
        apply in_map_iff. exists c. rewrite Hv. auto.
Qed.

End FeedMapping.

Lemma canonical_name_after_mapping_witness :
  mem "close" (columns (map_columns priced_payload)) = true <->
  mem (chinese_label "close") (columns priced_payload) = true
  \/ exists c, In c (columns priced_payload) /\ lower c = "close"%string.
Proof.
  apply (canonical_name_after_mapping priced_payload "close").
  simpl. auto.
Defined.

(** * Properties of the cleaning script *)

Import py pd pd_frame prepare_minute_csv prepare_aux.

Section PrepareFacts.
Local Open Scope string_scope.
Local Open Scope list_scope.

Variable to_datetime : list cell -> result (list cell).

(** ** Filling a column *)

Lemma ffill_values_length (last : option cell) (col : list cell) :
  List.length (ffill_values last col) = List.length col.
Proof.
  revert last. induction col as [|c col IH]; intros last; simpl;
    [reflexivity|].
  destruct (isna c); simpl; now rewrite IH.
Qed.

Lemma bfill_values_length (col : list cell) :
  List.length (bfill_values col) = List.length col.
Proof.
  unfold bfill_values. now rewrite length_rev, ffill_values_length, length_rev.
Qed.

Lemma ffill_from_value (v : cell) (col : list cell) :
  isna v = false ->
  Forall (fun c => isna c = false) (ffill_values (Some v) col).
Proof.
  revert v. induction col as [|c col IH]; intros v Hv; simpl;
    [constructor|].
  destruct (isna c) eqn:E; constructor; auto.
Qed.

Lemma ffill_all_missing (col : list cell) :
  Forall (fun c => isna c = true) col -> ffill_values None col = col.
Proof.
  induction 1 as [|c col Hc _ IH]; simpl; [reflexivity|].
  now rewrite Hc, IH.
Qed.

(** After a forward fill the missing values are at the front. *)
Lemma ffill_shape (col : list cell) :
  exists nas rest,
    ffill_values None col = nas ++ rest
    /\ Forall (fun c => isna c = true) nas
    /\ Forall (fun c => isna c = false) rest.
Proof.
  induction col as [|c col (nas & rest & E & Hn & Hr)]; simpl.
  - exists [], []. auto.
  - destruct (isna c) eqn:Hc.
    + exists (c :: nas), rest. rewrite E. auto.
    + exists [], (c :: ffill_values (Some c) col).
      repeat split; auto. constructor; [exact Hc|].
      now apply ffill_from_value.
Qed.

(** Forward fill then backward fill leaves a column without missing
    values, or with nothing else. *)
Lemma fill_all_or_nothing (col : list cell) :
  Forall (fun c => isna c = false) (bfill_values (ffill_values None col))
  \/ Forall (fun c => isna c = true) (bfill_values (ffill_values None col)).
Proof.
  destruct (ffill_shape col) as (nas & rest & -> & Hn & Hr).
  unfold bfill_values. rewrite rev_app_distr.
  destruct (rev rest) as [|c l] eqn:E.
  - right. cbn [app]. rewrite ffill_all_missing by now apply Forall_rev.
    now rewrite rev_involutive.
  - left. cbn [app ffill_values].
    assert (Hc : isna c = false).
    { rewrite Forall_forall in Hr. apply Hr. apply in_rev.
      rewrite E. now left. }
    rewrite Hc. apply Forall_rev. constructor; [exact Hc|].
    now apply ffill_from_value.
Qed.

(** ** Columns of a frame *)

Lemma map_values_combine {A B C : Type} (f : B -> C) (a : list A) (b : list B) :
  List.length a = List.length b ->
  map (fun r => f (snd r)) (combine a b) = map f b.
Proof.
  revert b. induction a as [|x a IH]; intros [|y b]; simpl;
    try discriminate; [reflexivity|].
  intros [= H]. now rewrite IH.
Qed.

Lemma map_nth_seq (l : list cell) (d : cell) :
  map (fun i => nth i l d) (seq 0 (List.length l)) = l.
Proof.
  induction l as [|x l IH]; simpl; [reflexivity|].
  now rewrite <- seq_shift, map_map, IH.
Qed.

Lemma nth_map_nth (cols : list (list cell)) (i k : nat) :
  nth k (map (fun col => nth i col NaN) cols) NaN
  = nth i (nth k cols []) NaN.
Proof.
  revert k. induction cols as [|col cols IH]; intros [|k]; simpl; auto;
    destruct i; reflexivity.
Qed.

Lemma column_of_columns (name : option string) (labels : list string)
    (index : list cell) (cols : list (list cell)) (k : nat) :
  List.length (nth k cols []) = List.length index ->
  column k (of_columns name labels index cols) = nth k cols [].
Proof.
  intros Hl. unfold column, of_columns. cbn [rows].
  rewrite map_values_combine by now rewrite length_map, length_seq.
  rewrite map_map. rewrite <- Hl.
  rewrite <- (map_nth_seq (nth k cols []) NaN) at 2.
  apply map_ext. intros i. unfold cell_at. apply nth_map_nth.
Qed.

Lemma of_columns_length (name : option string) (labels : list string)
    (index : list cell) (cols : list (list cell)) :
  List.length (rows (of_columns name labels index cols)) = List.length index.
Proof.
  unfold of_columns. cbn [rows].
  rewrite length_combine, length_map, length_seq. apply Nat.min_id.
Qed.

Lemma apply_columns_length (f : list cell -> list cell) (df : DataFrame) :
  List.length (rows (apply_columns f df)) = List.length (rows df).
Proof. unfold apply_columns. now rewrite of_columns_length, length_map. Qed.

Lemma column_length (k : nat) (df : DataFrame) :
  List.length (column k df) = List.length (rows df).
Proof. apply length_map. Qed.

Lemma apply_columns_column (f : list cell -> list cell) (df : DataFrame)
    (k : nat) :
  (forall col, List.length (f col) = List.length col) ->
  (k < List.length (columns df))%nat ->
  column k (apply_columns f df) = f (column k df).
Proof.
  intros Hf Hk. unfold apply_columns.
  assert (E : nth k (map (fun k => f (column k df))
                       (seq 0 (List.length (columns df)))) []
              = f (column k df)).
  { rewrite (nth_indep _ [] (f (column 0 df)))
      by now rewrite length_map, length_seq.
    rewrite (map_nth (fun k => f (column k df))). now rewrite seq_nth. }
  rewrite column_of_columns; rewrite E; [reflexivity|].
  now rewrite Hf, column_length, length_map.
Qed.

Lemma forallb_false {A : Type} (p : A -> bool) (l : list A) :
  forallb p l = false -> exists x, In x l /\ p x = false.
Proof.
  induction l as [|x l IH]; simpl; [discriminate|].
  destruct (p x) eqn:E; [|eauto].
  intros H. destruct (IH H) as (y & Hy & Hp). eauto.
Qed.

Lemma filter_none {A : Type} (p : A -> bool) (l : list A) :
  (forall x, In x l -> p x = false) -> filter p l = [].
Proof.
  induction l as [|x l IH]; intros H; simpl; [reflexivity|].
  rewrite (H x) by now left. apply IH. intros y Hy. apply H. now right.
Qed.

Lemma filter_all {A : Type} (p : A -> bool) (l : list A) :
  (forall x, In x l -> p x = true) -> filter p l = l.
Proof.
  induction l as [|x l IH]; intros H; simpl; [reflexivity|].
  rewrite (H x) by now left. f_equal. apply IH. intros y Hy. apply H.
  now right.
Qed.

(** Line 38: every row survives, or none does. *)
Lemma fill_then_drop (df : DataFrame) :
  rows (dropna_any (bfill (ffill df))) = []
  \/ List.length (rows (dropna_any (bfill (ffill df))))
     = List.length (rows df).
Proof.
  set (filled := bfill (ffill df)).
  assert (Hcol : forall k, (k < List.length (columns df))%nat ->
            column k filled
            = bfill_values (ffill_values None (column k df))).
  { intros k Hk. subst filled. unfold bfill, ffill.
    rewrite apply_columns_column;
      [|apply bfill_values_length | exact Hk].
    rewrite apply_columns_column;
      [reflexivity | apply ffill_values_length | exact Hk]. }
  assert (Hlen : List.length (rows filled) = List.length (rows df)).
  { subst filled. unfold bfill, ffill. now rewrite !apply_columns_length. }
  unfold dropna_any. cbn [rows].
  change (columns filled) with (columns df).
  destruct (forallb (fun k => forallb (fun c => negb (isna c)) (column k filled))
              (seq 0 (List.length (columns df)))) eqn:Hall.
  - right. rewrite filter_all; [exact Hlen|].
    intros r Hr. apply forallb_forall. intros k Hk.
    rewrite forallb_forall in Hall. specialize (Hall k Hk).
    rewrite forallb_forall in Hall. apply Hall.
    unfold column. apply in_map_iff. eauto.
  - left. apply filter_none. intros r Hr.
    apply forallb_false in Hall as (k & Hk & Hbad).
    apply in_seq in Hk. destruct Hk as [_ Hk]. cbn in Hk.
    assert (Hna : Forall (fun c => isna c = true) (column k filled)).
    { rewrite (Hcol k Hk) in *.
      destruct (fill_all_or_nothing (column k df)) as [H|H]; [|exact H].
      exfalso. apply forallb_false in Hbad as (c & Hc & Hn).
      rewrite Forall_forall in H. rewrite (H c Hc) in Hn. discriminate. }
    destruct (forallb _ (seq 0 _)) eqn:Hrow; [|reflexivity]. exfalso.
    rewrite forallb_forall in Hrow.
    specialize (Hrow k). rewrite in_seq in Hrow.
    assert (Hc : isna (cell_at k (snd r)) = true).
    { rewrite Forall_forall in Hna. apply Hna.
      unfold column. apply in_map_iff. eauto. }
    rewrite Hc in Hrow. cbn in Hrow.
    assert (false = true) by (apply Hrow; lia). discriminate.
Qed.

(** ** The pipeline *)

Lemma filter_head {A : Type} (p : A -> bool) (l rest : list A) (x : A) :
  filter p l = x :: rest ->
  exists a b, l = a ++ x :: b
              /\ (forall y, In y a -> p y = false) /\ p x = true.
Proof.
  induction l as [|y l IH]; simpl; [discriminate|].
  destruct (p y) eqn:E.
  - intros [= -> _]. exists [], l. repeat split; auto. intros z [].
  - intros H. destruct (IH H) as (a & b & -> & Ha & Hx).
    exists (y :: a), b. repeat split; auto.
    intros z [<-|Hz]; auto.
Qed.

Lemma remove_nth_incl {A : Type} (k : nat) (l : list A) (x : A) :
  In x (remove_nth k l) -> In x l.
Proof.
  revert k. induction l as [|y l IH]; intros [|k]; simpl; auto.
  intros [<-|H]; eauto.
Qed.

Lemma In_labels (names labels : list string) (c : string) :
  In c (flat_map (fun c => map (fun _ => c) (positions_of c names 0)) labels) ->
  In c labels.
Proof.
  intros H. apply in_flat_map in H as (x & Hx & Hc).
  apply in_map_iff in Hc as (_ & <- & _). exact Hx.
Qed.

(** What a run of [normalize_csv] that returns went through. *)
Lemma normalize_csv_inv (df out : DataFrame) :
  normalize_csv to_datetime df = Ok out ->
  exists dt_col more k names sel,
    dt_candidates df = dt_col :: more
    /\ index_of dt_col (columns df) = Some k
    /\ names = remove_nth k (columns df)
    /\ index_name sel = Some dt_col
    /\ List.length (rows sel) = List.length (rows df)
    /\ (forall c, In c (columns sel) ->
          In c ohlcv
          /\ In c (map (fun c => match sdict_get (rename_map names) c with
                                 | Some c' => c'
                                 | None => c
                                 end) names))
    /\ out = dropna_any (bfill (ffill sel)).
Proof.
  unfold normalize_csv.
  destruct (dt_candidates df) as [|dt_col more] eqn:Hd; [discriminate|].
  destruct (getcol df dt_col) as [col|] eqn:Hg; [|discriminate].
  destruct (to_datetime col) as [parsed|]; [|discriminate].
  destruct (setitem df dt_col parsed) as [df1|] eqn:Hs; [|discriminate].
  unfold getcol in Hg.
  destruct (index_of dt_col (columns df)) as [k|] eqn:Hk; [|discriminate].
  destruct (setitem_shape _ _ _ _ _ Hk Hs) as [Hc1 Hr1].
  unfold set_index. rewrite Hc1, Hk.
  match goal with
  | |- context [sort_index ?d] => set (sorted := sort_index d)
  end.
  assert (Hsc : columns sorted = remove_nth k (columns df)) by reflexivity.
  assert (Hsi : index_name sorted = Some dt_col) by reflexivity.
  assert (Hsr : List.length (rows sorted) = List.length (rows df)).
  { subst sorted. rewrite sort_index_length. cbn [rows].
    now rewrite length_map. }
  clearbody sorted.
  set (names := remove_nth k (columns df)) in *.
  rewrite Hsc.
  set (renamed := match rename_map names with
                  | [] => sorted
                  | _ :: _ => rename sorted (rename_map names)
                  end).
  assert (Hrc : columns renamed
                = map (fun c => match sdict_get (rename_map names) c with
                                | Some c' => c'
                                | None => c
                                end) names).
  { subst renamed. destruct (rename_map names) eqn:Em.
    - cbn [sdict_get]. now rewrite map_id.
    - unfold rename. cbn [columns]. now rewrite Hsc. }
  assert (Hri : index_name renamed = Some dt_col)
    by (subst renamed; now destruct (rename_map names)).
  assert (Hrr : rows renamed = rows sorted)
    by (subst renamed; now destruct (rename_map names)).
  clearbody renamed.
  unfold getitem_labels.
  destruct (forallb _ _); [|discriminate].
  match goal with
  | |- Ok (dropna_any (bfill (ffill ?s))) = Ok out -> _ => set (sel := s)
  end.
  intros [= <-].
  exists dt_col, more, k, names, sel.
  split; [reflexivity|]. split; [exact Hk|]. split; [reflexivity|].
  split; [exact Hri|]. split; [|split; [|reflexivity]].
  - subst sel. cbn [rows]. now rewrite length_map, Hrr.
  - intros c H. subst sel. cbn [columns] in H. apply In_labels in H.
    apply filter_In in H. destruct H as [Hin H]. split; [exact Hin|].
    apply mem_In in H. now rewrite <- Hrc.
Qed.

(** X19. Forward fill, backward fill, then the drop of incomplete rows is
    all or nothing: the file the cleaning script writes has as many rows as
    the file it read, or no row at all (when some kept column is empty). *)
Theorem cleaning_keeps_all_rows_or_none (df out : DataFrame) :
  normalize_csv to_datetime df = Ok out ->
  rows out = [] \/ List.length (rows out) = List.length (rows df).
Proof.
  intros H.
  apply normalize_csv_inv in H
    as (dt_col & more & k & names & sel & _ & _ & _ & _ & Hr & _ & ->).
  rewrite <- Hr. apply fill_then_drop.
Qed.

Lemma cols_lower_some (names : list string) (k c : string) :
  sdict_get (cols_lower names) k = Some c -> In c names /\ lower c = k.
Proof.
  intros H. change (cols_lower names) with
    (download_akshare_minute.lower_map names) in H.
  apply lower_map_some in H as (Hl & a & b & -> & _).
  split; [apply in_elt | exact Hl].
Qed.

(** X20. The translation of local-market labels hangs on the opening
    price: when no column reads 开盘 and none lowercases to 开盘价, no other
    local-market label is translated either, and every column of the
    written file was in the file read under its own name or capitalised. *)
Theorem no_translation_without_opening_label (df out : DataFrame) :
  mem "开盘" (columns df) = false ->
  (forall c, In c (columns df) -> lower c <> "开盘价") ->
  normalize_csv to_datetime df = Ok out ->
  forall c, In c (columns out) ->
            In c (columns df) \/ In (capitalize c) (columns df).
Proof.
  intros Hopen Hprice H c Hc.
  apply normalize_csv_inv in H
    as (dt_col & more & k & names & sel & _ & _ & Hn & _ & _ & Hsel & ->).
  change (columns (dropna_any (bfill (ffill sel)))) with (columns sel) in Hc.
  apply Hsel in Hc as [_ Hc].
  assert (Hsub : forall x, In x names -> In x (columns df))
    by (intros x; rewrite Hn; apply remove_nth_incl).
  assert (Hgate :
    (mem "开盘" names
     || match sdict_get (cols_lower names) "开盘价" with
        | Some _ => true
        | None => false
        end)%bool = false).
  { apply orb_false_iff. split.
    - destruct (mem "开盘" names) eqn:E; [|reflexivity].
      apply mem_In, Hsub, mem_In in E. congruence.
    - destruct (sdict_get (cols_lower names) "开盘价") as [x|] eqn:E;
        [|reflexivity].
      apply cols_lower_some in E as [Hin Hl].
      exfalso. exact (Hprice x (Hsub x Hin) Hl). }
  assert (Hkeys : forall x v, sdict_get (rename_map names) x = Some v ->
                              x = capitalize v).
  { unfold rename_map. rewrite Hgate. cbn [fold_left ohlcv].
    repeat (apply (sdict_set_entries (fun x v => x = capitalize v));
            [reflexivity|]).
    intros x v. discriminate. }
  apply in_map_iff in Hc as (x & Hx & Hin).
  destruct (sdict_get (rename_map names) x) as [v|] eqn:Hv.
  - subst v. right. apply Hkeys in Hv. subst x. auto.
  - subst x. left. auto.
Qed.

(** X21. The index of the written file is the first column, by position,
    whose lowercased label is one of datetime, time, 日期, 时间, date; it
    keeps that label as its name, and the columns written are canonical
    names only. *)
Theorem cleaned_index_is_first_time_column (df out : DataFrame) :
  normalize_csv to_datetime df = Ok out ->
  exists a c b,
    columns df = a ++ c :: b
    /\ (forall x, In x a -> ~ In (lower x) dt_names)
    /\ In (lower c) dt_names
    /\ index_name out = Some c
    /\ (forall x, In x (columns out) -> In x ohlcv).
Proof.
  intros H.
  apply normalize_csv_inv in H
    as (dt_col & more & k & names & sel & Hd & _ & _ & Hi & _ & Hsel & ->).
  unfold dt_candidates in Hd.
  apply filter_head in Hd as (a & b & Hcols & Ha & Hc).
  exists a, dt_col, b. split; [exact Hcols|]. split; [|split; [|split]].
  - intros x Hx Hin. apply mem_In in Hin. rewrite (Ha x Hx) in Hin.
    discriminate.
  - apply mem_In. exact Hc.
  - exact Hi.
  - intros x Hx. apply (Hsel x Hx).
Qed.

End PrepareFacts.

Local Open Scope list_scope.

Lemma cleaning_keeps_all_rows_or_none_witness :
  normalize_csv strict_to_datetime gappy_csv = Ok gappy_clean
  /\ (rows gappy_clean = []
      \/ List.length (rows gappy_clean) = List.length (rows gappy_csv)).
Proof.
  split; [vm_compute; reflexivity|].
  apply (cleaning_keeps_all_rows_or_none strict_to_datetime gappy_csv).
  vm_compute. reflexivity.
Defined.

Lemma no_translation_without_opening_label_witness :
  normalize_csv strict_to_datetime closes_csv = Ok closes_clean
  /\ forall c, In c (columns closes_clean) ->
               In c (columns closes_csv)
               \/ In (capitalize c) (columns closes_csv).
Proof.
  split; [vm_compute; reflexivity|].
  apply (no_translation_without_opening_label strict_to_datetime closes_csv).
  - reflexivity.
  - intros c Hin E. simpl in Hin.
    repeat (destruct Hin as [<-|Hin]; [vm_compute in E; discriminate E|]).
    destruct Hin.
  - vm_compute. reflexivity.
Defined.

Lemma cleaned_index_is_first_time_column_witness :
  normalize_csv strict_to_datetime closes_csv = Ok closes_clean
  /\ exists a c b,
       columns closes_csv = a ++ c :: b
       /\ (forall x, In x a -> ~ In (lower x) dt_names)
       /\ In (lower c) dt_names
       /\ index_name closes_clean = Some c
       /\ (forall x, In x (columns closes_clean) -> In x ohlcv).
Proof.
  split; [vm_compute; reflexivity|].
  apply (cleaned_index_is_first_time_column strict_to_datetime closes_csv).
  vm_compute. reflexivity.
Defined.

(** * Properties of the loader *)

Import py pd pd_frame data_loader loader_aux.

Section LoaderFacts.
Local Open Scope string_scope.
Local Open Scope list_scope.

Variable to_datetime : list cell -> result (list cell).
Variable astype_float : list cell -> result (list cell).

Lemma getitem_head {A : Type} (x : A) (l : list A) : getitem (x :: l) 0 = Ok x.
Proof.
  unfold getitem. cbn [Z.ltb Z.compare].
  replace (len (x :: l) <=? 0)%Z with false; [reflexivity|].
  symmetry. apply Z.leb_gt. unfold len. cbn [List.length]. lia.
Qed.

Lemma positions_of_In (name : string) (names : list string) (k : nat) :
  In name names -> positions_of name names k <> [].
Proof.
  revert k. induction names as [|x names IH]; intros k; simpl; [intros []|].
  destruct (String.eqb name x) eqn:E; [discriminate|].
  intros [->|H]; [|now apply IH].
  rewrite String.eqb_refl in E. discriminate.
Qed.

Lemma astype_float_frame_shape (df out : DataFrame) :
  astype_float_frame astype_float df = Ok out ->
  index_name out = index_name df /\ columns out = columns df.
Proof.
  unfold astype_float_frame.
  destruct (convert_columns _ _); [|discriminate].
  now intros [= <-].
Qed.

(** X22. A table with no datetime and no date column (whatever the case of
    its labels) is indexed by its first column, whatever that column holds:
    the column is parsed as times, names the index, and is not among the
    columns returned, which are canonical names only. *)
Theorem loader_indexes_by_first_column (df out : DataFrame) :
  mem "datetime" (map lower (columns df)) = false ->
  mem "date" (map lower (columns df)) = false ->
  load_minute_csv to_datetime astype_float df = Ok out ->
  exists c0 rest,
    columns df = c0 :: rest
    /\ index_name out = Some (lower c0)
    /\ ~ In (lower c0) (columns out)
    /\ (forall c, In c (columns out) -> In c ohlcv).
Proof.
  intros Hdt Hd. unfold load_minute_csv. cbn [columns].
  rewrite Hdt, Hd.
  destruct (columns df) as [|c0 rest] eqn:Hcols;
    [cbn [map]; rewrite getitem_empty; discriminate|].
  cbn [map]. rewrite getitem_head.
  unfold to_datetime_of. cbn [columns positions_of].
  rewrite String.eqb_refl.
  destruct (positions_of (lower c0) (map lower rest) 1) as [|p ps] eqn:Hp;
    [|discriminate].
  cbn [List.length Nat.ltb Nat.leb].
  destruct (getcol _ _) as [col|]; [|discriminate].
  destruct (to_datetime col) as [parsed|]; [|discriminate].
  destruct (setitem _ _ parsed) as [df1|] eqn:Hs; [|discriminate].
  assert (Hc1 : columns df1 = lower c0 :: map lower rest).
  { apply (setitem_shape _ _ _ _ 0%nat) in Hs; [exact (proj1 Hs)|].
    cbn [columns index_of]. now rewrite String.eqb_refl. }
  unfold set_index. rewrite Hc1. cbn [index_of].
  rewrite String.eqb_refl. cbn [remove_nth].
  match goal with
  | |- context [sort_index ?d] => set (sorted := sort_index d)
  end.
  assert (Hsc : columns sorted = map lower rest) by reflexivity.
  assert (Hsi : index_name sorted = Some (lower c0)) by reflexivity.
  clearbody sorted.
  unfold getitem_labels. destruct (forallb _ _); [|discriminate].
  intros H. apply astype_float_frame_shape in H as [Hi Hc].
  cbn [index_name columns] in Hi, Hc.
  exists c0, rest. split; [reflexivity|]. split; [congruence|].
  assert (Hin : forall c, In c (columns out) ->
                          In c ohlcv /\ In c (map lower rest)).
  { intros c Hin. rewrite Hc in Hin. apply In_labels in Hin.
    apply filter_In in Hin as [H1 H2]. split; [exact H1|].
    apply mem_In in H2. now rewrite <- Hsc. }
  split.
  - intros Hbad. apply Hin in Hbad as [_ Hbad].
    now apply (positions_of_In _ _ 1%nat) in Hbad.
  - intros c Hc'. now apply Hin.
Qed.

End LoaderFacts.

Lemma loader_indexes_by_first_column_witness :
  load_minute_csv epoch_to_datetime sample_astype_float prices_csv
  = Ok prices_loaded
  /\ exists c0 rest,
       columns prices_csv = c0 :: rest
       /\ index_name prices_loaded = Some (lower c0)
       /\ ~ In (lower c0) (columns prices_loaded)
       /\ (forall c, In c (columns prices_loaded) -> In c ohlcv).
Proof.
  split; [vm_compute; reflexivity|].
  apply (loader_indexes_by_first_column epoch_to_datetime sample_astype_float
           prices_csv).
  - reflexivity.
  - reflexivity.
  - vm_compute. reflexivity.
Defined.

(** * Properties of the download driver *)

Import py pd download_akshare_minute download_akshare_minute_range
       calendar_aux feed_aux feed_more_aux driver_aux.

Section DriverFacts.
Local Open Scope string_scope.
Local Open Scope list_scope.

Variable repr_cell : cell -> string.
Variable to_datetime : list cell -> list cell.
Variable to_numeric : list cell -> list cell.
Variable day_plus_seconds : string -> list cell -> result (list cell).
Variable stock_zh_a_minute : nat -> string -> string -> result (option DataFrame).
Variable strftime : Z -> string.
Variable str : Z -> string.
Variable path_join : string -> string -> string.
Variable repr_set : list string -> string.

Local Abbreviation try_day' :=
  (try_day repr_cell to_datetime to_numeric day_plus_seconds
     stock_zh_a_minute strftime).
Local Abbreviation download_days' :=
  (download_days repr_cell to_datetime to_numeric day_plus_seconds
     stock_zh_a_minute strftime).
Local Abbreviation try_prefixes' :=
  (try_prefixes repr_cell to_datetime to_numeric day_plus_seconds
     stock_zh_a_minute strftime str path_join repr_set).
Local Abbreviation download' :=
  (download_minute_range_and_save repr_cell to_datetime to_numeric
     day_plus_seconds stock_zh_a_minute strftime str path_join repr_set).

(** ** The loop over the days *)

Lemma try_day_escaped (calls : nat) (sym period : string) (d : Z) (e : exn) :
  try_day' calls sym period d = Escaped e -> is_exception e = false.
Proof.
  unfold try_day.
  destruct (stock_zh_a_minute calls sym period) as [df_raw|e'].
  - destruct (parse_and_normalize_minute_df _ _ _ _ _ _) as [[df|]|e'];
      try discriminate.
    + destruct (empty df); [discriminate|].
      destruct (rows_of_day df d) as [df'|]; [|discriminate].
      destruct (empty df'); discriminate.
    + destruct (is_exception e') eqn:E; [discriminate|]. now intros [= <-].
  - destruct (is_exception e') eqn:E; [discriminate|]. now intros [= <-].
Qed.

(** The index of a frame the loop appends holds times of that day only. *)
Lemma try_day_appended (calls : nat) (sym period : string) (d : Z)
    (df : DataFrame) :
  try_day' calls sym period d = Appended df ->
  Forall (fun r => exists m, fst r = CTimestamp m /\ day_of m = d) (rows df).
Proof.
  unfold try_day.
  destruct (stock_zh_a_minute calls sym period) as [df_raw|e'];
    [|destruct (is_exception e'); discriminate].
  destruct (parse_and_normalize_minute_df _ _ _ _ _ _) as [[df0|]|e'];
    [|discriminate|destruct (is_exception e'); discriminate].
  destruct (empty df0); [discriminate|].
  unfold rows_of_day. destruct (forallb _ _); [|discriminate].
  match goal with |- context [empty ?x] => destruct (empty x) end;
    [discriminate|].
  intros [= <-]. cbn [rows]. apply Forall_forall. intros r Hr.
  apply filter_In in Hr as [_ Hr]. unfold on_day in Hr.
  destruct (fst r) as [| | | |m|]; try discriminate.
  exists m. split; [reflexivity | now apply Z.eqb_eq].
Qed.

Lemma download_days_raise (calls n : nat) (sym period : string)
    (days : list Z) (e : exn) :
  download_days' calls sym period days = (Raise e, n) ->
  is_exception e = false.
Proof.
  revert calls. induction days as [|d days IH]; intros calls; simpl;
    [discriminate|].
  destruct (try_day' calls sym period d) as [df| |e'] eqn:Ht.
  - destruct (download_days' (S calls) sym period days) as [[fs|e'] n'] eqn:Hd;
      [discriminate|].
    intros [= <- <-]. now apply (IH (S calls)).
  - apply IH.
  - intros [= <- _]. now apply try_day_escaped in Ht.
Qed.

Lemma download_days_calls (calls n : nat) (sym period : string)
    (days : list Z) (frames : list DataFrame) :
  download_days' calls sym period days = (Ok frames, n) ->
  n = (calls + List.length days)%nat.
Proof.
  revert calls frames. induction days as [|d days IH]; intros calls frames;
    simpl.
  - intros [= _ <-]. lia.
  - destruct (try_day' calls sym period d) as [df| |e'].
    + destruct (download_days' (S calls) sym period days) as [[fs|e'] n'] eqn:Hd;
        [|discriminate].
      intros [= _ <-]. apply IH in Hd. lia.
    + intros H. apply IH in H. lia.
    + discriminate.
Qed.

Lemma download_days_no_frame (calls n : nat) (sym period : string)
    (days : list Z) :
  download_days' calls sym period days = (Ok [], n) <->
  n = (calls + List.length days)%nat
  /\ forall i, (i < List.length days)%nat ->
               try_day' (calls + i) sym period (nth i days 0%Z) = Failed.
Proof.
  revert calls. induction days as [|d days IH]; intros calls; simpl.
  - split.
    + intros [= <-]. split; [lia | intros i Hi; lia].
    + intros [-> _]. now rewrite Nat.add_0_r.
  - destruct (try_day' calls sym period d) as [df| |e'] eqn:Ht.
    + split.
      * destruct (download_days' (S calls) sym period days) as [[fs|e'] n'];
          discriminate.
      * intros [_ H]. specialize (H 0%nat). rewrite Nat.add_0_r in H.
        rewrite Ht in H. assert (Appended df = Failed) by (apply H; lia).
        discriminate.
    + rewrite IH. split.
      * intros [-> H]. split; [lia|]. intros [|i] Hi.
        -- now rewrite Nat.add_0_r.
        -- replace (calls + S i)%nat with (S calls + i)%nat by lia.
           apply H. lia.
      * intros [-> H]. split; [lia|]. intros i Hi.
        replace (S calls + i)%nat with (calls + S i)%nat by lia.
        apply (H (S i)). lia.
    + split; [discriminate|].
      intros [_ H]. specialize (H 0%nat). rewrite Nat.add_0_r in H.
      rewrite Ht in H. assert (Escaped e' = Failed) by (apply H; lia).
      discriminate.
Qed.

Lemma download_days_frames (calls n : nat) (sym period : string)
    (days : list Z) (frames : list DataFrame) :
  download_days' calls sym period days = (Ok frames, n) ->
  Forall (fun df =>
            Forall (fun r => exists m, fst r = CTimestamp m
                                       /\ In (day_of m) days) (rows df))
         frames.
Proof.
  revert calls frames. induction days as [|d days IH]; intros calls frames;
    simpl.
  - intros [= <- _]. constructor.
  - assert (Hmore : forall fs,
              Forall (fun df =>
                        Forall (fun r => exists m, fst r = CTimestamp m
                                                   /\ In (day_of m) days)
                               (rows df)) fs ->
              Forall (fun df =>
                        Forall (fun r => exists m,
                                  fst r = CTimestamp m
                                  /\ (d = day_of m \/ In (day_of m) days))
                               (rows df)) fs).
    { intros fs. apply Forall_impl. intros df. apply Forall_impl.
      intros r (m & Hm & Hin). eauto. }
    destruct (try_day' calls sym period d) as [df| |e'] eqn:Ht.
    + destruct (download_days' (S calls) sym period days) as [[fs|e'] n'] eqn:Hd;
        [|discriminate].
      intros [= <- E]. subst n'.
      constructor; [|apply Hmore, (IH (S calls) fs); exact Hd].
      apply try_day_appended in Ht. revert Ht. apply Forall_impl.
      intros r (m & Hm & Hday). eauto.
    + intros H. apply Hmore, (IH (S calls) frames). exact H.
    + discriminate.
Qed.

(** ** Sorting and removing duplicates *)

Lemma insert_row_In (r x : cell * list cell) (l : list (cell * list cell)) :
  In x (insert_row r l) <-> x = r \/ In x l.
Proof.
  induction l as [|r' l IH]; simpl; [intuition|].
  destruct (cell_leb (fst r) (fst r')); simpl; [intuition|].
  rewrite IH. intuition.
Qed.

Lemma sorted_rows_In (x : cell * list cell) (l : list (cell * list cell)) :
  In x (fold_right insert_row [] l) <-> In x l.
Proof.
  induction l as [|r l IH]; simpl; [reflexivity|].
  rewrite insert_row_In, IH. intuition.
Qed.

Lemma seen_stamp (x : Z) (seen : list Z) :
  existsb (same_label (CTimestamp x)) (map CTimestamp seen) = true
  <-> In x seen.
Proof.
  rewrite existsb_exists. split.
  - intros (c & Hc & E). apply in_map_iff in Hc as (y & <- & Hy).
    cbn [same_label] in E. apply Z.eqb_eq in E. now subst.
  - intros H. exists (CTimestamp x). split; [now apply in_map|].
    cbn [same_label]. apply Z.eqb_refl.
Qed.

(** Keeping the first row of every time, on rows in time order. *)
Lemma drop_duplicated_stamps (rs : list (cell * list cell)) :
  forall ms seen : list Z,
    map fst rs = map CTimestamp ms -> StronglySorted Z.le ms ->
    exists ms',
      map fst (drop_duplicated (map CTimestamp seen) rs) = map CTimestamp ms'
      /\ StronglySorted Z.lt ms'
      /\ incl ms' ms
      /\ (forall m, In m ms' -> ~ In m seen).
Proof.
  induction rs as [|r rs IH]; intros [|x ms] seen; simpl; try discriminate.
  - intros _ _. exists []. repeat split; auto using incl_refl.
    constructor.
  - intros [= Hr Hrs] Hs. apply StronglySorted_inv in Hs as [Hs Hx].
    rewrite Hr.
    destruct (existsb _ _) eqn:E.
    + destruct (IH ms seen Hrs Hs) as (ms' & H1 & H2 & H3 & H4).
      exists ms'. repeat split; auto using incl_tl.
    + destruct (IH ms (x :: seen) Hrs Hs) as (ms' & H1 & H2 & H3 & H4).
      exists (x :: ms'). cbn [map] in H1 |- *. rewrite Hr, H1.
      repeat split.
      * constructor; [exact H2|]. apply Forall_forall. intros m Hm.
        rewrite Forall_forall in Hx. specialize (Hx m (H3 m Hm)).
        assert (m <> x) by (intros ->; apply (H4 x Hm); now left). lia.
      * intros m [<-|Hm]; [now left | right; auto].
      * intros m [<-|Hm] Hin.
        -- apply seen_stamp in Hin. congruence.
        -- apply (H4 m Hm). now right.
Qed.

Lemma stamps_of_rows (P : Z -> Prop) (rs : list (cell * list cell)) :
  Forall (fun r => exists m, fst r = CTimestamp m /\ P m) rs ->
  exists ms, map fst rs = map CTimestamp ms /\ Forall P ms.
Proof.
  induction 1 as [|r rs (m & Hm & Hp) _ (ms & Hms & Hall)].
  - exists []. auto.
  - exists (m :: ms). simpl. rewrite Hm, Hms. auto.
Qed.

Lemma stamps_unique (ms ms' : list Z) :
  map CTimestamp ms = map CTimestamp ms' -> ms = ms'.
Proof.
  revert ms'. induction ms as [|m ms IH]; intros [|m' ms']; simpl;
    try discriminate; [reflexivity|].
  intros [= -> H]. f_equal. now apply IH.
Qed.

Lemma concat_some (f : DataFrame) (fs : list DataFrame) :
  exists result, concat (f :: fs) = Ok result.
Proof. unfold concat. eauto. Qed.

Lemma concat_rows (frames : list DataFrame) (result : DataFrame) :
  concat frames = Ok result ->
  forall r, In r (rows result) ->
            exists g r0, In g frames /\ In r0 (rows g) /\ fst r = fst r0.
Proof.
  unfold concat. destruct frames as [|f fs]; [discriminate|].
  intros [= <-] r Hr.
  cbn [rows] in Hr. apply in_app_or in Hr as [Hin|Hr].
  - apply in_map_iff in Hin as (r0 & <- & Hr0).
    exists f, r0. split; [now left | auto].
  - apply in_flat_map in Hr as (g & Hg & Hin).
    apply in_map_iff in Hin as (r0 & <- & Hr0).
    exists g, r0. split; [now right | auto].
Qed.

(** Lines 198-201 on frames whose index holds times with a property. *)
Lemma saved_rows (P : Z -> Prop) (frames : list DataFrame)
    (result : DataFrame) :
  Forall (fun df => Forall (fun r => exists m, fst r = CTimestamp m /\ P m)
                           (rows df)) frames ->
  concat frames = Ok result ->
  exists ms,
    map fst (drop_duplicated [] (rows (sort_index result)))
    = map CTimestamp ms
    /\ StronglySorted Z.lt ms /\ Forall P ms.
Proof.
  intros Hall Hc.
  assert (Hrs : Forall (fun r => exists m, fst r = CTimestamp m /\ P m)
                  (rows result)).
  { apply Forall_forall. intros r Hr.
    destruct (concat_rows _ _ Hc r Hr) as (g & r0 & Hg & Hr0 & ->).
    rewrite Forall_forall in Hall. specialize (Hall g Hg).
    rewrite Forall_forall in Hall. now apply Hall. }
  unfold sort_index. cbn [rows]. set (rs := rows result) in *.
  clearbody rs.
  assert (Hsorted : Forall (fun r => exists m, fst r = CTimestamp m /\ P m)
                      (fold_right insert_row [] rs)).
  { apply Forall_forall. intros r Hr.
    apply (proj1 (sorted_rows_In _ _)) in Hr.
    rewrite Forall_forall in Hrs. exact (Hrs r Hr). }
  destruct (sort_stamps rs) as (ms & Hms & Hs).
  { revert Hrs. apply Forall_impl. intros r (m & Hm & _). eauto. }
  destruct (stamps_of_rows P _ Hsorted) as (ms0 & Hms0 & HP).
  assert (ms0 = ms) by (apply stamps_unique; congruence). subst ms0.
  destruct (drop_duplicated_stamps _ ms [] Hms) as (ms' & H1 & H2 & H3 & _).
  { apply Sorted_StronglySorted; [|exact Hs]. intros x y z. apply Z.le_trans. }
  exists ms'. split; [exact H1|]. split; [exact H2|].
  rewrite Forall_forall in *. auto.
Qed.

(** ** The loop over the prefixes *)

Lemma try_prefixes_saved (P : Z -> Prop) (symbol_code out_dir : string)
    (freq : Z) (days : list Z) (prefixes tried : list string) (calls n : nat)
    (out_path : string) (saved : DataFrame) :
  (forall d, In d days -> forall m, day_of m = d -> P m) ->
  try_prefixes' calls symbol_code freq out_dir days tried prefixes
  = (Ok (out_path, saved), n) ->
  exists ms, map fst (rows saved) = map CTimestamp ms
             /\ StronglySorted Z.lt ms /\ Forall P ms.
Proof.
  intros HP. revert calls tried.
  induction prefixes as [|prefix prefixes IH]; intros calls tried; simpl;
    [discriminate|].
  destruct (download_days' calls (prefix ++ symbol_code)%string (str freq) days)
    as [[frames|e] n'] eqn:Hd; [|discriminate].
  destruct frames as [|f fs]; [apply IH|].
  destruct (concat (f :: fs)) as [result|e] eqn:Hc; [|discriminate].
  intros [= _ <- _]. cbn [rows].
  apply (saved_rows P (f :: fs) result); [|exact Hc].
  apply download_days_frames in Hd. revert Hd.
  apply Forall_impl. intros df. apply Forall_impl.
  intros r (m & Hm & Hin). exists m. split; [exact Hm|].
  now apply (HP (day_of m)).
Qed.

(** X23. The table the driver saves is indexed by times in strictly
    increasing order (no time twice), each on a day from Monday to Friday
    between the start and the end date; bars of other days in the
    provider's answers are not saved. *)
Theorem saved_bars_are_of_requested_days (symbol_code out_dir : string)
    (start_date end_date freq : Z) (n : nat) (out_path : string)
    (saved : DataFrame) :
  download' symbol_code start_date end_date freq out_dir
  = (Ok (out_path, saved), n) ->
  exists ms,
    map fst (rows saved) = map CTimestamp ms
    /\ StronglySorted Z.lt ms
    /\ Forall (fun m => (start_date <= day_of m <= end_date)%Z
                        /\ (weekday (day_of m) < 5)%Z) ms.
Proof.
  unfold download_minute_range_and_save. intros H.
  apply (try_prefixes_saved
           (fun m => (start_date <= day_of m <= end_date)%Z
                     /\ (weekday (day_of m) < 5)%Z)) in H; [exact H|].
  intros d Hd m <-. unfold trading_days_between in Hd.
  apply bdate_range_In in Hd. exact Hd.
Qed.

(** X24. The driver asks the provider under the second prefix only after
    every day has failed under the first: it returns the path of a file
    named after the first prefix (sh for a code that starts with 6, sz for
    any other) after one call per day, or the path of a file named after
    the other prefix after two calls per day, the first round without a
    single day of data. *)
Theorem second_prefix_only_after_first_failed (symbol_code out_dir : string)
    (start_date end_date freq : Z) (n : nat) (out_path : string)
    (saved : DataFrame) :
  download' symbol_code start_date end_date freq out_dir
  = (Ok (out_path, saved), n) ->
  let days := trading_days_between start_date end_date in
  let first := if startswith_6 symbol_code then "sh" else "sz" in
  let second := if startswith_6 symbol_code then "sz" else "sh" in
  let file prefix :=
    path_join out_dir
      (symbol_code ++ "_" ++ str freq ++ "m_" ++ prefix ++ "_ts.csv")%string in
  (out_path = file first /\ n = List.length days)
  \/ (out_path = file second /\ n = (2 * List.length days)%nat
      /\ forall i, (i < List.length days)%nat ->
           try_day' i (first ++ symbol_code)%string (str freq)
             (nth i days 0%Z) = Failed).
Proof.
  intros H days first second file.
  unfold download_minute_range_and_save in H. fold days in H.
  assert (Hp : (if startswith_6 symbol_code then ["sh"; "sz"] else ["sz"; "sh"])
               = [first; second])
    by (subst first second; now destruct (startswith_6 symbol_code)).
  rewrite Hp in H. clear Hp. cbn [try_prefixes] in H.
  destruct (download_days' 0 (first ++ symbol_code)%string (str freq) days)
    as [[frames|e] n1] eqn:H1; [|discriminate].
  destruct frames as [|f fs].
  - apply download_days_no_frame in H1 as [-> Hfail].
    destruct (download_days' _ (second ++ symbol_code)%string (str freq) days)
      as [[frames|e] n2] eqn:H2; [|discriminate].
    destruct frames as [|f fs]; [discriminate|].
    destruct (concat (f :: fs)); [|discriminate].
    injection H as <- _ <-. right.
    apply download_days_calls in H2. split; [reflexivity|].
    split; [lia | exact Hfail].
  - destruct (concat (f :: fs)); [|discriminate].
    injection H as <- _ <-. left.
    apply download_days_calls in H1. split; [reflexivity | lia].
Qed.

(** X25. The driver raises its RuntimeError exactly when no day gives data
    under either prefix: one call per day and prefix, all failed.  Whatever
    the provider or the normaliser raise on the way does not end the run
    with a RuntimeError. *)
Theorem runtime_error_iff_no_day_has_data (symbol_code out_dir : string)
    (start_date end_date freq : Z) :
  let days := trading_days_between start_date end_date in
  let first := if startswith_6 symbol_code then "sh" else "sz" in
  let second := if startswith_6 symbol_code then "sz" else "sh" in
  (exists msg,
     fst (download' symbol_code start_date end_date freq out_dir)
     = Raise (RuntimeError msg))
  <->
  (forall i, (i < List.length days)%nat ->
     try_day' i (first ++ symbol_code)%string (str freq) (nth i days 0%Z)
     = Failed
     /\ try_day' (List.length days + i) (second ++ symbol_code)%string
          (str freq) (nth i days 0%Z)
        = Failed).
Proof.
  intros days first second.
  unfold download_minute_range_and_save. fold days.
  assert (Hp : (if startswith_6 symbol_code then ["sh"; "sz"] else ["sz"; "sh"])
               = [first; second])
    by (subst first second; now destruct (startswith_6 symbol_code)).
  rewrite Hp. clear Hp. cbn [try_prefixes].
  split.
  - intros [msg H].
    destruct (download_days' 0 (first ++ symbol_code)%string (str freq) days)
      as [[frames|e] n1] eqn:H1.
    + destruct frames as [|f fs];
        [|destruct (concat_some f fs) as [res Hc]; rewrite Hc in H;
          discriminate H].
      apply download_days_no_frame in H1 as [-> Hf1].
      destruct (download_days' _ (second ++ symbol_code)%string (str freq) days)
        as [[frames|e] n2] eqn:H2.
      * destruct frames as [|f fs];
          [|destruct (concat_some f fs) as [res Hc]; rewrite Hc in H;
            discriminate H].
        apply download_days_no_frame in H2 as [_ Hf2].
        intros i Hi. split; [exact (Hf1 i Hi) | exact (Hf2 i Hi)].
      * cbn [fst] in H. injection H as ->.
        apply download_days_raise in H2. discriminate.
    + cbn [fst] in H. injection H as ->.
      apply download_days_raise in H1. discriminate.
  - intros H.
    assert (H1 : download_days' 0 (first ++ symbol_code)%string (str freq) days
                 = (Ok [], List.length days)).
    { apply download_days_no_frame. split; [reflexivity|].
      intros i Hi. now apply H. }
    rewrite H1.
    assert (H2 : download_days' (List.length days)
                   (second ++ symbol_code)%string (str freq) days
                 = (Ok [], (List.length days + List.length days)%nat)).
    { apply download_days_no_frame. split; [reflexivity|].
      intros i Hi. now apply H. }
    rewrite H2. cbn [fst]. eauto.
Qed.

End DriverFacts.

Lemma saved_bars_are_of_requested_days_witness :
  fst sample_download = Ok sample_saved
  /\ exists ms,
       map fst (rows (snd sample_saved)) = map CTimestamp ms
       /\ StronglySorted Z.lt ms
       /\ Forall (fun m => (date 2025 1 2 <= day_of m <= date 2025 1 6)%Z
                           /\ (weekday (day_of m) < 5)%Z) ms.
Proof.
  split; [vm_compute; reflexivity|].
  apply (saved_bars_are_of_requested_days sample_repr sample_to_datetime
           sample_to_numeric sample_day_plus_seconds sample_provider
           sample_strftime sample_str sample_path_join sample_repr_set
           "605069" "data" (date 2025 1 2) (date 2025 1 6) 1 6
           (fst sample_saved) (snd sample_saved)).
  vm_compute. reflexivity.
Defined.

Lemma second_prefix_only_after_first_failed_witness :
  (fst sample_saved = "data/605069_1m_sh_ts.csv"%string /\ 6%nat = 3%nat)
  \/ (fst sample_saved = "data/605069_1m_sz_ts.csv"%string
      /\ 6%nat = (2 * 3)%nat
      /\ forall i, (i < 3)%nat ->
           sample_try_day i "sh605069" "1"
             (nth i (trading_days_between (date 2025 1 2) (date 2025 1 6)) 0%Z)
           = Failed).
Proof.
  exact (second_prefix_only_after_first_failed sample_repr sample_to_datetime
           sample_to_numeric sample_day_plus_seconds sample_provider
           sample_strftime sample_str sample_path_join sample_repr_set
           "605069" "data" (date 2025 1 2) (date 2025 1 6) 1 6
           (fst sample_saved) (snd sample_saved) eq_refl).
Defined.

(** * Properties of the sample generator *)

Import py pd pd_frame fix_integer_datetime_to_ts calendar_aux
       download_akshare_minute_range generate_sample_data generate_aux.

Section GenerateFacts.
Local Open Scope string_scope.
Local Open Scope list_scope.

Variable normal : nat -> float -> nat -> float.
Variable randint : nat -> Z -> Z -> nat -> Z.

Lemma map_nth_seq_Z (l : list Z) (d : Z) :
  map (fun i => nth i l d) (seq 0 (List.length l)) = l.
Proof.
  induction l as [|x l IH]; simpl; [reflexivity|].
  now rewrite <- seq_shift, map_map, IH.
Qed.

Lemma range_index_values {A : Type} (f : list cell -> A)
    (rs : list (list cell)) :
  map (fun r => f (snd r)) (range_index rs) = map f rs.
Proof.
  unfold range_index. apply map_values_combine.
  now rewrite length_map, length_seq.
Qed.

Lemma generate_single_day_times (draws : nat) (d : Z) :
  columns (generate_single_day normal randint draws d) = sample_columns
  /\ map (fun r => cell_at 0 (snd r))
       (rows (generate_single_day normal randint draws d))
     = map CTimestamp (day_minutes d).
Proof.
  split; [reflexivity|].
  unfold generate_single_day. cbn [rows]. fold (day_minutes d).
  rewrite range_index_values, map_map. cbn [cell_at nth].
  rewrite <- (map_map (fun i => nth i (day_minutes d) 0%Z) CTimestamp).
  now rewrite map_nth_seq_Z.
Qed.

Lemma generate_frames_times (draws : nat) (start : Z) (offsets : list nat) :
  Forall (fun g => columns g = sample_columns)
    (generate_frames normal randint draws start offsets)
  /\ flat_map (fun g => map (fun r => cell_at 0 (snd r)) (rows g))
       (generate_frames normal randint draws start offsets)
     = map CTimestamp
         (flat_map day_minutes
            (map (fun i => (start + Z.of_nat i)%Z) offsets)).
Proof.
  revert draws. induction offsets as [|i offsets IH]; intros draws.
  - split; [constructor | reflexivity].
  - cbn [generate_frames flat_map map].
    destruct (generate_single_day_times draws (start + Z.of_nat i)) as [Hc Ht].
    destruct (IH (draws + 6)%nat) as [Hcs Hts].
    split; [now constructor|].
    now rewrite Ht, Hts, map_app.
Qed.

Lemma concat_columns_same (frames : list DataFrame) (acc : list string) :
  Forall (fun g => columns g = acc) frames ->
  fold_left
    (fun acc f => acc ++ filter (fun c => negb (mem c acc)) (columns f))
    frames acc = acc.
Proof.
  induction 1 as [|g frames Hg _ IH]; simpl; [reflexivity|].
  replace (filter (fun c => negb (mem c acc)) (columns g)) with (@nil string).
  - now rewrite app_nil_r.
  - symmetry. apply filter_none. intros c Hc. rewrite Hg in Hc.
    apply mem_In in Hc. now rewrite Hc.
Qed.

(** [pd.concat] on sample frames: the time column of the result. *)
Lemma concat_sample_frames (f : DataFrame) (fs : list DataFrame) :
  Forall (fun g => columns g = sample_columns) (f :: fs) ->
  exists df,
    concat (f :: fs) = Ok df
    /\ columns df = sample_columns
    /\ map (fun r => cell_at 0 (snd r)) (rows df)
       = flat_map (fun g => map (fun r => cell_at 0 (snd r)) (rows g))
           (f :: fs).
Proof.
  intros Hall. unfold concat. eexists. split; [reflexivity|].
  cbn [columns rows].
  assert (Hc : concat_columns (f :: fs) = sample_columns).
  { unfold concat_columns. cbn [fold_left app filter mem existsb].
    apply Forall_inv in Hall as Hf. rewrite Hf.
    change (filter (fun _ => negb false) sample_columns) with sample_columns.
    apply concat_columns_same. now apply Forall_inv_tail in Hall. }
  rewrite Hc. split; [reflexivity|].
  generalize (f :: fs) Hall. intros frames Hframes.
  induction Hframes as [|g frames Hg _ IH]; [reflexivity|].
  cbn [flat_map]. rewrite map_app, IH. f_equal.
  rewrite map_map. apply map_ext. intros r. cbn [snd].
  unfold reindex_row. rewrite Hg. reflexivity.
Qed.

(** The time column of the generated sample. *)
Lemma generate_multiple_days_times (n_days start_date : Z) :
  (1 <= n_days)%Z ->
  exists df,
    generate_multiple_days normal randint n_days start_date = Ok df
    /\ getcol df "datetime"
       = Ok (map CTimestamp
               (trading_minutes_for_days
                  (consecutive_days start_date (Z.to_nat n_days)))).
Proof.
  intros Hn. unfold generate_multiple_days.
  destruct (generate_frames_times 0 start_date (seq 0 (Z.to_nat n_days)))
    as [Hcols Htimes].
  destruct (generate_frames normal randint 0 start_date
              (seq 0 (Z.to_nat n_days))) as [|f fs] eqn:Hf.
  - exfalso. destruct (Z.to_nat n_days) as [|k] eqn:Hk; [lia|].
    discriminate Hf.
  - destruct (concat_sample_frames f fs Hcols) as (df & -> & Hc & Hr).
    eexists. split; [reflexivity|].
    unfold getcol. cbn [columns rows]. rewrite Hc. cbn [sample_columns index_of].
    rewrite String.eqb_refl. f_equal.
    rewrite range_index_values, map_map, Hr, Htimes.
    now rewrite trading_minutes_flat.
Qed.

(** X26. The sample of [n_days] days holds, in its time column, exactly the
    minutes the repair script lays over the [n_days] consecutive calendar
    days from the start date: 242 a day, both sessions, in time order. *)
Theorem sample_times_are_session_minutes (n_days start_date : Z) :
  (1 <= n_days)%Z ->
  exists df ms,
    generate_multiple_days normal randint n_days start_date = Ok df
    /\ getcol df "datetime" = Ok (map CTimestamp ms)
    /\ ms = trading_minutes_for_days
              (consecutive_days start_date (Z.to_nat n_days))
    /\ len ms = (242 * n_days)%Z
    /\ ascending ms.
Proof.
  intros Hn.
  destruct (generate_multiple_days_times n_days start_date Hn) as (df & H1 & H2).
  exists df. eexists. split; [exact H1|]. split; [exact H2|].
  split; [reflexivity|]. split.
  - rewrite trading_minutes_length. unfold minutes_per_day, len.
    unfold consecutive_days. rewrite length_map, length_seq. lia.
  - apply trading_minutes_ascending. unfold consecutive_days.
    apply (seq_shift_ascending start_date (Z.to_nat n_days) 0).
Qed.

(** X27. A sample of six days or more always holds bars of a Saturday or a
    Sunday: the generator walks calendar days, not business days. *)
Theorem long_sample_has_weekend_bars (n_days start_date : Z) :
  (6 <= n_days)%Z ->
  exists df col m,
    generate_multiple_days normal randint n_days start_date = Ok df
    /\ getcol df "datetime" = Ok col
    /\ In (CTimestamp m) col
    /\ (5 <= weekday (day_of m))%Z.
Proof.
  intros Hn.
  destruct (generate_multiple_days_times n_days start_date) as (df & H1 & H2);
    [lia|].
  set (i := if (weekday start_date =? 6)%Z then 0%Z
            else (5 - weekday start_date)%Z).
  assert (Hi : (0 <= i <= 5)%Z /\ (5 <= weekday (start_date + i))%Z).
  { subst i. pose proof (weekday_range start_date) as Hw. unfold weekday in *.
    destruct (Z.eqb_spec ((start_date + 3) mod 7) 6);
      Z.div_mod_to_equations; lia. }
  exists df. eexists. exists (at_time (start_date + i) 9 30).
  split; [exact H1|]. split; [exact H2|].
  assert (Hday : day_of (at_time (start_date + i) 9 30) = (start_date + i)%Z).
  { unfold day_of, at_time. Z.div_mod_to_equations. lia. }
  split; [|now rewrite Hday].
  apply in_map. apply trading_minutes_In. rewrite Hday. split.
  - unfold consecutive_days. apply in_map_iff. exists (Z.to_nat i).
    split; [lia|]. apply in_seq. lia.
  - unfold in_session, minute_of_day, at_time. left.
    Z.div_mod_to_equations. lia.
Qed.

End GenerateFacts.

Lemma sample_times_are_session_minutes_witness :
  exists df ms,
    generate_multiple_days still_normal still_randint 10 (date 2025 1 2)
    = Ok df
    /\ getcol df "datetime"%string = Ok (map CTimestamp ms)
    /\ ms = trading_minutes_for_days
              (consecutive_days (date 2025 1 2) (Z.to_nat 10))
    /\ len ms = (242 * 10)%Z
    /\ ascending ms.
Proof.
  apply (sample_times_are_session_minutes still_normal still_randint 10
           (date 2025 1 2)).
  lia.
Defined.

Lemma long_sample_has_weekend_bars_witness :
  exists df col m,
    generate_multiple_days still_normal still_randint 10 (date 2025 1 2)
    = Ok df
    /\ getcol df "datetime"%string = Ok col
    /\ In (CTimestamp m) col
    /\ (5 <= weekday (day_of m))%Z.
Proof.
  apply (long_sample_has_weekend_bars still_normal still_randint 10
           (date 2025 1 2)).
  lia.
Defined.
